(** * ipv6request: the lookup-and-cache layer of [ipv6request.go]

    A shallow embedding of the TTL cache, of the retry wrapper
    [retryWithBackoff] and of the three lookups [lookupASNByIP],
    [lookupIPv6] and [lookupASNDetails], with the properties the
    specification states about them. *)

From Stdlib Require Import ZArith String Ascii List Bool Lia DecimalString.
From stdpp Require Import base option gmap strings list fin_maps.

Import ListNotations.
Local Open Scope string_scope.
Local Open Scope list_scope.
Local Open Scope Z_scope.

(** ** Go's [time] package: the part the program uses *)

Module GoTime.

(** [time.Duration] is an [int64] count of nanoseconds. *)
Definition Duration := Z.

Definition minDuration : Duration := - 2 ^ 63.
Definition maxDuration : Duration := 2 ^ 63 - 1.

Definition Nanosecond : Duration := 1.
Definition Second : Duration := 1000000000.
Definition Minute : Duration := 60 * Second.
Definition Hour : Duration := 60 * Minute.

(** [int64] arithmetic wraps around. *)
Definition wrap64 (x : Z) : Z := (x + 2 ^ 63) mod 2 ^ 64 - 2 ^ 63.

Definition mul64 (x y : Z) : Z := wrap64 (x * y).

(** A [time.Time] as the reading of the monotonic clock, in nanoseconds. *)
Definition Time := Z.

(** [t.Sub(u)]: the difference, saturated to the range of a [Duration]. *)
Definition Sub (t u : Time) : Duration :=
  if t - u <? minDuration then minDuration
  else if maxDuration <? t - u then maxDuration
  else t - u.

(** [time.Since(t)] is [time.Now().Sub(t)]; the clock reading is explicit. *)
Definition Since (now t : Time) : Duration := Sub now t.

End GoTime.
Import GoTime.

(** ** The TTL cache (ipv6request.go, lines 25-66) *)

Section CacheDef.

(** The dynamic values an [interface{}] can hold; [None] is the nil
    interface. *)
Context {V : Type}.

Record CacheEntry := mkCacheEntry {
  value : option V;
  timestamp : Time;
  ttl : Duration
}.

(** [Cache.data]; the lock [mu] only serialises the two methods, each of
    which is modelled as one atomic step. *)
Record Cache := mkCache { data : gmap string CacheEntry }.

(** [var cache = &Cache{data: make(map[string]CacheEntry)}] *)
Definition newCache : Cache := mkCache ∅.

(** [func (c *Cache) Get(key string) (interface{}, bool)], reading the
    clock at [now]. *)
Definition Cache_Get (c : Cache) (key : string) (now : Time) : option V * bool :=
  match data c !! key with
  | None => (None, false)
  | Some entry =>
      if ttl entry <? Since now (timestamp entry)
      then (None, false)
      else (value entry, true)
  end.

(** [func (c *Cache) Set(key string, value interface{}, ttl time.Duration)],
    reading the clock at [now]. *)
Definition Cache_Set (c : Cache) (key : string) (v : option V) (d : Duration)
    (now : Time) : Cache :=
  mkCache (<[key := mkCacheEntry v now d]> (data c)).

End CacheDef.

Arguments CacheEntry : clear implicits.
Arguments Cache : clear implicits.

(** ** Values, heap and HTTP responses *)

(** [fmt.Sprintf("%d", n)] *)
Definition sprintf_d (n : Z) : string := NilZero.string_of_int (Z.to_int n).

(** Addresses of heap objects. *)
Definition loc := nat.

(** [type ASNDetails struct] (lines 124-140). The [[]string] fields are kept
    as the lists of their elements: they are reachable only through the
    record that holds them. *)
Record ASNDetails := mkASNDetails {
  ASN : string;
  Name : string;
  DescriptionShort : string;
  DescriptionFull : list string;
  CountryCode : string;
  Website : string;
  EmailContacts : list string;
  AbuseContacts : list string;
  TrafficRatio : string;
  OwnerAddress : list string;
  RIRAllocation : string;
  IANAAssignment : string;
  WhoisServer : string;
  DateUpdated : string
}.

(** A [[]string] value: nil, or the address of its backing array. The
    program never reslices, so a slice always spans its whole array. *)
Definition slice := option loc.

(** The heap: the [ASNDetails] records that [&ASNDetails{...}] allocates and
    the backing arrays of the [[]string] slices, each addressed by position. *)
Record Heap := mkHeap {
  objs : list ASNDetails;
  arrs : list (list string)
}.

Definition emptyHeap : Heap := mkHeap [] [].

(** The elements of a slice. *)
Definition elems (h : Heap) (s : slice) : list string :=
  match s with
  | None => []
  | Some a => default [] (arrs h !! a)
  end.

(** The dynamic types of the values the program stores in the cache:
    [[]string] and [*ASNDetails]. *)
Inductive Dyn :=
| DStrings (s : slice)
| DDetails (p : loc).

(** [*http.Response]: the status code and the bytes of the body. *)
Record Response := mkResponse {
  StatusCode : Z;
  Body : string
}.

(** A Go [error] value: nil, or its message. *)
Definition error := option string.

(** What a request function returns: a [*http.Response] and an [error]. *)
Definition FnResult : Type := option Response * error.

(** The decoded JSON envelopes (lines 68-122), as the [Data] object of
    each; of the nested [rir_allocation] and [iana_assignment] objects only
    the fields the program reads are kept. *)
Record PrefixObj := mkPrefixObj { Prefix : string }.

Record bgpViewData := mkBgpViewData { IPv6Prefixes : list PrefixObj }.

Record IPPrefix := mkIPPrefix {
  ip_ASN : Z;
  ip_Name : string;
  ip_Description : string;
  ip_CountryCode : string
}.

Record bgpViewIPData := mkBgpViewIPData {
  IP : string;
  Prefixes : list IPPrefix
}.

Record bgpViewASNData := mkBgpViewASNData {
  asn_ASN : Z;
  asn_Name : string;
  asn_DescriptionShort : string;
  asn_DescriptionFull : list string;
  asn_CountryCode : string;
  asn_Website : string;
  asn_EmailContacts : list string;
  asn_AbuseContacts : list string;
  asn_TrafficRatio : string;
  asn_OwnerAddress : list string;
  asn_RIRName : string;
  asn_IANADescription : string;
  asn_WhoisServer : string;
  asn_DateUpdated : string
}.

(** The result of [json.NewDecoder(body).Decode(&v)]: an error message or
    the decoded value. *)
Inductive Decoded (A : Type) :=
| DecodeErr (msg : string)
| DecodeOk (a : A).
Arguments DecodeErr {A} msg.
Arguments DecodeOk {A} a.

(** ** What a run leaves behind: calls, log lines, sleeps, closed bodies *)

Inductive LogLine :=
| LogRequestFailed (attempt maxRetries : Z) (waitTime : Duration) (err : string)
| LogRateLimited (waitTime : Duration) (attempt maxRetries : Z).

Inductive Event :=
| EvCall (r : FnResult)
| EvLog (l : LogLine)
| EvSleep (d : Duration)
| EvClose (r : Response).

Definition calls_of (tr : list Event) : list FnResult :=
  omap (fun e => match e with EvCall r => Some r | _ => None end) tr.

Definition sleeps_of (tr : list Event) : list Duration :=
  omap (fun e => match e with EvSleep d => Some d | _ => None end) tr.

(** A run either returns or panics. *)
Inductive PanicKind := NilDereference | TypeAssertion | IndexOutOfRange.

Inductive Result (A : Type) :=
| Ret (a : A)
| Panic (p : PanicKind).
Arguments Ret {A} a.
Arguments Panic {A} p.

(** ** The wait before a retry *)

(** [time.Duration(math.Pow(2, float64(e)))]: the power is exact in a
    [float64]; the conversion to [int64] is exact below [2^63] (above, Go
    leaves the result to the implementation; amd64 yields the least
    [int64]). *)
Definition pow2_int64 (e : Z) : Z :=
  if e <? 63 then 2 ^ e else minDuration.

(** [time.Duration(math.Pow(2, float64(attempt))) * time.Second] *)
Definition waitTime_error (attempt : Z) : Duration :=
  mul64 (pow2_int64 attempt) Second.

(** [time.Duration(math.Pow(2, float64(attempt+2))) * time.Second] *)
Definition waitTime_429 (attempt : Z) : Duration :=
  mul64 (pow2_int64 (attempt + 2)) Second.

(** ** The surroundings of the program *)

(** The outside world: the network behind [httpClient.Get], the clock
    behind [time.Now] and [time.Sleep], and the JSON decoder. *)
Class Env := mkEnv {
  World : Type;
  httpClient_Get : string -> World -> FnResult * World;
  time_Now : World -> Time;
  time_Sleep : Duration -> World -> World;
  decode_bgpViewData : string -> Decoded bgpViewData;
  decode_bgpViewIPData : string -> Decoded bgpViewIPData;
  decode_bgpViewASNData : string -> Decoded bgpViewASNData
}.

(** ** The program, over its surroundings *)

Section Program.

Context {env : Env}.

(** The state a run threads: the process-wide [cache], the heap, the
    world, and the events so far (oldest first). *)
Record State := mkState {
  st_cache : Cache Dyn;
  st_heap : Heap;
  st_world : World;
  st_trace : list Event
}.

Definition M (A : Type) : Type := State -> Result A * State.

Definition ret {A} (a : A) : M A := fun s => (Ret a, s).

Definition bind {A B} (m : M A) (k : A -> M B) : M B :=
  fun s =>
    match m s with
    | (Ret a, s') => k a s'
    | (Panic p, s') => (Panic p, s')
    end.

Definition panic {A} (p : PanicKind) : M A := fun s => (Panic p, s).

Notation "x <- m ;; k" := (bind m (fun x => k))
  (at level 20, m at level 99, k at level 200, only parsing).
Notation "m ;; k" := (bind m (fun _ => k))
  (at level 100, k at level 200, only parsing, right associativity).

Definition emit (e : Event) : M unit :=
  fun s => (Ret tt, mkState (st_cache s) (st_heap s) (st_world s)
                            (st_trace s ++ [e])).

(** [fn()] *)
Definition call (fn : World -> FnResult * World) : M FnResult :=
  fun s =>
    let (r, w) := fn (st_world s) in
    (Ret r, mkState (st_cache s) (st_heap s) w (st_trace s ++ [EvCall r])).

(** [time.Sleep(d)] *)
Definition sleep (d : Duration) : M unit :=
  fun s => (Ret tt, mkState (st_cache s) (st_heap s)
                            (time_Sleep d (st_world s))
                            (st_trace s ++ [EvSleep d])).

(** [log.Printf(...)] *)
Definition log_Printf (l : LogLine) : M unit := emit (EvLog l).

(** [resp.Body.Close()] *)
Definition Body_Close (r : Response) : M unit := emit (EvClose r).

(** [defer resp.Body.Close()]: the body is closed when the function
    leaves, by return or by panic. *)
Definition defer_Body_Close {A} (r : Response) (m : M A) : M A :=
  fun s =>
    let (o, s') := m s in
    (o, mkState (st_cache s') (st_heap s') (st_world s')
                (st_trace s' ++ [EvClose r])).

(** [cache.Get(key)] *)
Definition cache_Get (key : string) : M (option Dyn * bool) :=
  fun s => (Ret (Cache_Get (st_cache s) key (time_Now (st_world s))), s).

(** [cache.Set(key, value, ttl)] *)
Definition cache_Set (key : string) (v : option Dyn) (d : Duration) : M unit :=
  fun s =>
    (Ret tt, mkState (Cache_Set (st_cache s) key v d (time_Now (st_world s)))
                     (st_heap s) (st_world s) (st_trace s)).

(** [&ASNDetails{...}]: a new record on the heap. *)
Definition new_ASNDetails (d : ASNDetails) : M loc :=
  fun s =>
    let h := st_heap s in
    (Ret (length (objs h)),
     mkState (st_cache s) (mkHeap (objs h ++ [d]) (arrs h))
             (st_world s) (st_trace s)).

(** [[]string{x1, ..., xn}]: a new backing array. *)
Definition new_strings (l : list string) : M slice :=
  fun s =>
    let h := st_heap s in
    (Ret (Some (length (arrs h))),
     mkState (st_cache s) (mkHeap (objs h) (arrs h ++ [l]))
             (st_world s) (st_trace s)).

(** [append(sl, x)]. The slice being built in [lookupIPv6] has no other
    holder, so growing in place and reallocating cannot be told apart; the
    model reallocates (a slice whose capacity is its length). *)
Definition append (sl : slice) (x : string) : M slice :=
  fun s => new_strings (elems (st_heap s) sl ++ [x]) s.

(** [sl[i]] *)
Definition index (sl : slice) (i : nat) : M string :=
  fun s =>
    match elems (st_heap s) sl !! i with
    | Some x => (Ret x, s)
    | None => (Panic IndexOutOfRange, s)
    end.

(** *** [retryWithBackoff] (lines 526-564) *)

(** The loop [for attempt := 0; attempt < maxRetries; attempt++], by the
    number [rem] of iterations that remain; [resp] and [err] are the
    function's two variables. *)
Fixpoint retry_loop (fn : World -> FnResult * World) (maxRetries : Z)
    (rem : nat) (attempt : Z) (resp : option Response) (err : error)
    : M FnResult :=
  match rem with
  | O => ret (resp, err)
  | S rem' =>
      r <- call fn ;;
      let resp := fst r in
      let err := snd r in
      match err with
      | Some e =>
          if attempt =? maxRetries - 1 then ret (None, Some e)
          else
            let waitTime := waitTime_error attempt in
            log_Printf (LogRequestFailed (attempt + 1) maxRetries waitTime e) ;;
            sleep waitTime ;;
            retry_loop fn maxRetries rem' (attempt + 1) resp err
      | None =>
          match resp with
          | None => panic NilDereference
          | Some rsp =>
              if StatusCode rsp =? 429 then
                if attempt =? maxRetries - 1 then ret (Some rsp, None)
                else
                  Body_Close rsp ;;
                  let waitTime := waitTime_429 attempt in
                  log_Printf (LogRateLimited waitTime (attempt + 1) maxRetries) ;;
                  sleep waitTime ;;
                  retry_loop fn maxRetries rem' (attempt + 1) resp err
              else ret (Some rsp, None)
          end
      end
  end.

Definition retryWithBackoff (fn : World -> FnResult * World)
    (maxRetries : Z) : M FnResult :=
  retry_loop fn maxRetries (Z.to_nat maxRetries) 0 None None.

(** A write through a [*ASNDetails] pointer [p], such as [p.Name = v]: the
    record at [p] becomes [f] of what it was. *)
Definition update_ASNDetails (p : loc) (f : ASNDetails -> ASNDetails) : M unit :=
  fun s =>
    let h := st_heap s in
    match objs h !! p with
    | None => (Panic NilDereference, s)
    | Some _ =>
        (Ret tt, mkState (st_cache s) (mkHeap (alter f p (objs h)) (arrs h))
                         (st_world s) (st_trace s))
    end.

Definition set_RIRAllocation (v : string) (d : ASNDetails) : ASNDetails :=
  mkASNDetails (ASN d) (Name d) (DescriptionShort d) (DescriptionFull d)
    (CountryCode d) (Website d) (EmailContacts d) (AbuseContacts d)
    (TrafficRatio d) (OwnerAddress d) v (IANAAssignment d)
    (WhoisServer d) (DateUpdated d).

Definition set_IANAAssignment (v : string) (d : ASNDetails) : ASNDetails :=
  mkASNDetails (ASN d) (Name d) (DescriptionShort d) (DescriptionFull d)
    (CountryCode d) (Website d) (EmailContacts d) (AbuseContacts d)
    (TrafficRatio d) (OwnerAddress d) (RIRAllocation d) v
    (WhoisServer d) (DateUpdated d).

Definition when (b : bool) (m : M unit) : M unit := if b then m else ret tt.

(** *** [lookupASNDetails] (lines 466-524) *)

Definition lookupASNDetails (asn : string) : M (option loc * error) :=
  let cacheKey := "asn_details_" +:+ asn in
  c <- cache_Get cacheKey ;;
  if snd c then
    match fst c with
    | Some (DDetails p) => ret (Some p, None)
    | _ => panic TypeAssertion
    end
  else
    let bgpURL := "https://api.bgpview.io/asn/" +:+ asn in
    r <- retryWithBackoff (httpClient_Get bgpURL) 3 ;;
    match snd r with
    | Some e =>
        ret (None, Some ("BGPView ASN details API request failed: " +:+ e))
    | None =>
        match fst r with
        | None => panic NilDereference
        | Some resp =>
            defer_Body_Close resp
              (if negb (StatusCode resp =? 200) then
                 if StatusCode resp =? 429 then
                   ret (None, Some ("BGPView API rate limit exceeded for ASN "
                                    +:+ asn +:+ " details"))
                 else
                   ret (None, Some ("BGPView ASN details API returned status "
                                    +:+ sprintf_d (StatusCode resp)
                                    +:+ " for ASN " +:+ asn))
               else
                 match decode_bgpViewASNData (Body resp) with
                 | DecodeErr e =>
                     ret (None,
                          Some ("failed to parse BGPView ASN details response for "
                                +:+ asn +:+ ": " +:+ e))
                 | DecodeOk bgpASN =>
                     details <- new_ASNDetails
                       (mkASNDetails
                          (sprintf_d (asn_ASN bgpASN))
                          (asn_Name bgpASN)
                          (asn_DescriptionShort bgpASN)
                          (asn_DescriptionFull bgpASN)
                          (asn_CountryCode bgpASN)
                          (asn_Website bgpASN)
                          (asn_EmailContacts bgpASN)
                          (asn_AbuseContacts bgpASN)
                          (asn_TrafficRatio bgpASN)
                          (asn_OwnerAddress bgpASN)
                          "" ""
                          (asn_WhoisServer bgpASN)
                          (asn_DateUpdated bgpASN)) ;;
                     when (negb (String.eqb (asn_RIRName bgpASN) ""))
                       (update_ASNDetails details
                          (set_RIRAllocation (asn_RIRName bgpASN))) ;;
                     when (negb (String.eqb (asn_IANADescription bgpASN) ""))
                       (update_ASNDetails details
                          (set_IANAAssignment (asn_IANADescription bgpASN))) ;;
                     cache_Set cacheKey (Some (DDetails details)) (2 * Hour) ;;
                     ret (Some details, None)
                 end)
        end
    end.

(** *** [lookupASNByIP] (lines 566-614) *)

Definition lookupASNByIP (ip : string) : M (string * string * error) :=
  let cacheKey := "ip_" +:+ ip in
  c <- cache_Get cacheKey ;;
  if snd c then
    match fst c with
    | Some (DStrings result) =>
        r0 <- index result 0 ;;
        r1 <- index result 1 ;;
        ret (r0, r1, None)
    | _ => panic TypeAssertion
    end
  else
    let bgpURL := "https://api.bgpview.io/ip/" +:+ ip in
    r <- retryWithBackoff (httpClient_Get bgpURL) 3 ;;
    match snd r with
    | Some e => ret ("", "", Some ("BGPView IP API request failed: " +:+ e))
    | None =>
        match fst r with
        | None => panic NilDereference
        | Some resp =>
            defer_Body_Close resp
              (if negb (StatusCode resp =? 200) then
                 if StatusCode resp =? 429 then
                   ret ("", "",
                        Some ("BGPView API rate limit exceeded for IP " +:+ ip
                              +:+ ". Please try again in a few minutes"))
                 else
                   ret ("", "",
                        Some ("BGPView IP API returned status "
                              +:+ sprintf_d (StatusCode resp)
                              +:+ " for IP " +:+ ip))
               else
                 match decode_bgpViewIPData (Body resp) with
                 | DecodeErr e =>
                     ret ("", "",
                          Some ("failed to parse BGPView IP response for "
                                +:+ ip +:+ ": " +:+ e))
                 | DecodeOk bgpIP =>
                     match Prefixes bgpIP with
                     | first :: _ =>
                         let asn := sprintf_d (ip_ASN first) in
                         let name :=
                           if String.eqb (ip_Name first) ""
                           then ip_Description first
                           else ip_Name first in
                         sl <- new_strings [asn; name] ;;
                         cache_Set cacheKey (Some (DStrings sl)) (30 * Minute) ;;
                         ret (asn, name, None)
                     | [] =>
                         ret ("", "", Some ("no ASN found for IP " +:+ ip))
                     end
                 end)
        end
    end.

(** *** [lookupIPv6] (lines 616-657) *)

(** [for _, p := range bgp.Data.IPv6Prefixes { ipv6 = append(ipv6, p.Prefix) }] *)
Fixpoint append_prefixes (ps : list PrefixObj) (ipv6 : slice) : M slice :=
  match ps with
  | [] => ret ipv6
  | p :: ps' =>
      ipv6' <- append ipv6 (Prefix p) ;;
      append_prefixes ps' ipv6'
  end.

Definition lookupIPv6 (asn : string) : M (slice * error) :=
  let cacheKey := "asn_" +:+ asn in
  c <- cache_Get cacheKey ;;
  if snd c then
    match fst c with
    | Some (DStrings sl) => ret (sl, None)
    | _ => panic TypeAssertion
    end
  else
    let bgpURL := "https://api.bgpview.io/asn/" +:+ asn +:+ "/prefixes?type=ipv6" in
    r <- retryWithBackoff (httpClient_Get bgpURL) 3 ;;
    match snd r with
    | Some e => ret (None, Some ("BGPView API request failed: " +:+ e))
    | None =>
        match fst r with
        | None => panic NilDereference
        | Some resp =>
            defer_Body_Close resp
              (if negb (StatusCode resp =? 200) then
                 if StatusCode resp =? 429 then
                   ret (None,
                        Some ("BGPView API rate limit exceeded for ASN " +:+ asn
                              +:+ ". Please try again in a few minutes"))
                 else
                   ret (None,
                        Some ("BGPView API returned status "
                              +:+ sprintf_d (StatusCode resp)
                              +:+ " for ASN " +:+ asn))
               else
                 match decode_bgpViewData (Body resp) with
                 | DecodeErr e =>
                     ret (None,
                          Some ("failed to parse BGPView response for ASN "
                                +:+ asn +:+ ": " +:+ e))
                 | DecodeOk bgp =>
                     ipv6 <- append_prefixes (IPv6Prefixes bgp) None ;;
                     cache_Set cacheKey (Some (DStrings ipv6)) (1 * Hour) ;;
                     ret (ipv6, None)
                 end)
        end
    end.

(** *** The vocabulary of the properties *)

(** The events a computation adds to the trace. *)
Definition adds {A} (m : M A) (s : State) (tr : list Event) : Prop :=
  st_trace (snd (m s)) = st_trace s ++ tr.

(** One iteration of the loop, spelled out on the state. *)
Definition after_call (s : State) (r : FnResult) (w : World) : State :=
  mkState (st_cache s) (st_heap s) w (st_trace s ++ [EvCall r]).

Definition after_wait (s : State) (w : World) (evs : list Event)
    (d : Duration) : State :=
  mkState (st_cache s) (st_heap s) (time_Sleep d w)
          (st_trace s ++ evs ++ [EvSleep d]).

(** A request function that fails with a transport error every time. *)
Definition always_errors (fn : World -> FnResult * World) : Prop :=
  forall w, snd (fst (fn w)) <> None.

(** A request function that is answered 429 every time. *)
Definition always_429 (fn : World -> FnResult * World) : Prop :=
  forall w, exists rsp, fst (fn w) = (Some rsp, None) /\ StatusCode rsp = 429.


(** The wait [d] stands in the trace between attempt number [i] (counted
    from zero), which ended in [r], and the attempt after it: [i] calls and
    [i] waits come before that attempt, neither a call nor a wait between
    it and the wait, and the next call right after the wait. *)
Definition waits_between (tr : list Event) (i : nat) (r : FnResult)
    (d : Duration) : Prop :=
  exists pre mid r' post,
    tr = pre ++ EvCall r :: mid ++ EvSleep d :: EvCall r' :: post /\
    length (calls_of pre) = i /\
    length (sleeps_of pre) = i /\
    calls_of mid = [] /\
    sleeps_of mid = [].

(** The URL each lookup requests. *)
Definition prefixes_url (asn : string) : string :=
  "https://api.bgpview.io/asn/" +:+ asn +:+ "/prefixes?type=ipv6".
Definition ip_url (ip : string) : string :=
  "https://api.bgpview.io/ip/" +:+ ip.

(** What [cache.Get(key)] answers in state [s]. *)
Definition cached (s : State) (key : string) : option Dyn * bool :=
  Cache_Get (st_cache s) key (time_Now (st_world s)).

(** A run [x] started in [s] that, if it returned an error, left the
    cache as it was. *)
Definition error_keeps_cache {A} (err_of : A -> error) (s : State)
    (x : Result A * State) : Prop :=
  forall a e, fst x = Ret a -> err_of a = Some e ->
              st_cache (snd x) = st_cache s.

(** A run [x] that, if it returned the value [v] without error, left [v]
    itself in the cache under [key], unexpired. *)
Definition result_is_cached {A} (dyn_of : A -> option Dyn) (key : string)
    (x : Result (A * error) * State) : Prop :=
  forall a v, fst x = Ret (a, None) -> dyn_of a = Some v ->
              cached (snd x) key = (Some v, true).

End Program.

Notation "x <- m ;; k" := (bind m (fun x => k))
  (at level 20, m at level 99, k at level 200, only parsing).
Notation "m ;; k" := (bind m (fun _ => k))
  (at level 100, k at level 200, only parsing, right associativity).

(** ** A scripted world, to run the program on concrete inputs *)

Module Scripted.

(** The responses the network will give, in order; the clock; and the
    URLs requested so far. *)
Record SWorld := mkSWorld {
  script : list FnResult;
  clock : Time;
  requested : list string
}.

(** Each request consumes one scripted response; when the script has run
    out the transport fails. *)
Definition Get (url : string) (w : SWorld) : FnResult * SWorld :=
  match script w with
  | [] => ((None, Some "connection refused"),
           mkSWorld [] (clock w) (requested w ++ [url]))
  | r :: rest => (r, mkSWorld rest (clock w) (requested w ++ [url]))
  end.

Definition Now (w : SWorld) : Time := clock w.

Definition Sleep (d : Duration) (w : SWorld) : SWorld :=
  mkSWorld (script w) (clock w + d) (requested w).

(** Stand-ins for [encoding/json] on the bodies the examples use: an empty
    body does not decode; the body [[]] decodes to an empty list; any other
    body is taken as the one text field of a single record. *)
Definition decodeData (body : string) : Decoded bgpViewData :=
  if String.eqb body "" then DecodeErr "EOF"
  else if String.eqb body "[]" then DecodeOk (mkBgpViewData [])
  else DecodeOk (mkBgpViewData [mkPrefixObj body]).

Definition decodeIPData (body : string) : Decoded bgpViewIPData :=
  if String.eqb body "" then DecodeErr "EOF"
  else if String.eqb body "[]" then DecodeOk (mkBgpViewIPData "" [])
  else DecodeOk (mkBgpViewIPData "" [mkIPPrefix 64500 "" body "US"]).

Definition decodeASNData (body : string) : Decoded bgpViewASNData :=
  if String.eqb body "" then DecodeErr "EOF"
  else DecodeOk (mkBgpViewASNData 64500 body "" [] "US" "" [] [] "" []
                                  "ARIN" "" "" "").

(** The scripted surroundings. *)
Definition scripted : Env :=
  mkEnv SWorld Get Now Sleep decodeData decodeIPData decodeASNData.

End Scripted.

(** ** The program on the scripted world *)

Import Scripted.

(** A fresh process: empty cache and heap, clock at zero, and the responses
    [sc] waiting on the network. *)
Definition start (sc : list FnResult) : State (env := scripted) :=
  mkState (env := scripted) newCache emptyHeap (mkSWorld sc 0 []) [].

Definition run_retry := retryWithBackoff (env := scripted).
Definition run_lookupIPv6 := lookupIPv6 (env := scripted).
Definition run_lookupASNByIP := lookupASNByIP (env := scripted).
Definition run_lookupASNDetails := lookupASNDetails (env := scripted).

(** Request functions with a fixed answer. *)
Definition refuse (w : SWorld) : FnResult * SWorld :=
  ((None, Some "connection refused"), w).

Definition busy (w : SWorld) : FnResult * SWorld :=
  ((Some (mkResponse 429 ""), None), w).

Definition ok200 (body : string) : FnResult := (Some (mkResponse 200 body), None).

(** A process that has served one posted form: the address, the details
    and the prefixes of AS64500 were fetched, and are in the cache. *)
Definition warm : State (env := scripted) :=
  snd (run_lookupIPv6 "64500"
         (snd (run_lookupASNDetails "64500"
                 (snd (run_lookupASNByIP "192.0.2.1"
                         (start [ok200 "Example Org"; ok200 "EXAMPLE-AS";
                                 ok200 "2001:db8::/32"])))))).

(** A caller's write [details.Name = v] through the pointer it was given. *)
Definition set_Name (v : string) (d : ASNDetails) : ASNDetails :=
  mkASNDetails (ASN d) v (DescriptionShort d) (DescriptionFull d)
    (CountryCode d) (Website d) (EmailContacts d) (AbuseContacts d)
    (TrafficRatio d) (OwnerAddress d) (RIRAllocation d) (IANAAssignment d)
    (WhoisServer d) (DateUpdated d).

(** ** The request handler (lines 441-464 and 679-723) *)

(** The library functions [getClientIP] calls, taken as they are:
    [strings.TrimSpace] and [net.SplitHostPort]. *)
Class GoLib := mkGoLib {
  strings_TrimSpace : string -> string;
  net_SplitHostPort : string -> string * string * error
}.

(** [strings.Split(s, sep)] for a separator of one byte: the pieces between
    the occurrences of [sep], one more than there are occurrences. *)
Fixpoint strings_Split (s : string) (sep : ascii) : list string :=
  match s with
  | EmptyString => [EmptyString]
  | String a s' =>
      if Ascii.eqb a sep then EmptyString :: strings_Split s' sep
      else match strings_Split s' sep with
           | piece :: pieces => String a piece :: pieces
           | [] => [String a EmptyString]
           end
  end.

(** What the handler reads of an [*http.Request]. *)
Record Request := mkRequest {
  Method : string;
  Header_Get : string -> string;
  RemoteAddr : string;
  FormValue : string -> string
}.

(** [type pageData struct] (lines 142-152). *)
Record pageData := mkPageData {
  page_ASN : string;
  page_Prefixes : slice;
  page_Error : string;
  page_SourceIP : string;
  page_DetectedASN : string;
  page_ASNName : string;
  page_AutoDetected : bool;
  page_ASNDetails : option loc
}.

Section Handler.

Context {env : Env} {lib : GoLib}.

(** [getClientIP] (lines 441-464) *)
Definition getClientIP (r : Request) : string :=
  let fallback :=
    let xrip := Header_Get r "X-Real-IP" in
    if negb (String.eqb xrip "") then strings_TrimSpace xrip
    else
      match net_SplitHostPort (RemoteAddr r) with
      | (ip, _, Some _) => RemoteAddr r
      | (ip, _, None) => ip
      end in
  let xff := Header_Get r "X-Forwarded-For" in
  if negb (String.eqb xff "") then
    match strings_Split xff "," with
    | ip0 :: _ => strings_TrimSpace ip0
    | [] => fallback
    end
  else fallback.

(** [formHandler] (lines 679-717) up to the page data with which
    [indexTemplate.Execute] is called; the rendering is [html/template]'s. *)
Definition formHandler_pageData (r : Request) : M pageData :=
  let clientIP := getClientIP r in
  (* data := pageData{}; data.SourceIP = clientIP *)
  let data := mkPageData "" None "" clientIP "" "" false None in
  data <-
    (if negb (String.eqb clientIP "") then
       d <- lookupASNByIP clientIP ;;
       match d with
       | (detectedASN, asnName, None) =>
           ret (mkPageData (page_ASN data) (page_Prefixes data) (page_Error data)
                           (page_SourceIP data) detectedASN asnName true
                           (page_ASNDetails data))
       | (_, _, Some _) => ret data
       end
     else ret data) ;;
  if String.eqb (Method r) "POST" then
    let asn := FormValue r "asn" in
    let data := mkPageData asn (page_Prefixes data) (page_Error data)
                           (page_SourceIP data) (page_DetectedASN data)
                           (page_ASNName data) (page_AutoDetected data)
                           (page_ASNDetails data) in
    dd <- lookupASNDetails asn ;;
    let data :=
      match dd with
      | (asnDetails, None) =>
          mkPageData (page_ASN data) (page_Prefixes data) (page_Error data)
                     (page_SourceIP data) (page_DetectedASN data)
                     (page_ASNName data) (page_AutoDetected data) asnDetails
      | (_, Some _) => data
      end in
    pp <- lookupIPv6 asn ;;
    match pp with
    | (_, Some err) =>
        ret (mkPageData (page_ASN data) (page_Prefixes data) err
                        (page_SourceIP data) (page_DetectedASN data)
                        (page_ASNName data) (page_AutoDetected data)
                        (page_ASNDetails data))
    | (ipv6Prefixes, None) =>
        ret (mkPageData (page_ASN data) ipv6Prefixes (page_Error data)
                        (page_SourceIP data) (page_DetectedASN data)
                        (page_ASNName data) (page_AutoDetected data)
                        (page_ASNDetails data))
    end
  else if page_AutoDetected data then
    ret (mkPageData (page_DetectedASN data) (page_Prefixes data) (page_Error data)
                    (page_SourceIP data) (page_DetectedASN data)
                    (page_ASNName data) (page_AutoDetected data)
                    (page_ASNDetails data))
  else ret data.

End Handler.

(** Stand-ins for the two library functions on the scripted world: spaces
    are stripped at both ends, and an address is split at its last colon. *)
Fixpoint strip_left (l : list ascii) : list ascii :=
  match l with
  | c :: l' => if Ascii.eqb c " "%char then strip_left l' else l
  | [] => []
  end.

Definition strip_spaces (s : string) : string :=
  string_of_list_ascii
    (rev (strip_left (rev (strip_left (list_ascii_of_string s))))).

(** The reversed port and the reversed host of a reversed address. *)
Fixpoint split_colon (l port : list ascii) : option (list ascii * list ascii) :=
  match l with
  | c :: l' =>
      if Ascii.eqb c ":"%char then Some (port, l')
      else split_colon l' (port ++ [c])
  | [] => None
  end.

Definition split_last_colon (s : string) : string * string * error :=
  match split_colon (rev (list_ascii_of_string s)) [] with
  | None => ("", "", Some "missing port in address")
  | Some (port, host) =>
      (string_of_list_ascii (rev host), string_of_list_ascii (rev port), None)
  end.

Definition scripted_lib : GoLib := mkGoLib strip_spaces split_last_colon.

(** Surroundings in which the upstream cannot be reached: every request
    fails in the transport. *)
Definition unreachable : Env :=
  mkEnv SWorld (fun _ w => ((None, Some "connection refused"), w))
        Now Sleep decodeData decodeIPData decodeASNData.

(** Two requests as the handler sees them: a form posted through a proxy,
    and a plain page view from the same client. *)
Definition posted_form : Request :=
  mkRequest "POST"
    (fun h => if String.eqb h "X-Forwarded-For" then " 192.0.2.1, 10.0.0.1"
              else "")
    "10.0.0.1:4711"
    (fun k => if String.eqb k "asn" then "64500" else "").

Definition page_view : Request :=
  mkRequest "GET"
    (fun h => if String.eqb h "X-Forwarded-For" then " 192.0.2.1, 10.0.0.1"
              else "")
    "10.0.0.1:4711"
    (fun _ => "").

(** ** Starting as a daemon (lines 725-815) *)

(** [main]: the scan of [os.Args[1:]] for [--daemon-child], which sends the
    process to [runDaemonServer] before any flag is parsed. *)
Fixpoint is_daemon_child (args : list string) : bool :=
  match args with
  | [] => false
  | arg :: rest =>
      if String.eqb arg "--daemon-child" then true else is_daemon_child rest
  end.

(** [runAsDaemon]: the arguments of the re-executed process, the parent's
    without every [-d], followed by [--daemon-child]. *)
Fixpoint without_d (args : list string) : list string :=
  match args with
  | [] => []
  | arg :: rest =>
      if negb (String.eqb arg "-d") then arg :: without_d rest
      else without_d rest
  end.

Definition daemon_child_args (args : list string) : list string :=
  without_d args ++ ["--daemon-child"].

(** [runDaemonServer]: the loop over [os.Args[1:]] that looks for [-port];
    [rest] is what remains to visit and [i] the index of its head. The
    value is [os.Args[i+2]], element [i+1] of [os.Args[1:]]. *)
Fixpoint port_loop (args : list string) (i : nat) (rest : list string)
    (port : string) : string :=
  match rest with
  | [] => port
  | arg :: rest' =>
      if String.eqb arg "-port" && (i + 1 <? length args)%nat
      then default "" (args !! (i + 1)%nat)
      else port_loop args (i + 1) rest' port
  end.

Definition daemon_port (args : list string) : string :=
  port_loop args 0 args "8080".

(** [bindAddr := "[::1]:" + port] *)
Definition daemon_bindAddr (args : list string) : string :=
  "[::1]:" +:+ daemon_port args.

(** ** The message to the provider (lines 659-677) *)

(** [strings.Join(elems, sep)] *)
Fixpoint strings_Join (l : list string) (sep : string) : string :=
  match l with
  | [] => ""
  | x :: rest =>
      match rest with
      | [] => x
      | _ :: _ => x +:+ sep +:+ strings_Join rest sep
      end
  end.

Definition nl : string := String (ascii_of_nat 10) EmptyString.

(** The raw string of the registries' pages: it starts and ends with a
    line break. *)
Definition registry_links : string :=
  nl +:+ "- ARIN: [https://www.arin.net/resources/guide/ipv6/first_request/]"
     +:+ "(https://www.arin.net/resources/guide/ipv6/first_request/)"
  +:+ nl +:+ "- RIPE NCC: [https://www.ripe.net/manage-ips-and-asns/ipv6/request-ipv6/]"
     +:+ "(https://www.ripe.net/manage-ips-and-asns/ipv6/request-ipv6/)"
  +:+ nl +:+ "- APNIC: [https://www.apnic.net/community/ipv6/get-ipv6/]"
     +:+ "(https://www.apnic.net/community/ipv6/get-ipv6/)"
  +:+ nl +:+ "- AFRINIC: [https://afrinic.net/support/resource-members/"
     +:+ "how-can-i-request-for-an-ipv6-prefix?lang=en]"
     +:+ "(https://afrinic.net/support/resource-members/"
     +:+ "how-can-i-request-for-an-ipv6-prefix?lang=en)"
  +:+ nl +:+ "- LACNIC: [https://www.lacnic.net/1016/2/lacnic/get-ip-addresses_asns]"
     +:+ "(https://www.lacnic.net/1016/2/lacnic/get-ip-addresses_asns)"
  +:+ nl.

(** The format string of the message up to its [%s], with [%%] printed as
    one percent sign, and after it. *)
Definition message_head : string :=
  "I am a current customer of your internet service. IPv6 now results in "
  +:+ "nearly 50% of the global internet traffic (see https://stats.ipv6.army), "
  +:+ "over 80% of mobile traffic, and is available on all major content "
  +:+ "providers. I see that you have ".

Definition message_tail : string :=
  " registered to your organization. Because IPv4 is a legacy protocol with "
  +:+ "severely limited resources available and IPv6 is the current Internet "
  +:+ "protocol as defined by the IETF, I respectfully request IPv6 support "
  +:+ "for my current service offering.".

(** [generateIPv6RequestMessage], on the elements of the slice it is
    given. *)
Definition generateIPv6RequestMessage (asn : string) (ipv6Blocks : list string)
    : string :=
  let blocksOrLinks :=
    if (0 <? length ipv6Blocks)%nat then strings_Join ipv6Blocks ", "
    else registry_links in
  message_head +:+ blocksOrLinks +:+ message_tail.

(** ** The program before detection, cache and retries
    (src/unnamed/part_000) *)

Module V0.

(** [type pageData struct] (lines 27-32) *)
Record pageData := mkPageData {
  page_ASN : string;
  page_Prefixes : slice;
  page_Message : string;
  page_Error : string
}.

Section Old.

Context {env : Env}.

(** [lookupIPv6] (lines 90-119): one request, no cache. *)
Definition lookupIPv6 (asn : string) : M (slice * error) :=
  let bgpURL := "https://api.bgpview.io/asn/" +:+ asn +:+ "/prefixes?type=ipv6" in
  r <- call (httpClient_Get bgpURL) ;;
  match snd r with
  | Some e => ret (None, Some ("BGPView API request failed: " +:+ e))
  | None =>
      match fst r with
      | None => panic NilDereference
      | Some resp =>
          defer_Body_Close resp
            (if negb (StatusCode resp =? 200) then
               ret (None,
                    Some ("BGPView API returned status "
                          +:+ sprintf_d (StatusCode resp)
                          +:+ " for ASN " +:+ asn))
             else
               match decode_bgpViewData (Body resp) with
               | DecodeErr e =>
                   ret (None,
                        Some ("failed to parse BGPView response for ASN "
                              +:+ asn +:+ ": " +:+ e))
               | DecodeOk bgp =>
                   ipv6 <- append_prefixes (IPv6Prefixes bgp) None ;;
                   ret (ipv6, None)
               end)
      end
  end.

(** [formHandler] (lines 142-164) up to the page data with which
    [indexTemplate.Execute] is called. *)
Definition formHandler_pageData (r : Request) : M pageData :=
  let data := mkPageData "" None "" "" in
  if String.eqb (Method r) "POST" then
    let asn := FormValue r "asn" in
    let data := mkPageData asn (page_Prefixes data) (page_Message data)
                           (page_Error data) in
    pp <- lookupIPv6 asn ;;
    match pp with
    | (_, Some err) =>
        ret (mkPageData (page_ASN data) (page_Prefixes data) (page_Message data)
                        err)
    | (ipv6Prefixes, None) =>
        fun s =>
          ret (mkPageData (page_ASN data) ipv6Prefixes
                 (generateIPv6RequestMessage asn (elems (st_heap s) ipv6Prefixes))
                 (page_Error data)) s
    end
  else ret data.

End Old.

End V0.

(** ** Vocabulary of the further properties *)

Section Vocabulary.

Context {env : Env}.

(** The first [-port] of a list that is followed by a value, and that
    value. *)
Fixpoint first_port (l : list string) : option string :=
  match l with
  | [] => None
  | a :: rest =>
      if String.eqb a "-port" then
        match rest with
        | p :: _ => Some p
        | [] => None
        end
      else first_port rest
  end.

(** An outcome after which [retryWithBackoff] tries again when attempts are
    left: a transport error, or a 429 response. *)
Definition retryable (r : FnResult) : Prop :=
  match snd r with
  | Some _ => True
  | None =>
      match fst r with
      | Some rsp => StatusCode rsp = 429
      | None => False
      end
  end.

(** How a run of [n] calls ends, given the outcome [r] of its last call:
    an error is passed on with a nil response, a response is returned as it
    is, and both an error and a 429 response mean that all [N] attempts were
    used; a nil response with a nil error is dereferenced. *)
Definition concludes (r : FnResult) (N : Z) (n : nat)
    (res : Result FnResult) : Prop :=
  match snd r with
  | Some e => res = Ret (None, Some e) /\ Z.of_nat n = N
  | None =>
      match fst r with
      | Some rsp =>
          res = Ret (Some rsp, None) /\ (StatusCode rsp = 429 -> Z.of_nat n = N)
      | None => res = Panic NilDereference
      end
  end.

(** The time a run spends in [time.Sleep]. *)
Definition total_wait (tr : list Event) : Duration :=
  foldr Z.add 0 (sleeps_of tr).

(** The waits of a run in which every attempt is answered 429. *)
Definition longest_waits (attempt n : Z) : list Duration :=
  map (fun a => 2 ^ (a + 2) * Second) (seqZ attempt n).

(** The record that [lookupASNDetails] builds from a decoded response. *)
Definition details_of (bgpASN : bgpViewASNData) : ASNDetails :=
  mkASNDetails (sprintf_d (asn_ASN bgpASN)) (asn_Name bgpASN)
    (asn_DescriptionShort bgpASN) (asn_DescriptionFull bgpASN)
    (asn_CountryCode bgpASN) (asn_Website bgpASN)
    (asn_EmailContacts bgpASN) (asn_AbuseContacts bgpASN)
    (asn_TrafficRatio bgpASN) (asn_OwnerAddress bgpASN)
    (asn_RIRName bgpASN) (asn_IANADescription bgpASN)
    (asn_WhoisServer bgpASN) (asn_DateUpdated bgpASN).

(** A run that adds at most three calls to the trace. *)
Definition few_calls {A} (s : State) (x : Result A * State) : Prop :=
  exists tr, st_trace (snd x) = st_trace s ++ tr /\
             (length (calls_of tr) <= 3)%nat.

(** An ASN that does not start with [details_], a decimal number for
    one. *)
Definition plain_asn (a : string) : Prop := forall x, a <> "details_" +:+ x.

(** An entry is of the type its reader expects: a slice of two strings
    under a key of [lookupASNByIP], a pointer under a key of
    [lookupASNDetails], and a slice under a key of [lookupIPv6] that a
    plain ASN gives. *)
Definition entry_typed (s : State) (key : string) (e : CacheEntry Dyn) : Prop :=
  (forall ip, key = "ip_" +:+ ip ->
     exists a x y, value e = Some (DStrings (Some a)) /\
                   arrs (st_heap s) !! a = Some [x; y]) /\
  (forall a, key = "asn_details_" +:+ a -> exists p, value e = Some (DDetails p)) /\
  (forall a, plain_asn a -> key = "asn_" +:+ a ->
     exists sl, value e = Some (DStrings sl)).

Definition cache_typed (s : State) : Prop :=
  forall key e, data (st_cache s) !! key = Some e -> entry_typed s key e.

(** What a run did to the cache and the arrays: nothing to the cache, or
    one [Set] under [key] of a value for which [ok] holds; and the arrays
    there were are still there. *)
Definition effect_of {A} (s : State) (key : string)
    (ok : State -> Dyn -> Prop) (x : Result A * State) : Prop :=
  arrs (st_heap s) `prefix_of` arrs (st_heap (snd x)) /\
  (st_cache (snd x) = st_cache s \/
   exists v d t, st_cache (snd x) = Cache_Set (st_cache s) key (Some v) d t /\
                 ok (snd x) v).

Definition is_strings (_ : State) (v : Dyn) : Prop := exists sl, v = DStrings sl.

Definition is_details (_ : State) (v : Dyn) : Prop := exists p, v = DDetails p.

Definition is_pair (s : State) (v : Dyn) : Prop :=
  exists a x y, v = DStrings (Some a) /\ arrs (st_heap s) !! a = Some [x; y].

(** A run that, if it panics, panics on a nil pointer: not in a type
    assertion and not on an index. *)
Definition no_type_panic {A} (x : Result A * State) : Prop :=
  forall p, fst x = Panic p -> p = NilDereference.

(** The part of a string before its first comma. *)
Fixpoint before_comma (s : string) : string :=
  match s with
  | EmptyString => EmptyString
  | String a s' =>
      if Ascii.eqb a "," then EmptyString else String a (before_comma s')
  end.

(** A run that adds at most [n] calls to the trace. *)
Definition calls_within {A} (n : nat) (s : State) (x : Result A * State) : Prop :=
  exists tr, st_trace (snd x) = st_trace s ++ tr /\
             (length (calls_of tr) <= n)%nat.

End Vocabulary.

(** ** Properties *)

Section Properties.

Context {env : Env}.

(** *** The cache *)

Lemma Sub_self (t : Time) : Sub t t = 0.
Proof.
  unfold Sub, minDuration, maxDuration. rewrite Z.sub_diag. reflexivity.
Qed.

Lemma Cache_Get_Set_same {V} (c : Cache V) k v d t0 now :
  Cache_Get (Cache_Set c k v d t0) k now =
  if d <? Since now t0 then (None, false) else (v, true).
Proof.
  unfold Cache_Get, Cache_Set. simpl. rewrite lookup_insert_eq. reflexivity.
Qed.

Lemma Cache_Get_Set_other {V} (c : Cache V) k k' v d t0 now :
  k <> k' ->
  Cache_Get (Cache_Set c k v d t0) k' now = Cache_Get c k' now.
Proof.
  intros Hne. unfold Cache_Get, Cache_Set. simpl.
  rewrite lookup_insert_ne by exact Hne. reflexivity.
Qed.

(** A second [Set] on a key leaves no trace of the first. *)
Lemma Cache_Set_overwrite {V} (c : Cache V) k v1 d1 t1 v2 d2 t2 :
  Cache_Set (Cache_Set c k v1 d1 t1) k v2 d2 t2 = Cache_Set c k v2 d2 t2.
Proof.
  unfold Cache_Set. simpl. rewrite insert_insert_eq. reflexivity.
Qed.

(** C1 (as amended): after [Set(k, v, ttl)] at time [t0], a [Get(k)] at
    which [time.Since] reports the elapsed time [t] returns [(v, true)]
    when [t <= ttl], the boundary [t = ttl] included, and [(nil, false)]
    when [t > ttl]. *)
Theorem Cache_ttl_inclusive {V} (c : Cache V) (k : string) (v : option V)
    (d : Duration) (t0 now : Time) :
  let t := Since now t0 in
  (t <= d -> Cache_Get (Cache_Set c k v d t0) k now = (v, true)) /\
  (d < t -> Cache_Get (Cache_Set c k v d t0) k now = (None, false)).
Proof.
  intros t. rewrite Cache_Get_Set_same. fold t.
  split; intros Ht.
  - destruct (Z.ltb_spec d t) as [Hlt | Hge]; [lia | reflexivity].
  - destruct (Z.ltb_spec d t) as [Hlt | Hge]; [reflexivity | lia].
Qed.

(** *** [retryWithBackoff] *)

Lemma wrap64_small (x : Z) : - 2 ^ 63 <= x < 2 ^ 63 -> wrap64 x = x.
Proof.
  intros H. unfold wrap64. rewrite Z.mod_small by lia. lia.
Qed.

Lemma pow2_seconds_exact (e : Z) :
  0 <= e <= 33 -> mul64 (pow2_int64 e) Second = 2 ^ e * Second.
Proof.
  intros H. unfold mul64, pow2_int64.
  destruct (Z.ltb_spec e 63) as [_ | Hge]; [| lia].
  apply wrap64_small.
  assert (0 < 2 ^ e) by (apply Z.pow_pos_nonneg; lia).
  assert (2 ^ e <= 2 ^ 33) by (apply Z.pow_le_mono_r; lia).
  unfold Second. lia.
Qed.

Lemma waitTime_error_exact (attempt : Z) :
  0 <= attempt <= 33 -> waitTime_error attempt = 2 ^ attempt * Second.
Proof. apply pow2_seconds_exact. Qed.

Lemma waitTime_429_exact (attempt : Z) :
  0 <= attempt <= 31 -> waitTime_429 attempt = 2 ^ (attempt + 2) * Second.
Proof. intros H. apply pow2_seconds_exact. lia. Qed.

Lemma calls_of_app (a b : list Event) :
  calls_of (a ++ b) = calls_of a ++ calls_of b.
Proof. apply omap_app. Qed.

Lemma sleeps_of_app (a b : list Event) :
  sleeps_of (a ++ b) = sleeps_of a ++ sleeps_of b.
Proof. apply omap_app. Qed.

Lemma retry_loop_step fn N rem attempt resp err s :
  retry_loop fn N (S rem) attempt resp err s =
  let (r, w) := fn (st_world s) in
  match snd r with
  | Some e =>
      if attempt =? N - 1
      then (Ret (None, Some e), after_call s r w)
      else retry_loop fn N rem (attempt + 1) (fst r) (Some e)
             (after_wait s w
                [EvCall r;
                 EvLog (LogRequestFailed (attempt + 1) N
                          (waitTime_error attempt) e)]
                (waitTime_error attempt))
  | None =>
      match fst r with
      | None => (Panic NilDereference, after_call s r w)
      | Some rsp =>
          if StatusCode rsp =? 429 then
            if attempt =? N - 1
            then (Ret (Some rsp, None), after_call s r w)
            else retry_loop fn N rem (attempt + 1) (Some rsp) None
                   (after_wait s w
                      [EvCall r; EvClose rsp;
                       EvLog (LogRateLimited (waitTime_429 attempt)
                                (attempt + 1) N)]
                      (waitTime_429 attempt))
          else (Ret (Some rsp, None), after_call s r w)
      end
  end.
Proof.
  simpl. unfold bind, call, after_call, after_wait.
  destruct (fn (st_world s)) as [[[rsp |] [e |]] w]; simpl.
  - destruct (attempt =? N - 1); [reflexivity |].
    unfold log_Printf, sleep, emit; simpl.
    rewrite <- !app_assoc. reflexivity.
  - destruct (StatusCode rsp =? 429); [| reflexivity].
    destruct (attempt =? N - 1); [reflexivity |].
    unfold Body_Close, log_Printf, sleep, emit; simpl.
    rewrite <- !app_assoc. reflexivity.
  - destruct (attempt =? N - 1); [reflexivity |].
    unfold log_Printf, sleep, emit; simpl.
    rewrite <- !app_assoc. reflexivity.
  - reflexivity.
Qed.

(** [retryWithBackoff] touches neither the cache nor the heap. *)
Lemma retry_loop_frame fn N rem :
  forall attempt resp err s,
    st_cache (snd (retry_loop fn N rem attempt resp err s)) = st_cache s /\
    st_heap (snd (retry_loop fn N rem attempt resp err s)) = st_heap s.
Proof.
  induction rem as [| rem IH]; intros attempt resp err s.
  - split; reflexivity.
  - rewrite retry_loop_step.
    destruct (fn (st_world s)) as [[[rsp |] [e |]] w]; cbn [fst snd];
      repeat match goal with
             | |- context [if ?b then _ else _] => destruct b
             end;
      try (split; reflexivity);
      match goal with
      | |- context [retry_loop fn N rem ?a ?r ?e ?s1] =>
          destruct (IH a r e s1) as [Hc Hh]; rewrite Hc, Hh;
          split; reflexivity
      end.
Qed.

Lemma retryWithBackoff_frame fn N s :
  st_cache (snd (retryWithBackoff fn N s)) = st_cache s /\
  st_heap (snd (retryWithBackoff fn N s)) = st_heap s.
Proof. apply retry_loop_frame. Qed.

Lemma retry_loop_all_errors fn N (Hfn : always_errors fn) rem :
  forall attempt resp err s,
    attempt + Z.of_nat (S rem) = N ->
    exists tr e resp',
      adds (retry_loop fn N (S rem) attempt resp err) s tr /\
      length (calls_of tr) = S rem /\
      calls_of tr !! rem = Some (resp', Some e) /\
      fst (retry_loop fn N (S rem) attempt resp err s) = Ret (None, Some e) /\
      sleeps_of tr = map waitTime_error (seqZ attempt (Z.of_nat rem)).
Proof.
  unfold adds.
  induction rem as [| rem IH]; intros attempt resp err s HN;
    rewrite retry_loop_step;
    pose proof (Hfn (st_world s)) as Hw;
    destruct (fn (st_world s)) as [[resp' [e |]] w]; simpl in Hw;
    try congruence; clear Hw; cbn [fst snd].
  - replace (attempt =? N - 1) with true by (symmetry; apply Z.eqb_eq; lia).
    exists [EvCall (resp', Some e)], e, resp'. simpl.
    repeat split; reflexivity.
  - replace (attempt =? N - 1) with false by (symmetry; apply Z.eqb_neq; lia).
    match goal with
    | |- context [retry_loop fn N (S rem) ?a ?r ?e' ?s1] =>
        destruct (IH a r e' s1) as (tr & e1 & r1 & Htr & Hlen & Hlast & Hres & Hsl);
        [lia |]
    end.
    exists ([EvCall (resp', Some e);
             EvLog (LogRequestFailed (attempt + 1) N (waitTime_error attempt) e)]
            ++ [EvSleep (waitTime_error attempt)] ++ tr), e1, r1.
    rewrite Htr, Hres. simpl. rewrite <- !app_assoc. simpl.
    fold (calls_of tr). fold (sleeps_of tr).
    rewrite Hlen, Hsl.
    repeat split; try reflexivity; try assumption.
    rewrite (seqZ_cons attempt) by lia.
    simpl. do 3 f_equal; lia.
Qed.

Lemma retry_loop_all_429 fn N (Hfn : always_429 fn) rem :
  forall attempt resp err s,
    attempt + Z.of_nat (S rem) = N ->
    exists tr rsp,
      adds (retry_loop fn N (S rem) attempt resp err) s tr /\
      length (calls_of tr) = S rem /\
      calls_of tr !! rem = Some (Some rsp, None) /\
      StatusCode rsp = 429 /\
      fst (retry_loop fn N (S rem) attempt resp err s) = Ret (Some rsp, None) /\
      sleeps_of tr = map waitTime_429 (seqZ attempt (Z.of_nat rem)).
Proof.
  unfold adds.
  induction rem as [| rem IH]; intros attempt resp err s HN;
    rewrite retry_loop_step;
    destruct (Hfn (st_world s)) as (rsp & Hw & H429);
    destruct (fn (st_world s)) as [r w]; simpl in Hw; subst r; cbn [fst snd];
    rewrite H429, Z.eqb_refl; cbn [fst snd].
  - replace (attempt =? N - 1) with true by (symmetry; apply Z.eqb_eq; lia).
    exists [EvCall (Some rsp, None)], rsp. simpl.
    repeat split; solve [reflexivity | assumption].
  - replace (attempt =? N - 1) with false by (symmetry; apply Z.eqb_neq; lia).
    match goal with
    | |- context [retry_loop fn N (S rem) ?a ?r ?e' ?s1] =>
        destruct (IH a r e' s1) as (tr & r1 & Htr & Hlen & Hlast & Hst & Hres & Hsl);
        [lia |]
    end.
    exists ([EvCall (Some rsp, None); EvClose rsp;
             EvLog (LogRateLimited (waitTime_429 attempt) (attempt + 1) N)]
            ++ [EvSleep (waitTime_429 attempt)] ++ tr), r1.
    rewrite Htr, Hres. simpl. rewrite <- !app_assoc. simpl.
    fold (calls_of tr). fold (sleeps_of tr).
    rewrite Hlen, Hsl.
    repeat split; try reflexivity; try assumption.
    rewrite (seqZ_cons attempt) by lia.
    simpl. do 3 f_equal; lia.
Qed.

(** C2: a request function that fails on every invocation is invoked
    exactly [N] times by [retryWithBackoff fn N] ([N >= 1]), and the error
    of the last invocation is returned, with a nil response. *)
Theorem retry_count_all_errors fn (N : Z) (s : State) :
  1 <= N ->
  always_errors fn ->
  exists tr e resp',
    adds (retryWithBackoff fn N) s tr /\
    length (calls_of tr) = Z.to_nat N /\
    calls_of tr !! (Z.to_nat N - 1)%nat = Some (resp', Some e) /\
    fst (retryWithBackoff fn N s) = Ret (None, Some e).
Proof.
  intros HN Hfn. unfold retryWithBackoff.
  destruct (Z.to_nat N) as [| rem] eqn:Hrem; [lia |].
  destruct (retry_loop_all_errors fn N Hfn rem 0 None None s)
    as (tr & e & r & Htr & Hlen & Hlast & Hres & _); [lia |].
  exists tr, e, r.
  replace (S rem - 1)%nat with rem by lia.
  repeat split; assumption.
Qed.

(** C4: when every attempt is answered 429, [retryWithBackoff fn N]
    ([N >= 1]) returns the 429 response of the last attempt and a nil
    error. *)
Theorem retry_all_429_returns_response fn (N : Z) (s : State) :
  1 <= N ->
  always_429 fn ->
  exists tr rsp,
    adds (retryWithBackoff fn N) s tr /\
    length (calls_of tr) = Z.to_nat N /\
    calls_of tr !! (Z.to_nat N - 1)%nat = Some (Some rsp, None) /\
    StatusCode rsp = 429 /\
    fst (retryWithBackoff fn N s) = Ret (Some rsp, None).
Proof.
  intros HN Hfn. unfold retryWithBackoff.
  destruct (Z.to_nat N) as [| rem] eqn:Hrem; [lia |].
  destruct (retry_loop_all_429 fn N Hfn rem 0 None None s)
    as (tr & rsp & Htr & Hlen & Hlast & Hst & Hres & _); [lia |].
  exists tr, rsp.
  replace (S rem - 1)%nat with rem by lia.
  repeat split; assumption.
Qed.

(** C5: when the first invocation yields a response whose status is not
    429 and no error, [retryWithBackoff fn N] ([N >= 1]) returns that
    response after this single invocation: the only event is the call, so
    nothing is logged, slept or closed. *)
Theorem retry_first_response_returned fn (N : Z) (s : State)
    (rsp : Response) (w : World) :
  1 <= N ->
  fn (st_world s) = ((Some rsp, None), w) ->
  StatusCode rsp <> 429 ->
  retryWithBackoff fn N s =
    (Ret (Some rsp, None),
     mkState (st_cache s) (st_heap s) w
             (st_trace s ++ [EvCall (Some rsp, None)])).
Proof.
  intros HN Hfn Hst. unfold retryWithBackoff.
  destruct (Z.to_nat N) as [| rem] eqn:Hrem; [lia |].
  rewrite retry_loop_step, Hfn. cbn [fst snd].
  apply Z.eqb_neq in Hst. rewrite Hst. reflexivity.
Qed.


(** The order of calls and waits in a run of the loop: it starts and ends
    with a call, and its [i]-th wait stands right before a call, after the
    [i]-th call and what that call logged. *)
Lemma calls_of_round (r : FnResult) (evs : list Event) (d : Duration)
    (l : list Event) :
  calls_of evs = [] ->
  calls_of (EvCall r :: evs ++ EvSleep d :: l) = r :: calls_of l.
Proof.
  intros Hcl.
  change (EvCall r :: evs ++ EvSleep d :: l)
    with ([EvCall r] ++ evs ++ [EvSleep d] ++ l).
  rewrite !calls_of_app, Hcl. reflexivity.
Qed.

Lemma sleeps_of_round (r : FnResult) (evs : list Event) (d : Duration)
    (l : list Event) :
  sleeps_of evs = [] ->
  sleeps_of (EvCall r :: evs ++ EvSleep d :: l) = d :: sleeps_of l.
Proof.
  intros Hsl.
  change (EvCall r :: evs ++ EvSleep d :: l)
    with ([EvCall r] ++ evs ++ [EvSleep d] ++ l).
  rewrite !sleeps_of_app, Hsl. reflexivity.
Qed.

Lemma retry_loop_rhythm fn N rem :
  forall attempt resp err s,
    (rem <> 0%nat -> attempt + Z.of_nat rem = N) ->
    exists tr,
      adds (retry_loop fn N rem attempt resp err) s tr /\
      (rem <> 0%nat -> exists r rest, tr = EvCall r :: rest) /\
      (rem <> 0%nat -> exists init r, tr = init ++ [EvCall r]) /\
      forall (i : nat) (d : Duration),
        sleeps_of tr !! i = Some d ->
        exists r, calls_of tr !! i = Some r /\ waits_between tr i r d.
Proof.
  unfold adds.
  induction rem as [| rem IH]; intros attempt resp err s HN.
  - exists []. simpl. rewrite app_nil_r. split; [reflexivity |].
    split; [intros H; contradiction |]. split; [intros H; contradiction |].
    intros i d Hi. rewrite lookup_nil in Hi. discriminate.
  - specialize (HN ltac:(discriminate)).
    rewrite retry_loop_step.
    destruct (fn (st_world s)) as [[resp' err'] w]; cbn [fst snd].
    assert (Hone : exists tr,
               st_trace (after_call s (resp', err') w) = st_trace s ++ tr /\
               (S rem <> 0%nat -> exists r rest, tr = EvCall r :: rest) /\
               (S rem <> 0%nat -> exists init r, tr = init ++ [EvCall r]) /\
               forall (i : nat) (d : Duration),
                 sleeps_of tr !! i = Some d ->
                 exists r, calls_of tr !! i = Some r /\ waits_between tr i r d).
    { exists [EvCall (resp', err')]. split; [reflexivity |].
      split; [intros _; eexists; eexists; reflexivity |].
      split; [intros _; exists [], (resp', err'); reflexivity |].
      intros i d Hi. simpl in Hi. rewrite lookup_nil in Hi. discriminate. }
    assert (Hgo : attempt <> N - 1 ->
               forall evs d0 r0 e0,
                 calls_of evs = [] -> sleeps_of evs = [] ->
                 exists tr,
                   st_trace (snd (retry_loop fn N rem (attempt + 1) r0 e0
                                    (after_wait s w (EvCall (resp', err') :: evs) d0)))
                   = st_trace s ++ tr /\
                   (S rem <> 0%nat -> exists r rest, tr = EvCall r :: rest) /\
                   (S rem <> 0%nat -> exists init r, tr = init ++ [EvCall r]) /\
                   forall (i : nat) (d : Duration),
                     sleeps_of tr !! i = Some d ->
                     exists r, calls_of tr !! i = Some r /\ waits_between tr i r d).
    { intros Hne evs d0 r0 e0 Hcl Hsl.
      assert (Hrem : rem <> 0%nat) by lia.
      destruct (IH (attempt + 1) r0 e0
                  (after_wait s w (EvCall (resp', err') :: evs) d0))
        as (tr' & Htr' & Hstart & Hend & Hwaits); [intros _; lia |].
      destruct (Hstart Hrem) as (r1 & rest & ->).
      destruct (Hend Hrem) as (init & rl & Hinit).
      exists (EvCall (resp', err') :: evs ++ EvSleep d0 :: EvCall r1 :: rest).
      split.
      { rewrite Htr'. unfold after_wait. cbn [st_trace].
        rewrite <- !app_assoc. reflexivity. }
      split; [intros _; eexists; eexists; reflexivity |].
      split.
      { intros _. exists (EvCall (resp', err') :: evs ++ EvSleep d0 :: init), rl.
        rewrite Hinit. cbn [app]. rewrite <- app_assoc. reflexivity. }
      intros i d Hi.
      rewrite sleeps_of_round in Hi by exact Hsl.
      rewrite calls_of_round by exact Hcl.
      destruct i as [| i]; cbn [lookup list_lookup] in Hi |- *.
      - injection Hi as <-. exists (resp', err'). split; [reflexivity |].
        exists [], evs, r1, rest. repeat split; assumption.
      - destruct (Hwaits i d Hi) as (r & Hr & pre & mid & r' & post
                                      & Heq & Hpc & Hps & Hmc & Hms).
        exists r. split; [exact Hr |].
        exists (EvCall (resp', err') :: evs ++ EvSleep d0 :: pre), mid, r', post.
        split.
        { rewrite Heq. cbn [app]. rewrite <- app_assoc. reflexivity. }
        rewrite calls_of_round by exact Hcl.
        rewrite sleeps_of_round by exact Hsl.
        cbn [length]. repeat split; auto. }
    destruct err' as [e |].
    + destruct (Z.eqb_spec attempt (N - 1)) as [Heq | Hne]; [exact Hone |].
      apply (Hgo Hne [EvLog _]); reflexivity.
    + destruct resp' as [rsp |]; [| exact Hone].
      destruct (StatusCode rsp =? 429); [| exact Hone].
      destruct (Z.eqb_spec attempt (N - 1)) as [Heq | Hne]; [exact Hone |].
      apply (Hgo Hne [EvClose rsp; EvLog _]); reflexivity.
Qed.




(** *** The lookups *)

(** A hit on a prefix list: the list is returned and the state is left as
    it was, so nothing was requested, slept or logged. *)
Lemma lookupIPv6_hit asn s sl :
  cached s ("asn_" +:+ asn) = (Some (DStrings sl), true) ->
  lookupIPv6 asn s = (Ret (sl, None), s).
Proof.
  intros Hhit. unfold lookupIPv6, bind, cache_Get.
  unfold cached in Hhit. rewrite Hhit. reflexivity.
Qed.

(** The key space of [lookupASNDetails] lies inside that of [lookupIPv6]:
    a live entry written by [lookupASNDetails(asn)] is a hit for
    [lookupIPv6("details_" + asn)], whose type assertion then panics. *)
Lemma lookupIPv6_hit_on_details asn s p :
  cached s ("asn_details_" +:+ asn) = (Some (DDetails p), true) ->
  lookupIPv6 ("details_" +:+ asn) s = (Panic TypeAssertion, s).
Proof.
  intros Hhit. unfold lookupIPv6, bind, cache_Get.
  change ("asn_" +:+ "details_" +:+ asn) with ("asn_details_" +:+ asn).
  unfold cached in Hhit. rewrite Hhit. reflexivity.
Qed.

Lemma lookupASNDetails_hit asn s p :
  cached s ("asn_details_" +:+ asn) = (Some (DDetails p), true) ->
  lookupASNDetails asn s = (Ret (Some p, None), s).
Proof.
  intros Hhit. unfold lookupASNDetails, bind, cache_Get.
  unfold cached in Hhit. rewrite Hhit. reflexivity.
Qed.

(** A miss whose fetch ends with a 200 response that decodes. *)
Lemma lookupIPv6_miss_ok asn s resp bgp :
  snd (cached s ("asn_" +:+ asn)) = false ->
  fst (retryWithBackoff (httpClient_Get (prefixes_url asn)) 3 s)
    = Ret (Some resp, None) ->
  StatusCode resp = 200 ->
  decode_bgpViewData (Body resp) = DecodeOk bgp ->
  lookupIPv6 asn s =
    defer_Body_Close resp
      (ipv6 <- append_prefixes (IPv6Prefixes bgp) None ;;
       cache_Set ("asn_" +:+ asn) (Some (DStrings ipv6)) (1 * Hour) ;;
       ret (ipv6, None))
      (snd (retryWithBackoff (httpClient_Get (prefixes_url asn)) 3 s)).
Proof.
  intros Hmiss Hfetch H200 Hdec.
  unfold lookupIPv6. fold (prefixes_url asn).
  unfold bind at 1. unfold cache_Get. fold (cached s ("asn_" +:+ asn)).
  rewrite Hmiss. unfold bind at 1.
  destruct (retryWithBackoff (httpClient_Get (prefixes_url asn)) 3 s)
    as [o s1]. simpl in Hfetch. subst o. cbn [fst snd].
  unfold defer_Body_Close. rewrite H200, Hdec. reflexivity.
Qed.

(** C6: on a cache miss, a 200 response whose [ipv6_prefixes] array is
    empty makes [lookupIPv6] return an empty (nil) prefix list and a nil
    error. *)
Theorem lookupIPv6_empty_is_success asn s resp :
  snd (cached s ("asn_" +:+ asn)) = false ->
  fst (retryWithBackoff (httpClient_Get (prefixes_url asn)) 3 s)
    = Ret (Some resp, None) ->
  StatusCode resp = 200 ->
  decode_bgpViewData (Body resp) = DecodeOk (mkBgpViewData []) ->
  exists sl,
    fst (lookupIPv6 asn s) = Ret (sl, None) /\
    elems (st_heap (snd (lookupIPv6 asn s))) sl = [].
Proof.
  intros Hmiss Hfetch H200 Hdec.
  rewrite (lookupIPv6_miss_ok asn s resp _ Hmiss Hfetch H200 Hdec).
  exists None. split; reflexivity.
Qed.

(** The organisation name [lookupASNByIP] reports for a prefix. *)
Lemma lookupASNByIP_miss_ok ip s resp bgpIP :
  snd (cached s ("ip_" +:+ ip)) = false ->
  fst (retryWithBackoff (httpClient_Get (ip_url ip)) 3 s)
    = Ret (Some resp, None) ->
  StatusCode resp = 200 ->
  decode_bgpViewIPData (Body resp) = DecodeOk bgpIP ->
  lookupASNByIP ip s =
    defer_Body_Close resp
      (match Prefixes bgpIP with
       | first :: _ =>
           let asn := sprintf_d (ip_ASN first) in
           let name :=
             if String.eqb (ip_Name first) ""
             then ip_Description first
             else ip_Name first in
           sl <- new_strings [asn; name] ;;
           cache_Set ("ip_" +:+ ip) (Some (DStrings sl)) (30 * Minute) ;;
           ret (asn, name, None)
       | [] => ret ("", "", Some ("no ASN found for IP " +:+ ip))
       end)
      (snd (retryWithBackoff (httpClient_Get (ip_url ip)) 3 s)).
Proof.
  intros Hmiss Hfetch H200 Hdec.
  unfold lookupASNByIP. fold (ip_url ip).
  unfold bind at 1. unfold cache_Get. fold (cached s ("ip_" +:+ ip)).
  rewrite Hmiss. unfold bind at 1.
  destruct (retryWithBackoff (httpClient_Get (ip_url ip)) 3 s)
    as [o s1]. simpl in Hfetch. subst o. cbn [fst snd].
  unfold defer_Body_Close. rewrite H200, Hdec. reflexivity.
Qed.

(** C8: on a cache miss and a 200 response that decodes, [lookupASNByIP]
    returns the ASN of the first prefix, printed in decimal, and that
    prefix's name, or its description when the name is empty; when the
    decoded prefix list is empty it returns the error
    [no ASN found for IP <ip>]. *)
Theorem lookupASNByIP_first_prefix ip s resp bgpIP :
  snd (cached s ("ip_" +:+ ip)) = false ->
  fst (retryWithBackoff (httpClient_Get (ip_url ip)) 3 s)
    = Ret (Some resp, None) ->
  StatusCode resp = 200 ->
  decode_bgpViewIPData (Body resp) = DecodeOk bgpIP ->
  (forall first rest,
      Prefixes bgpIP = first :: rest ->
      exists name,
        fst (lookupASNByIP ip s) = Ret (sprintf_d (ip_ASN first), name, None) /\
        (ip_Name first = "" -> name = ip_Description first) /\
        (ip_Name first <> "" -> name = ip_Name first)) /\
  (Prefixes bgpIP = [] ->
   fst (lookupASNByIP ip s) = Ret ("", "", Some ("no ASN found for IP " +:+ ip))).
Proof.
  intros Hmiss Hfetch H200 Hdec.
  rewrite (lookupASNByIP_miss_ok ip s resp bgpIP Hmiss Hfetch H200 Hdec).
  split.
  - intros first rest Hp. rewrite Hp.
    exists (if String.eqb (ip_Name first) ""
            then ip_Description first else ip_Name first).
    split; [reflexivity |].
    destruct (String.eqb_spec (ip_Name first) "") as [He | Hne].
    + split; [reflexivity | intros Hn; contradiction].
    + split; [intros He; contradiction | reflexivity].
  - intros Hp. rewrite Hp. reflexivity.
Qed.

Ltac close_branch Hc :=
  let a0 := fresh "a" in
  let e0 := fresh "e" in
  let Ha := fresh "Ha" in
  let He := fresh "He" in
  intros a0 e0 Ha He; cbn [fst snd] in *;
  first [ discriminate Ha
        | injection Ha as <-; cbn [fst snd] in He;
          first [ discriminate He | exact Hc | reflexivity ] ].

Ltac split_fetch fn s :=
  let o := fresh "o" in
  let s1 := fresh "s1" in
  let Hc := fresh "Hc" in
  pose proof (proj1 (retryWithBackoff_frame fn 3 s)) as Hc;
  destruct (retryWithBackoff fn 3 s) as [o s1];
  cbn [fst snd] in Hc |- *;
  destruct o as [[[resp |] [e' |]] | pk]; cbn [fst snd];
  try close_branch Hc.

Lemma lookupIPv6_error_cache asn s :
  error_keeps_cache snd s (lookupIPv6 asn s).
Proof.
  unfold lookupIPv6, bind at 1, cache_Get.
  destruct (Cache_Get (st_cache s) ("asn_" +:+ asn) (time_Now (st_world s)))
    as [c [|]]; cbn [fst snd].
  - destruct c as [[sl | p] |]; unfold ret, panic; close_branch I.
  - unfold bind at 1.
    split_fetch (httpClient_Get
                   ("https://api.bgpview.io/asn/" +:+ asn +:+ "/prefixes?type=ipv6")) s.
    unfold defer_Body_Close.
    destruct (negb (StatusCode resp =? 200)).
    + destruct (StatusCode resp =? 429); close_branch Hc.
    + destruct (decode_bgpViewData (Body resp)) as [msg | bgp].
      * close_branch Hc.
      * unfold bind.
        destruct (append_prefixes (IPv6Prefixes bgp) None s1) as [[sl | pk] s2];
          unfold cache_Set, ret; close_branch Hc.
Qed.

Lemma lookupASNByIP_error_cache ip s :
  error_keeps_cache snd s (lookupASNByIP ip s).
Proof.
  unfold lookupASNByIP, bind at 1, cache_Get.
  destruct (Cache_Get (st_cache s) ("ip_" +:+ ip) (time_Now (st_world s)))
    as [c [|]]; cbn [fst snd].
  - destruct c as [[sl | p] |]; unfold ret, panic; try close_branch I.
    unfold bind, index.
    destruct (elems (st_heap s) sl !! 0%nat); [| close_branch I].
    destruct (elems (st_heap s) sl !! 1%nat); close_branch I.
  - unfold bind at 1.
    split_fetch (httpClient_Get ("https://api.bgpview.io/ip/" +:+ ip)) s.
    unfold defer_Body_Close.
    destruct (negb (StatusCode resp =? 200)).
    + destruct (StatusCode resp =? 429); close_branch Hc.
    + destruct (decode_bgpViewIPData (Body resp)) as [msg | bgpIP].
      * close_branch Hc.
      * destruct (Prefixes bgpIP) as [| first rest].
        -- close_branch Hc.
        -- unfold bind, new_strings, cache_Set, ret. close_branch Hc.
Qed.

Lemma lookupASNDetails_error_cache asn s :
  error_keeps_cache snd s (lookupASNDetails asn s).
Proof.
  unfold lookupASNDetails, bind at 1, cache_Get.
  destruct (Cache_Get (st_cache s) ("asn_details_" +:+ asn)
              (time_Now (st_world s))) as [c [|]]; cbn [fst snd].
  - destruct c as [[sl | p] |]; unfold ret, panic; close_branch I.
  - unfold bind at 1.
    split_fetch (httpClient_Get ("https://api.bgpview.io/asn/" +:+ asn)) s.
    unfold defer_Body_Close.
    destruct (negb (StatusCode resp =? 200)).
    + destruct (StatusCode resp =? 429); close_branch Hc.
    + destruct (decode_bgpViewASNData (Body resp)) as [msg | bgpASN].
      * close_branch Hc.
      * unfold bind, when, new_ASNDetails, update_ASNDetails, cache_Set, ret.
        cbn [fst snd st_heap st_cache st_world st_trace objs arrs].
        repeat match goal with
               | |- context [if ?b then _ else _] => destruct b
               | |- context [match ?l !! ?i with _ => _ end] =>
                   destruct (l !! i)
               end; close_branch Hc.
Qed.

(** C9: whichever of the three lookups returns an error, the cache is
    what it was before the call. *)
Theorem lookup_error_leaves_cache (asn ip : string) (s : State) :
  (forall r e, fst (lookupIPv6 asn s) = Ret (r, Some e) ->
               st_cache (snd (lookupIPv6 asn s)) = st_cache s) /\
  (forall a n e, fst (lookupASNByIP ip s) = Ret (a, n, Some e) ->
                 st_cache (snd (lookupASNByIP ip s)) = st_cache s) /\
  (forall r e, fst (lookupASNDetails asn s) = Ret (r, Some e) ->
               st_cache (snd (lookupASNDetails asn s)) = st_cache s).
Proof.
  split; [| split].
  - intros r e H. exact (lookupIPv6_error_cache asn s (r, Some e) e H eq_refl).
  - intros a n e H.
    exact (lookupASNByIP_error_cache ip s (a, n, Some e) e H eq_refl).
  - intros r e H.
    exact (lookupASNDetails_error_cache asn s (r, Some e) e H eq_refl).
Qed.

Lemma Cache_Get_Set_now {V} (c : Cache V) k v d now :
  0 <= d -> Cache_Get (Cache_Set c k v d now) k now = (v, true).
Proof.
  intros Hd. rewrite Cache_Get_Set_same. unfold Since. rewrite Sub_self.
  destruct (Z.ltb_spec d 0); [lia | reflexivity].
Qed.

Ltac close_cached Hhit :=
  let a0 := fresh "a" in
  let v0 := fresh "v" in
  let Ha := fresh "Ha" in
  let Hv := fresh "Hv" in
  intros a0 v0 Ha Hv; unfold cached; cbn [fst snd] in *;
  first [ discriminate Ha
        | injection Ha as <-; cbn [fst snd] in Hv;
          first [ discriminate Hv
                | injection Hv as <-;
                  first [ exact Hhit
                        | cbn [st_cache st_world];
                          apply Cache_Get_Set_now; vm_compute; discriminate ] ] ].

Lemma lookupASNDetails_result_cached asn s :
  result_is_cached (fun r => DDetails <$> r) ("asn_details_" +:+ asn)
    (lookupASNDetails asn s).
Proof.
  unfold lookupASNDetails, bind at 1, cache_Get.
  destruct (Cache_Get (st_cache s) ("asn_details_" +:+ asn)
              (time_Now (st_world s))) as [c [|]] eqn:Hget; cbn [fst snd].
  - destruct c as [[sl | p] |]; unfold ret, panic; close_cached Hget.
  - unfold bind at 1.
    destruct (retryWithBackoff
                (httpClient_Get ("https://api.bgpview.io/asn/" +:+ asn)) 3 s)
      as [[[[resp |] [e' |]] | pk] s1]; cbn [fst snd];
      try close_cached I.
    unfold defer_Body_Close.
    destruct (negb (StatusCode resp =? 200)).
    + destruct (StatusCode resp =? 429); close_cached I.
    + destruct (decode_bgpViewASNData (Body resp)) as [msg | bgpASN].
      * close_cached I.
      * unfold bind, when, new_ASNDetails, update_ASNDetails, cache_Set, ret.
        cbn [fst snd st_heap st_cache st_world st_trace objs arrs].
        repeat match goal with
               | |- context [if ?b then _ else _] => destruct b
               | |- context [match ?l !! ?i with _ => _ end] =>
                   destruct (l !! i)
               end; close_cached I.
Qed.

Lemma lookupIPv6_result_cached asn s :
  result_is_cached (fun sl => Some (DStrings sl)) ("asn_" +:+ asn)
    (lookupIPv6 asn s).
Proof.
  unfold lookupIPv6, bind at 1, cache_Get.
  destruct (Cache_Get (st_cache s) ("asn_" +:+ asn) (time_Now (st_world s)))
    as [c [|]] eqn:Hget; cbn [fst snd].
  - destruct c as [[sl | p] |]; unfold ret, panic; close_cached Hget.
  - unfold bind at 1.
    destruct (retryWithBackoff
                (httpClient_Get
                   ("https://api.bgpview.io/asn/" +:+ asn +:+ "/prefixes?type=ipv6"))
                3 s)
      as [[[[resp |] [e' |]] | pk] s1]; cbn [fst snd];
      try close_cached I.
    unfold defer_Body_Close.
    destruct (negb (StatusCode resp =? 200)).
    + destruct (StatusCode resp =? 429); close_cached I.
    + destruct (decode_bgpViewData (Body resp)) as [msg | bgp].
      * close_cached I.
      * unfold bind.
        destruct (append_prefixes (IPv6Prefixes bgp) None s1) as [[sl | pk] s2];
          unfold cache_Set, ret; close_cached I.
Qed.

(** C10 (as amended): what a successful lookup hands to its caller is the
    very value the cache retains. The pointer that [lookupASNDetails(asn)]
    returns is the pointer stored, unexpired, under ["asn_details_" + asn],
    and the slice that [lookupIPv6(asn)] returns is the slice stored under
    ["asn_" + asn]: caller and cache share the record and the backing
    array; no copy is made. *)
Theorem lookups_return_cached_reference (asn : string) (s : State) :
  (forall p, fst (lookupASNDetails asn s) = Ret (Some p, None) ->
             cached (snd (lookupASNDetails asn s)) ("asn_details_" +:+ asn)
             = (Some (DDetails p), true)) /\
  (forall sl, fst (lookupIPv6 asn s) = Ret (sl, None) ->
              cached (snd (lookupIPv6 asn s)) ("asn_" +:+ asn)
              = (Some (DStrings sl), true)).
Proof.
  split.
  - intros p H.
    exact (lookupASNDetails_result_cached asn s (Some p) (DDetails p) H eq_refl).
  - intros sl H.
    exact (lookupIPv6_result_cached asn s sl (DStrings sl) H eq_refl).
Qed.

End Properties.

(** C1, as stated, fails at [t = ttl]: an entry set at time 100 with a TTL
    of 5ns is still returned at time 105, although [t >= ttl] there. *)
Lemma Cache_ttl_boundary_hit :
  105 - 100 >= 5 /\
  Cache_Get (Cache_Set (newCache (V:=nat)) "k" (Some 7%nat) 5 100) "k" 105
  = (Some 7%nat, true) /\
  snd (Cache_Get (Cache_Set (newCache (V:=nat)) "k" (Some 7%nat) 5 100) "k" 105)
  <> false.
Proof. split; [lia | split; [reflexivity | discriminate]]. Qed.

Lemma Cache_ttl_inclusive_witness :
  Since 105 100 <= 5 /\ 5 < Since 106 100 /\
  Cache_Get (Cache_Set (newCache (V:=nat)) "k" (Some 7%nat) 5 100) "k" 105
  = (Some 7%nat, true) /\
  Cache_Get (Cache_Set (newCache (V:=nat)) "k" (Some 7%nat) 5 100) "k" 106
  = (None, false).
Proof.
  split; [vm_compute; discriminate |].
  split; [vm_compute; reflexivity |].
  split.
  - apply (Cache_ttl_inclusive newCache "k" (Some 7%nat) 5 100 105).
    vm_compute; discriminate.
  - apply (Cache_ttl_inclusive newCache "k" (Some 7%nat) 5 100 106).
    vm_compute; reflexivity.
Defined.

(** Three failing attempts: three calls, waits of 1s and 2s, the error
    returned. *)
Example retry_three_errors :
  let r := run_retry refuse 3 (start []) in
  fst r = Ret (None, Some "connection refused") /\
  length (calls_of (st_trace (snd r))) = 3%nat /\
  sleeps_of (st_trace (snd r)) = [1 * Second; 2 * Second].
Proof. vm_compute. repeat split. Qed.

(** Three 429 answers: three calls, waits of 4s and 8s, the last response
    returned. *)
Example retry_three_429 :
  let r := run_retry busy 3 (start []) in
  fst r = Ret (Some (mkResponse 429 ""), None) /\
  length (calls_of (st_trace (snd r))) = 3%nat /\
  sleeps_of (st_trace (snd r)) = [4 * Second; 8 * Second].
Proof. vm_compute. repeat split. Qed.

(** The scenarios of the specification. *)
Example scenario_cache_hit_skips_network :
  let s := mkState (env := scripted) (Cache_Set newCache "asn_64500" (Some (DStrings None))
                             (1 * Hour) 0)
                   emptyHeap (mkSWorld [] 0 []) [] in
  run_lookupIPv6 "64500" s = (Ret (None, None), s) /\
  requested (st_world (snd (run_lookupIPv6 "64500" s))) = [].
Proof. vm_compute. split; reflexivity. Qed.

Example scenario_fallback_naming :
  fst (run_lookupASNByIP "192.0.2.1" (start [ok200 "Example Org"]))
  = Ret ("64500", "Example Org", None).
Proof. vm_compute. reflexivity. Qed.

Example scenario_rate_limit_message :
  fst (run_lookupIPv6 "64500"
         (start [(Some (mkResponse 429 ""), None);
                 (Some (mkResponse 429 ""), None);
                 (Some (mkResponse 429 ""), None)]))
  = Ret (None, Some ("BGPView API rate limit exceeded for ASN 64500. "
                     +:+ "Please try again in a few minutes")).
Proof. vm_compute. reflexivity. Qed.

(** *** Instances of the theorems *)

Lemma retry_count_all_errors_witness :
  exists tr e resp',
    adds (run_retry refuse 3) (start []) tr /\
    length (calls_of tr) = 3%nat /\
    calls_of tr !! 2%nat = Some (resp', Some e) /\
    fst (run_retry refuse 3 (start [])) = Ret (None, Some e).
Proof.
  apply (retry_count_all_errors (env := scripted) refuse 3 (start [])).
  - lia.
  - intros w. simpl. discriminate.
Defined.


Lemma retry_all_429_returns_response_witness :
  exists tr rsp,
    adds (run_retry busy 3) (start []) tr /\
    length (calls_of tr) = 3%nat /\
    calls_of tr !! 2%nat = Some (Some rsp, None) /\
    StatusCode rsp = 429 /\
    fst (run_retry busy 3 (start [])) = Ret (Some rsp, None).
Proof.
  apply (retry_all_429_returns_response (env := scripted) busy 3 (start [])).
  - lia.
  - intros w. exists (mkResponse 429 ""). split; reflexivity.
Defined.

Lemma retry_first_response_returned_witness :
  run_retry (Get "u") 3 (start [(Some (mkResponse 404 "gone"), None)]) =
  (Ret (Some (mkResponse 404 "gone"), None),
   mkState (env := scripted) newCache emptyHeap (mkSWorld [] 0 ["u"])
           [EvCall (Some (mkResponse 404 "gone"), None)]).
Proof.
  apply (retry_first_response_returned (env := scripted) (Get "u") 3
           (start [(Some (mkResponse 404 "gone"), None)])
           (mkResponse 404 "gone") (mkSWorld [] 0 ["u"])).
  - lia.
  - reflexivity.
  - simpl. lia.
Defined.

Lemma lookupIPv6_empty_is_success_witness :
  exists sl,
    fst (run_lookupIPv6 "64500" (start [ok200 "[]"])) = Ret (sl, None) /\
    elems (st_heap (snd (run_lookupIPv6 "64500" (start [ok200 "[]"])))) sl = [].
Proof.
  apply (lookupIPv6_empty_is_success (env := scripted)
           "64500" (start [ok200 "[]"]) (mkResponse 200 "[]")).
  - vm_compute. reflexivity.
  - vm_compute. reflexivity.
  - reflexivity.
  - reflexivity.
Defined.

Lemma lookupASNByIP_first_prefix_witness :
  (forall first rest,
      [mkIPPrefix 64500 "" "Example Org" "US"] = first :: rest ->
      exists name,
        fst (run_lookupASNByIP "192.0.2.1" (start [ok200 "Example Org"]))
        = Ret (sprintf_d (ip_ASN first), name, None) /\
        (ip_Name first = "" -> name = ip_Description first) /\
        (ip_Name first <> "" -> name = ip_Name first)) /\
  ([mkIPPrefix 64500 "" "Example Org" "US"] = [] ->
   fst (run_lookupASNByIP "192.0.2.1" (start [ok200 "Example Org"]))
   = Ret ("", "", Some ("no ASN found for IP " +:+ "192.0.2.1"))).
Proof.
  apply (lookupASNByIP_first_prefix (env := scripted)
           "192.0.2.1" (start [ok200 "Example Org"])
           (mkResponse 200 "Example Org")
           (mkBgpViewIPData "" [mkIPPrefix 64500 "" "Example Org" "US"])).
  - vm_compute. reflexivity.
  - vm_compute. reflexivity.
  - reflexivity.
  - reflexivity.
Defined.

Lemma lookup_error_leaves_cache_witness :
  fst (run_lookupIPv6 "64500" (start []))
  = Ret (None, Some "BGPView API request failed: connection refused") /\
  st_cache (snd (run_lookupIPv6 "64500" (start []))) = newCache.
Proof.
  split.
  - vm_compute. reflexivity.
  - apply (proj1 (lookup_error_leaves_cache (env := scripted)
                    "64500" "192.0.2.1" (start []))
             None "BGPView API request failed: connection refused").
    vm_compute. reflexivity.
Defined.

Lemma lookups_return_cached_reference_witness :
  cached
    (snd (run_lookupASNDetails "64500" (start [ok200 "EXAMPLE-AS"])))
    ("asn_details_" +:+ "64500")
  = (Some (DDetails 0%nat), true).
Proof.
  apply (proj1 (lookups_return_cached_reference (env := scripted)
                  "64500"
                  (start [ok200 "EXAMPLE-AS"])) 0%nat).
  vm_compute. reflexivity.
Defined.

(** C7: the keys of [lookupASNDetails] fall inside the key space of
    [lookupIPv6], since ["asn_details_" + a] is ["asn_" + ("details_" + a)].
    After [lookupASNDetails("64500")] has cached its record, the cache
    holds an unexpired entry under ["asn_" + "details_64500"], and
    [lookupIPv6("details_64500")] hits it and panics in its type assertion
    instead of returning a prefix list. *)
Theorem lookupIPv6_panics_on_details_entry :
  let r1 := run_lookupASNDetails "64500" (start [ok200 "EXAMPLE-AS"]) in
  let r2 := run_lookupIPv6 "details_64500" (snd r1) in
  fst r1 = Ret (Some 0%nat, None) /\
  cached (snd r1) ("asn_" +:+ "details_64500")
  = (Some (DDetails 0%nat), true) /\
  fst r2 = Panic TypeAssertion /\
  requested (st_world (snd r2)) = ["https://api.bgpview.io/asn/64500"].
Proof. vm_compute. repeat split. Qed.

(** C10, as stated, fails: the pointer a caller gets from
    [lookupASNDetails] is the one the cache keeps. A write through it,
    [details.Name = "changed"], is what the next caller is served from the
    cache, with no further request to the network. *)
Lemma lookupASNDetails_caller_write_reaches_cache :
  let r1 := run_lookupASNDetails "64500" (start [ok200 "EXAMPLE-AS"]) in
  let w := update_ASNDetails 0%nat (set_Name "changed") (snd r1) in
  let r2 := run_lookupASNDetails "64500" (snd w) in
  fst r1 = Ret (Some 0%nat, None) /\
  Name <$> (objs (st_heap (snd r1)) !! 0%nat) = Some "EXAMPLE-AS" /\
  fst r2 = Ret (Some 0%nat, None) /\
  Name <$> (objs (st_heap (snd r2)) !! 0%nat) = Some "changed" /\
  requested (st_world (snd r2)) = ["https://api.bgpview.io/asn/64500"].
Proof. vm_compute. repeat split. Qed.

(** ** Further properties of the code *)

(** *** The cache *)

(** X1: a second [Set] on a key overwrites the first without a trace: the
    cache is the one the second [Set] alone would have produced, and [Get]
    answers from the second value, time and TTL only. *)
Theorem Cache_overwrite_last_wins {V} (c : Cache V) (k : string)
    (v1 v2 : option V) (d1 d2 : Duration) (t1 t2 now : Time) :
  Cache_Set (Cache_Set c k v1 d1 t1) k v2 d2 t2 = Cache_Set c k v2 d2 t2 /\
  Cache_Get (Cache_Set (Cache_Set c k v1 d1 t1) k v2 d2 t2) k now =
    if d2 <? Since now t2 then (None, false) else (v2, true).
Proof.
  split.
  - apply Cache_Set_overwrite.
  - rewrite Cache_Set_overwrite. apply Cache_Get_Set_same.
Qed.

(** X2: a [Set] on one key changes what [Get] answers for no other key. *)
Theorem Cache_Set_leaves_other_keys {V} (c : Cache V) (k k' : string)
    (v : option V) (d : Duration) (t0 now : Time) :
  k <> k' ->
  Cache_Get (Cache_Set c k v d t0) k' now = Cache_Get c k' now.
Proof.
  intros Hne. unfold Cache_Get, Cache_Set; simpl.
  rewrite lookup_insert_ne by exact Hne. reflexivity.
Qed.

Lemma Cache_Set_leaves_other_keys_witness :
  Cache_Get (Cache_Set (Cache_Set (newCache (V:=nat)) "ip_a" (Some 1%nat) 5 0)
                       "asn_1" (Some 2%nat) 5 0) "ip_a" 3
  = Cache_Get (Cache_Set (newCache (V:=nat)) "ip_a" (Some 1%nat) 5 0) "ip_a" 3.
Proof.
  apply (Cache_Set_leaves_other_keys
           (Cache_Set (newCache (V:=nat)) "ip_a" (Some 1%nat) 5 0)
           "asn_1" "ip_a" (Some 2%nat) 5 0 3).
  discriminate.
Defined.

Lemma Since_nonneg (now t0 : Time) : t0 <= now -> 0 <= Since now t0.
Proof.
  intros H. unfold Since, Sub, minDuration, maxDuration.
  destruct (Z.ltb_spec (now - t0) (- 2 ^ 63)); [lia |].
  destruct (Z.ltb_spec (2 ^ 63 - 1) (now - t0)); lia.
Qed.

(** X3: an entry stored with a negative TTL is never served: every [Get]
    at or after the time of the [Set] misses. *)
Theorem Cache_negative_ttl_never_served {V} (c : Cache V) (k : string)
    (v : option V) (d : Duration) (t0 now : Time) :
  d < 0 ->
  t0 <= now ->
  Cache_Get (Cache_Set c k v d t0) k now = (None, false).
Proof.
  intros Hd Hnow. rewrite Cache_Get_Set_same.
  pose proof (Since_nonneg now t0 Hnow) as Hs.
  destruct (Z.ltb_spec d (Since now t0)); [reflexivity | lia].
Qed.

Lemma Cache_negative_ttl_never_served_witness :
  Cache_Get (Cache_Set (newCache (V:=nat)) "k" (Some 7%nat) (-1) 100) "k" 100
  = (None, false).
Proof.
  apply (Cache_negative_ttl_never_served newCache "k" (Some 7%nat) (-1) 100 100);
    lia.
Defined.

(** *** Starting as a daemon *)

Lemma port_loop_first_port (rest pre : list string) (port : string) :
  port_loop (pre ++ rest) (length pre) rest port
  = default port (first_port rest).
Proof.
  revert pre. induction rest as [| a rest IH]; intros pre; [reflexivity |].
  simpl. destruct (String.eqb a "-port") eqn:Ha; simpl.
  - destruct rest as [| p rest'].
    + replace (length pre + 1 <? length (pre ++ [a]))%nat with false.
      * reflexivity.
      * symmetry. apply Nat.ltb_ge. rewrite length_app. simpl. lia.
    + replace (length pre + 1 <? length (pre ++ a :: p :: rest'))%nat with true.
      * replace (pre ++ a :: p :: rest') with ((pre ++ [a]) ++ p :: rest')
          by (rewrite <- app_assoc; reflexivity).
        replace (length pre + 1)%nat with (length (pre ++ [a]) + 0)%nat
          by (rewrite length_app; simpl; lia).
        rewrite lookup_app_r by lia.
        replace (length (pre ++ [a]) + 0 - length (pre ++ [a]))%nat with 0%nat by lia.
        reflexivity.
      * symmetry. apply Nat.ltb_lt. rewrite length_app. simpl. lia.
  - specialize (IH (pre ++ [a])).
    rewrite <- app_assoc in IH. simpl in IH.
    rewrite length_app in IH. simpl in IH. exact IH.
Qed.

Lemma daemon_port_first_port (args : list string) :
  daemon_port args = default "8080" (first_port args).
Proof. exact (port_loop_first_port args [] "8080"). Qed.

Lemma first_port_found (pre post : list string) (p : string) :
  "-port" ∉ pre ->
  first_port (pre ++ "-port" :: p :: post) = Some p.
Proof.
  induction pre as [| a pre IH]; intros Hpre; simpl.
  - reflexivity.
  - destruct (String.eqb_spec a "-port") as [-> | Hne].
    + exfalso. apply Hpre. left.
    + apply IH. intros Hin. apply Hpre. right. exact Hin.
Qed.

(** X4: the daemon listens on the value that follows the first [-port]
    among its arguments, whatever comes before or after. *)
Theorem daemon_port_takes_first (pre post : list string) (p : string) :
  "-port" ∉ pre ->
  daemon_port (pre ++ "-port" :: p :: post) = p /\
  daemon_bindAddr (pre ++ "-port" :: p :: post) = "[::1]:" +:+ p.
Proof.
  intros Hpre. unfold daemon_bindAddr.
  rewrite daemon_port_first_port, first_port_found by exact Hpre.
  split; reflexivity.
Qed.

Lemma daemon_port_takes_first_witness :
  daemon_port (["--daemon-child"] ++ "-port" :: "9090" :: ["-port"; "1"]) = "9090" /\
  daemon_bindAddr (["--daemon-child"] ++ "-port" :: "9090" :: ["-port"; "1"])
  = "[::1]:" +:+ "9090".
Proof.
  apply (daemon_port_takes_first ["--daemon-child"] ["-port"; "1"] "9090").
  intros Hin. apply list_elem_of_In in Hin. simpl in Hin.
  destruct Hin as [H | []]. discriminate H.
Defined.

Lemma first_port_none (args : list string) :
  (forall i, args !! i = Some "-port" -> args !! S i = None) ->
  first_port args = None.
Proof.
  induction args as [| a rest IH]; intros H; simpl; [reflexivity |].
  destruct (String.eqb_spec a "-port") as [-> | Hne].
  - destruct rest as [| p rest']; [reflexivity |].
    specialize (H 0%nat eq_refl). discriminate H.
  - apply IH. intros i Hi. exact (H (S i) Hi).
Qed.

(** X5: when no argument is exactly [-port] with another argument after it
    (the spellings [-port=9090] and [--port 9090] among them), the daemon
    listens on the default port 8080. *)
Theorem daemon_port_default (args : list string) :
  (forall i, args !! i = Some "-port" -> args !! S i = None) ->
  daemon_port args = "8080" /\ daemon_bindAddr args = "[::1]:8080".
Proof.
  intros H. unfold daemon_bindAddr.
  rewrite daemon_port_first_port, (first_port_none args H).
  split; reflexivity.
Qed.

Lemma daemon_port_default_witness :
  daemon_port ["-port=9090"; "--daemon-child"] = "8080" /\
  daemon_bindAddr ["-port=9090"; "--daemon-child"] = "[::1]:8080".
Proof.
  apply (daemon_port_default ["-port=9090"; "--daemon-child"]).
  intros [| [| i]] Hi; simpl in Hi; try discriminate Hi.
Defined.

Lemma without_d_app (a b : list string) :
  without_d (a ++ b) = without_d a ++ without_d b.
Proof.
  induction a as [| x a IH]; simpl; [reflexivity |].
  destruct (negb (String.eqb x "-d")); simpl; rewrite IH; reflexivity.
Qed.

Lemma without_d_elem (x : string) (l : list string) :
  x ∈ without_d l -> x ∈ l.
Proof.
  induction l as [| a l IH]; simpl; intros H; [exact H |].
  destruct (negb (String.eqb a "-d")).
  - apply elem_of_cons in H as [-> | H]; [left | right; auto].
  - right. auto.
Qed.

Lemma is_daemon_child_app_marker (l : list string) :
  is_daemon_child (l ++ ["--daemon-child"]) = true.
Proof.
  induction l as [| a l IH]; simpl; [reflexivity |].
  destruct (String.eqb a "--daemon-child"); [reflexivity | exact IH].
Qed.

Lemma without_d_clean (l : list string) : "-d" ∉ without_d l.
Proof.
  induction l as [| a l IH]; simpl; intros Hin.
  - apply elem_of_nil in Hin. exact Hin.
  - destruct (String.eqb_spec a "-d") as [-> | Hne]; simpl in Hin.
    + auto.
    + apply elem_of_cons in Hin as [Heq | Hin]; [congruence | auto].
Qed.

Lemma first_port_absent (l : list string) :
  "-port" ∉ l -> first_port l = None.
Proof.
  intros Hno. apply first_port_none. intros i Hi.
  exfalso. apply Hno. apply (list_elem_of_lookup_2 l i). exact Hi.
Qed.

(** X6: whatever arguments the parent was started with, the process that
    [runAsDaemon] re-executes is recognised by [main] as the daemon child
    and none of its arguments is [-d]. It listens on the port the parent
    was given: if the parent's first [-port] is followed by a value [p]
    other than [-d], the child's port is [p]; and if no argument of the
    parent is [-port], as in the plain [-d] invocation, the child's port is
    the default 8080. *)
Theorem daemon_child_inherits_port (args : list string) :
  let child := daemon_child_args args in
  is_daemon_child child = true /\
  ("-d" ∉ child) /\
  (forall pre p post,
      args = pre ++ "-port" :: p :: post ->
      "-port" ∉ pre ->
      p <> "-d" ->
      daemon_port child = p) /\
  ("-port" ∉ args -> daemon_port child = "8080").
Proof.
  intros child. subst child. unfold daemon_child_args.
  split; [apply is_daemon_child_app_marker |].
  split; [| split].
  - intros Hin. apply elem_of_app in Hin as [Hin | Hin].
    + exact (without_d_clean args Hin).
    + apply list_elem_of_singleton in Hin. discriminate Hin.
  - intros pre p post -> Hpre Hp.
    rewrite without_d_app. simpl.
    destruct (String.eqb_spec p "-d") as [Heq | _]; [contradiction |]. simpl.
    rewrite <- app_assoc. simpl.
    rewrite daemon_port_first_port, first_port_found; [reflexivity |].
    intros Hin. apply Hpre. apply without_d_elem. exact Hin.
  - intros Hno.
    rewrite daemon_port_first_port, first_port_absent; [reflexivity |].
    intros Hin. apply elem_of_app in Hin as [Hin | Hin].
    + apply Hno. apply without_d_elem. exact Hin.
    + apply list_elem_of_singleton in Hin. discriminate Hin.
Qed.

Lemma daemon_child_inherits_port_witness :
  (is_daemon_child (daemon_child_args ["-d"]) = true /\
   ("-d" ∉ daemon_child_args ["-d"]) /\
   daemon_port (daemon_child_args ["-d"]) = "8080") /\
  (is_daemon_child (daemon_child_args ["-d"; "-port"; "9090"]) = true /\
   ("-d" ∉ daemon_child_args ["-d"; "-port"; "9090"]) /\
   daemon_port (daemon_child_args ["-d"; "-port"; "9090"]) = "9090").
Proof.
  split.
  - destruct (daemon_child_inherits_port ["-d"]) as (Hchild & Hd & _ & Hport).
    split; [exact Hchild |]. split; [exact Hd |].
    apply Hport. intros Hin. apply list_elem_of_In in Hin. simpl in Hin.
    destruct Hin as [H | []]. discriminate H.
  - destruct (daemon_child_inherits_port ["-d"; "-port"; "9090"])
      as (Hchild & Hd & Hport & _).
    split; [exact Hchild |]. split; [exact Hd |].
    apply (Hport ["-d"] "9090" []).
    + reflexivity.
    + intros Hin. apply list_elem_of_In in Hin. simpl in Hin.
      destruct Hin as [H | []]. discriminate H.
    + discriminate.
Defined.

(** *** [retryWithBackoff], whatever the request function does *)

Section RetryInGeneral.

Context {env : Env}.

Lemma calls_of_cons_call (r : FnResult) (l : list Event) :
  calls_of (EvCall r :: l) = r :: calls_of l.
Proof. reflexivity. Qed.

Lemma sleeps_of_cons_call (r : FnResult) (l : list Event) :
  sleeps_of (EvCall r :: l) = sleeps_of l.
Proof. reflexivity. Qed.

Lemma retry_loop_anatomy fn N rem :
  forall attempt resp err s,
    0 <= attempt ->
    attempt + Z.of_nat (S rem) = N ->
    exists tr earlier final,
      adds (retry_loop fn N (S rem) attempt resp err) s tr /\
      calls_of tr = earlier ++ [final] /\
      Forall retryable earlier /\
      (length earlier <= rem)%nat /\
      length (sleeps_of tr) = length earlier /\
      concludes final N (Z.to_nat attempt + length earlier + 1)
        (fst (retry_loop fn N (S rem) attempt resp err s)).
Proof.
  unfold adds.
  induction rem as [| rem IH]; intros attempt resp err s H0 HN;
    rewrite retry_loop_step;
    destruct (fn (st_world s)) as [[resp' err'] w]; cbn [fst snd].
  - (* the last attempt *)
    replace (attempt =? N - 1) with true by (symmetry; apply Z.eqb_eq; lia).
    exists [EvCall (resp', err')], [], (resp', err').
    assert (Hn : Z.of_nat (Z.to_nat attempt + 0 + 1) = N) by (simpl; lia).
    destruct err' as [e |]; [| destruct resp' as [rsp |]];
      try destruct (StatusCode rsp =? 429);
      unfold concludes; cbn [fst snd length];
      repeat split; auto.
  - replace (attempt =? N - 1) with false by (symmetry; apply Z.eqb_neq; lia).
    assert (Hstop : forall res,
               concludes (resp', err') N (Z.to_nat attempt + 0 + 1) res ->
               exists tr earlier final,
                 st_trace (after_call s (resp', err') w) = st_trace s ++ tr /\
                 calls_of tr = earlier ++ [final] /\
                 Forall retryable earlier /\
                 (length earlier <= S rem)%nat /\
                 length (sleeps_of tr) = length earlier /\
                 concludes final N (Z.to_nat attempt + length earlier + 1) res).
    { intros res Hres. exists [EvCall (resp', err')], [], (resp', err').
      cbn [length]. repeat split; auto. lia. }
    assert (Hgo : forall evs d r0 e0 s1,
               st_trace s1 = st_trace s ++ EvCall (resp', err') :: evs ++ [EvSleep d] ->
               sleeps_of evs = [] -> calls_of evs = [] ->
               retryable (resp', err') ->
               exists tr earlier final,
                 st_trace (snd (retry_loop fn N (S rem) (attempt + 1) r0 e0 s1))
                 = st_trace s ++ tr /\
                 calls_of tr = earlier ++ [final] /\
                 Forall retryable earlier /\
                 (length earlier <= S rem)%nat /\
                 length (sleeps_of tr) = length earlier /\
                 concludes final N (Z.to_nat attempt + length earlier + 1)
                   (fst (retry_loop fn N (S rem) (attempt + 1) r0 e0 s1))).
    { intros evs d r0 e0 s1 Hs1 Hsl Hcl Hretry.
      destruct (IH (attempt + 1) r0 e0 s1)
        as (tr & earlier & final & Htr & Hcalls & Hall & Hlen & Hsleeps & Hend);
        [lia | lia |].
      exists (EvCall (resp', err') :: evs ++ [EvSleep d] ++ tr),
             ((resp', err') :: earlier), final.
      split.
      { rewrite Htr, Hs1.
        rewrite <- app_assoc, <- app_comm_cons, <- app_assoc. reflexivity. }
      split.
      { rewrite calls_of_cons_call, !calls_of_app, Hcl, Hcalls. reflexivity. }
      split; [constructor; assumption |].
      split; [cbn [length]; lia |].
      split.
      { rewrite sleeps_of_cons_call, !sleeps_of_app, Hsl.
        change (sleeps_of [EvSleep d]) with [d].
        cbn [app length]. rewrite Hsleeps. reflexivity. }
      assert (E : Z.to_nat (attempt + 1) = S (Z.to_nat attempt)) by lia.
      rewrite E in Hend. cbn [length]. revert Hend.
      generalize (length earlier) as n. intros n Hend.
      replace (Z.to_nat attempt + S n + 1)%nat
        with (S (Z.to_nat attempt) + n + 1)%nat by lia.
      exact Hend. }
    destruct err' as [e |].
    + eapply Hgo; [reflexivity | reflexivity | reflexivity | exact I].
    + destruct resp' as [rsp |].
      * destruct (Z.eqb_spec (StatusCode rsp) 429) as [H429 | Hne].
        -- eapply (Hgo [EvClose rsp; EvLog _]);
             [reflexivity | reflexivity | reflexivity | exact H429].
        -- apply Hstop. unfold concludes; cbn [fst snd].
           split; [reflexivity | intros; contradiction].
      * apply Hstop. reflexivity.
Qed.

(** X7: for every request function and every [N >= 1], a run of
    [retryWithBackoff fn N] makes between 1 and [N] calls and sleeps once
    between two calls, never after the last: the trace ends with the last
    call, there is one wait fewer than calls, and the [i]-th wait lies
    between call [i] and call [i+1], right before the latter. Every call
    but the last ended in a transport error or a 429. The last call decides
    the result: its
    error is passed on with a nil response, its response is returned as it
    is, and an error or a 429 is final only when all [N] attempts are
    used. *)
Theorem retry_run_anatomy fn (N : Z) (s : State) :
  1 <= N ->
  exists tr earlier final,
    adds (retryWithBackoff fn N) s tr /\
    calls_of tr = earlier ++ [final] /\
    Forall retryable earlier /\
    (length (calls_of tr) <= Z.to_nat N)%nat /\
    (length (sleeps_of tr) + 1 = length (calls_of tr))%nat /\
    (exists init, tr = init ++ [EvCall final]) /\
    (forall (i : nat) (d : Duration),
        sleeps_of tr !! i = Some d ->
        exists r, calls_of tr !! i = Some r /\ waits_between tr i r d) /\
    concludes final N (length (calls_of tr)) (fst (retryWithBackoff fn N s)).
Proof.
  intros HN. unfold retryWithBackoff.
  destruct (Z.to_nat N) as [| rem] eqn:Hrem; [lia |].
  destruct (retry_loop_anatomy fn N rem 0 None None s)
    as (tr & earlier & final & Htr & Hcalls & Hall & Hlen & Hsleeps & Hend);
    [lia | lia |].
  destruct (retry_loop_rhythm fn N (S rem) 0 None None s)
    as (tr2 & Htr2 & _ & Hlast & Hwaits); [intros _; lia |].
  unfold adds in Htr, Htr2. rewrite Htr in Htr2.
  apply app_inv_head in Htr2. subst tr2.
  destruct (Hlast ltac:(discriminate)) as (init & rl & Hinit).
  assert (Hrl : rl = final).
  { pose proof Hcalls as Hc. rewrite Hinit, calls_of_app in Hc.
    change (calls_of [EvCall rl]) with [rl] in Hc.
    apply app_inj_tail in Hc. apply Hc. }
  subst rl.
  exists tr, earlier, final.
  split; [exact Htr |]. split; [exact Hcalls |]. split; [exact Hall |].
  split; [rewrite Hcalls, length_app; simpl; lia |].
  split; [rewrite Hcalls, length_app, Hsleeps; simpl; lia |].
  split; [exists init; exact Hinit |].
  split; [exact Hwaits |].
  rewrite Hcalls, length_app. simpl. exact Hend.
Qed.

(** X8: with [maxRetries <= 0] the request function is never called:
    the result is a nil response with a nil error, and the state is left as
    it was. *)
Theorem retry_without_budget fn (N : Z) (s : State) :
  N <= 0 ->
  retryWithBackoff fn N s = (Ret (None, None), s).
Proof.
  intros HN. unfold retryWithBackoff.
  replace (Z.to_nat N) with 0%nat by lia. reflexivity.
Qed.

(** X9: [retryWithBackoff] reads and writes neither the cache nor the heap,
    whatever the request function does. *)
Theorem retry_leaves_cache_and_heap fn (N : Z) (s : State) :
  st_cache (snd (retryWithBackoff fn N s)) = st_cache s /\
  st_heap (snd (retryWithBackoff fn N s)) = st_heap s.
Proof.
  unfold retryWithBackoff.
  generalize (Z.to_nat N) as rem. intros rem.
  exact (retry_loop_frame fn N rem 0 None None s).
Qed.

End RetryInGeneral.

Lemma retry_run_anatomy_witness :
  exists tr earlier final,
    adds (run_retry (Get "u") 3) (start [(None, Some "reset"); ok200 "[]"]) tr /\
    calls_of tr = earlier ++ [final] /\
    Forall retryable earlier /\
    (length (calls_of tr) <= 3)%nat /\
    (length (sleeps_of tr) + 1 = length (calls_of tr))%nat /\
    (exists init, tr = init ++ [EvCall final]) /\
    (forall (i : nat) (d : Duration),
        sleeps_of tr !! i = Some d ->
        exists r, calls_of tr !! i = Some r /\ waits_between tr i r d) /\
    concludes final 3 (length (calls_of tr))
      (fst (run_retry (Get "u") 3 (start [(None, Some "reset"); ok200 "[]"]))).
Proof.
  apply (retry_run_anatomy (env := scripted) (Get "u") 3
           (start [(None, Some "reset"); ok200 "[]"])).
  lia.
Defined.

Lemma retry_without_budget_witness :
  run_retry refuse 0 (start []) = (Ret (None, None), start []).
Proof.
  apply (retry_without_budget (env := scripted) refuse 0 (start [])). lia.
Defined.

Section RetryWait.

Context {env : Env}.

Lemma longest_waits_nonneg (n : Z) :
  forall attempt, 0 <= attempt -> 0 <= foldr Z.add 0 (longest_waits attempt n).
Proof.
  unfold longest_waits.
  destruct (Z.le_gt_cases n 0) as [Hn | Hn].
  - intros attempt _. rewrite seqZ_nil by lia. simpl. lia.
  - rewrite <- (Z2Nat.id n) by lia. generalize (Z.to_nat n) as k. clear.
    induction k as [| k IH]; intros attempt Ha.
    + simpl. lia.
    + rewrite seqZ_cons by lia. simpl.
      replace (Z.pred (Z.of_nat (S k))) with (Z.of_nat k) by lia.
      specialize (IH (Z.succ attempt) ltac:(lia)).
      assert (0 < 2 ^ (attempt + 2)) by (apply Z.pow_pos_nonneg; lia).
      unfold Second in *. lia.
Qed.

Lemma total_wait_app (a b : list Event) :
  total_wait (a ++ b) = total_wait a + total_wait b.
Proof.
  unfold total_wait. rewrite sleeps_of_app.
  induction (sleeps_of a) as [| x l IH]; simpl; lia.
Qed.

Lemma retry_loop_total_wait fn N rem :
  forall attempt resp err s,
    0 <= attempt ->
    attempt + Z.of_nat (S rem) = N ->
    N <= 33 ->
    exists tr,
      adds (retry_loop fn N (S rem) attempt resp err) s tr /\
      0 <= total_wait tr <= foldr Z.add 0 (longest_waits attempt (Z.of_nat rem)).
Proof.
  unfold adds.
  induction rem as [| rem IH]; intros attempt resp err s H0 HN H33;
    rewrite retry_loop_step;
    destruct (fn (st_world s)) as [[resp' err'] w]; cbn [fst snd].
  - replace (attempt =? N - 1) with true by (symmetry; apply Z.eqb_eq; lia).
    exists [EvCall (resp', err')].
    destruct err' as [e |]; [| destruct resp' as [rsp |]];
      try destruct (StatusCode rsp =? 429);
      (split; [reflexivity | vm_compute; split; discriminate]).
  - replace (attempt =? N - 1) with false by (symmetry; apply Z.eqb_neq; lia).
    pose proof (longest_waits_nonneg (Z.of_nat (S rem)) attempt H0) as Hnn.
    assert (Hstop : forall r : FnResult,
               exists tr,
                 st_trace (after_call s r w) = st_trace s ++ tr /\
                 0 <= total_wait tr
                 <= foldr Z.add 0 (longest_waits attempt (Z.of_nat (S rem)))).
    { intros r. exists [EvCall r]. split; [reflexivity |].
      change (total_wait [EvCall r]) with 0. lia. }
    assert (Hgo : forall evs d r0 e0 s1,
               st_trace s1 = st_trace s ++ (EvCall (resp', err') :: evs) ++ [EvSleep d] ->
               sleeps_of (EvCall (resp', err') :: evs) = [] ->
               0 <= d <= 2 ^ (attempt + 2) * Second ->
               exists tr,
                 st_trace (snd (retry_loop fn N (S rem) (attempt + 1) r0 e0 s1))
                 = st_trace s ++ tr /\
                 0 <= total_wait tr
                 <= foldr Z.add 0 (longest_waits attempt (Z.of_nat (S rem)))).
    { intros evs d r0 e0 s1 Hs1 Hsl Hd.
      destruct (IH (attempt + 1) r0 e0 s1) as (tr & Htr & Hw); [lia | lia | lia |].
      exists ((EvCall (resp', err') :: evs) ++ [EvSleep d] ++ tr).
      split; [rewrite Htr, Hs1, <- !app_assoc; reflexivity |].
      rewrite !total_wait_app.
      assert (total_wait (EvCall (resp', err') :: evs) = 0) as ->
        by (unfold total_wait; rewrite Hsl; reflexivity).
      change (total_wait [EvSleep d]) with (d + 0).
      unfold longest_waits. rewrite (seqZ_cons attempt) by lia.
      replace (Z.pred (Z.of_nat (S rem))) with (Z.of_nat rem) by lia.
      replace (Z.succ attempt) with (attempt + 1) by lia.
      unfold longest_waits in Hw. simpl. lia. }
    assert (Hpow : 0 < 2 ^ attempt) by (apply Z.pow_pos_nonneg; lia).
    assert (Hpow2 : 2 ^ (attempt + 2) = 4 * 2 ^ attempt).
    { replace (attempt + 2) with (2 + attempt) by lia.
      rewrite Z.pow_add_r by lia. reflexivity. }
    destruct err' as [e |].
    + apply (Hgo [EvLog (LogRequestFailed (attempt + 1) N (waitTime_error attempt) e)]
                 (waitTime_error attempt));
        [reflexivity | reflexivity |].
      rewrite waitTime_error_exact by lia. unfold Second. lia.
    + destruct resp' as [rsp |]; [| apply Hstop].
      destruct (StatusCode rsp =? 429); [| apply Hstop].
      apply (Hgo [EvClose rsp;
                  EvLog (LogRateLimited (waitTime_429 attempt) (attempt + 1) N)]
                 (waitTime_429 attempt));
        [reflexivity | reflexivity |].
      rewrite waitTime_429_exact by lia. unfold Second. lia.
Qed.

(** X10: whatever the request function does, a run of
    [retryWithBackoff fn N] ([N <= 33]) sleeps no longer in total than the
    run in which every attempt is answered 429, that is
    [4 + 8 + ... + 2^N] seconds: 12 seconds for the [N = 3] of the
    lookups. *)
Theorem retry_total_wait_bounded fn (N : Z) (s : State) :
  N <= 33 ->
  exists tr,
    adds (retryWithBackoff fn N) s tr /\
    0 <= total_wait tr <= foldr Z.add 0 (longest_waits 0 (N - 1)) /\
    (N = 3 -> total_wait tr <= 12 * Second).
Proof.
  intros H33. unfold retryWithBackoff.
  destruct (Z.to_nat N) as [| rem] eqn:Hrem.
  - exists []. unfold adds. simpl. rewrite app_nil_r.
    split; [reflexivity |].
    unfold longest_waits. rewrite seqZ_nil by lia.
    split; [vm_compute; split; discriminate | intros ->; discriminate Hrem].
  - destruct (retry_loop_total_wait fn N rem 0 None None s)
      as (tr & Htr & Hw); [lia | lia | lia |].
    exists tr. split; [exact Htr |].
    replace (N - 1) with (Z.of_nat rem) by lia.
    split; [exact Hw |].
    intros ->. assert (rem = 2%nat) as -> by lia.
    change (foldr Z.add 0 (longest_waits 0 (Z.of_nat 2))) with (12 * Second) in Hw.
    lia.
Qed.

End RetryWait.

Lemma retry_total_wait_bounded_witness :
  exists tr,
    adds (run_retry busy 3) (start []) tr /\
    0 <= total_wait tr <= foldr Z.add 0 (longest_waits 0 (3 - 1)) /\
    (3 = 3 -> total_wait tr <= 12 * Second).
Proof.
  apply (retry_total_wait_bounded (env := scripted) busy 3 (start [])). lia.
Defined.

(** *** What the lookups store, and for how long *)

Section LookupPolicy.

Context {env : Env}.

(** The loop of [lookupIPv6] changes the heap only: it extends it by new
    arrays, and the slice it ends with holds the elements it started with
    followed by the prefixes, in their order. *)
Lemma append_prefixes_run (ps : list PrefixObj) :
  forall (sl : slice) (s : State),
    exists sl' arrs',
      append_prefixes ps sl s =
        (Ret sl', mkState (st_cache s) (mkHeap (objs (st_heap s)) arrs')
                          (st_world s) (st_trace s)) /\
      arrs (st_heap s) `prefix_of` arrs' /\
      elems (mkHeap (objs (st_heap s)) arrs') sl'
      = elems (st_heap s) sl ++ map Prefix ps.
Proof.
  induction ps as [| p ps IH]; intros sl s.
  - exists sl, (arrs (st_heap s)). simpl. unfold ret.
    destruct s as [c [o a] w t]. simpl. rewrite app_nil_r.
    repeat split; reflexivity.
  - simpl. unfold bind, append, new_strings.
    set (s1 := mkState (st_cache s)
                 (mkHeap (objs (st_heap s))
                    (arrs (st_heap s) ++ [elems (st_heap s) sl ++ [Prefix p]]))
                 (st_world s) (st_trace s)).
    destruct (IH (Some (length (arrs (st_heap s)))) s1)
      as (sl' & arrs' & Hrun & Hpre & Hel).
    exists sl', arrs'. rewrite Hrun. subst s1. simpl in *.
    split; [reflexivity |].
    split.
    + destruct Hpre as [k Hk]. exists ([elems (st_heap s) sl ++ [Prefix p]] ++ k).
      rewrite Hk, <- app_assoc. reflexivity.
    + rewrite Hel.
      rewrite lookup_app_r by lia. rewrite Nat.sub_diag. simpl.
      rewrite <- app_assoc. reflexivity.
Qed.

(** The run of [lookupIPv6] on a miss that ends in a 200 response that
    decodes. *)
Lemma lookupIPv6_miss_ok_state asn s resp bgp :
  snd (cached s ("asn_" +:+ asn)) = false ->
  fst (retryWithBackoff (httpClient_Get (prefixes_url asn)) 3 s)
    = Ret (Some resp, None) ->
  StatusCode resp = 200 ->
  decode_bgpViewData (Body resp) = DecodeOk bgp ->
  let s1 := snd (retryWithBackoff (httpClient_Get (prefixes_url asn)) 3 s) in
  exists sl arrs',
    lookupIPv6 asn s =
      (Ret (sl, None),
       mkState (Cache_Set (st_cache s) ("asn_" +:+ asn) (Some (DStrings sl))
                          (1 * Hour) (time_Now (st_world s1)))
               (mkHeap (objs (st_heap s)) arrs')
               (st_world s1) (st_trace s1 ++ [EvClose resp])) /\
    arrs (st_heap s) `prefix_of` arrs' /\
    elems (mkHeap (objs (st_heap s)) arrs') sl = map Prefix (IPv6Prefixes bgp).
Proof.
  intros Hmiss Hfetch H200 Hdec s1.
  rewrite (lookupIPv6_miss_ok asn s resp bgp Hmiss Hfetch H200 Hdec).
  fold s1.
  destruct (retryWithBackoff_frame (httpClient_Get (prefixes_url asn)) 3 s)
    as [Hc Hh]. fold s1 in Hc, Hh.
  destruct (append_prefixes_run (IPv6Prefixes bgp) None s1)
    as (sl & arrs' & Hrun & Hpre & Hel).
  exists sl, arrs'.
  unfold defer_Body_Close, bind. rewrite Hrun.
  unfold cache_Set, ret. cbn [st_cache st_heap st_world st_trace].
  rewrite Hc, Hh in *. simpl in Hel.
  repeat split; assumption.
Qed.

(** X11: on a miss answered 200, [lookupIPv6] returns the prefixes of the
    decoded response, all of them and in the order of the response. *)
Theorem lookupIPv6_returns_prefixes_in_order asn s resp bgp :
  snd (cached s ("asn_" +:+ asn)) = false ->
  fst (retryWithBackoff (httpClient_Get (prefixes_url asn)) 3 s)
    = Ret (Some resp, None) ->
  StatusCode resp = 200 ->
  decode_bgpViewData (Body resp) = DecodeOk bgp ->
  exists sl,
    fst (lookupIPv6 asn s) = Ret (sl, None) /\
    elems (st_heap (snd (lookupIPv6 asn s))) sl = map Prefix (IPv6Prefixes bgp).
Proof.
  intros Hmiss Hfetch H200 Hdec.
  destruct (lookupIPv6_miss_ok_state asn s resp bgp Hmiss Hfetch H200 Hdec)
    as (sl & arrs' & Hrun & _ & Hel).
  exists sl. rewrite Hrun. split; [reflexivity | exact Hel].
Qed.

(** X12: the prefix list fetched by [lookupIPv6] is kept for one hour: in
    any later state with that cache, a lookup at most one hour after the
    fetch (the hour itself included) returns the same slice without any
    effect, so without a request; later than that the entry is a miss. *)
Theorem lookupIPv6_cached_one_hour asn s resp bgp :
  snd (cached s ("asn_" +:+ asn)) = false ->
  fst (retryWithBackoff (httpClient_Get (prefixes_url asn)) 3 s)
    = Ret (Some resp, None) ->
  StatusCode resp = 200 ->
  decode_bgpViewData (Body resp) = DecodeOk bgp ->
  let r := lookupIPv6 asn s in
  forall s2,
    st_cache s2 = st_cache (snd r) ->
    let age := Since (time_Now (st_world s2)) (time_Now (st_world (snd r))) in
    (age <= Hour -> lookupIPv6 asn s2 = (fst r, s2)) /\
    (Hour < age -> snd (cached s2 ("asn_" +:+ asn)) = false).
Proof.
  intros Hmiss Hfetch H200 Hdec r s2 Hcache age. subst r age.
  destruct (lookupIPv6_miss_ok_state asn s resp bgp Hmiss Hfetch H200 Hdec)
    as (sl & arrs' & Hrun & _ & _).
  rewrite Hrun in *. cbn [fst snd st_cache st_world] in *.
  unfold cached. rewrite Hcache, Cache_Get_Set_same.
  change (1 * Hour) with Hour.
  split; intros Hage.
  - apply lookupIPv6_hit. unfold cached.
    rewrite Hcache, Cache_Get_Set_same. change (1 * Hour) with Hour.
    destruct (Z.ltb_spec Hour
                (Since (time_Now (st_world s2))
                   (time_Now
                      (st_world
                         (snd (retryWithBackoff
                                 (httpClient_Get (prefixes_url asn)) 3 s))))));
      [lia | reflexivity].
  - destruct (Z.ltb_spec Hour
                (Since (time_Now (st_world s2))
                   (time_Now
                      (st_world
                         (snd (retryWithBackoff
                                 (httpClient_Get (prefixes_url asn)) 3 s))))));
      [reflexivity | lia].
Qed.

(** The run of [lookupASNByIP] on a miss that ends in a 200 response whose
    prefix list is not empty. *)
Lemma lookupASNByIP_miss_ok_state ip s resp bgpIP first rest :
  snd (cached s ("ip_" +:+ ip)) = false ->
  fst (retryWithBackoff (httpClient_Get (ip_url ip)) 3 s)
    = Ret (Some resp, None) ->
  StatusCode resp = 200 ->
  decode_bgpViewIPData (Body resp) = DecodeOk bgpIP ->
  Prefixes bgpIP = first :: rest ->
  let s1 := snd (retryWithBackoff (httpClient_Get (ip_url ip)) 3 s) in
  let asn := sprintf_d (ip_ASN first) in
  let name := if String.eqb (ip_Name first) ""
              then ip_Description first else ip_Name first in
  lookupASNByIP ip s =
    (Ret (asn, name, None),
     mkState (Cache_Set (st_cache s) ("ip_" +:+ ip)
                (Some (DStrings (Some (length (arrs (st_heap s))))))
                (30 * Minute) (time_Now (st_world s1)))
             (mkHeap (objs (st_heap s)) (arrs (st_heap s) ++ [[asn; name]]))
             (st_world s1) (st_trace s1 ++ [EvClose resp])).
Proof.
  intros Hmiss Hfetch H200 Hdec Hp s1 asn name.
  rewrite (lookupASNByIP_miss_ok ip s resp bgpIP Hmiss Hfetch H200 Hdec).
  fold s1. rewrite Hp.
  destruct (retryWithBackoff_frame (httpClient_Get (ip_url ip)) 3 s)
    as [Hc Hh]. fold s1 in Hc, Hh.
  unfold defer_Body_Close, bind, new_strings, cache_Set, ret.
  cbn [st_cache st_heap st_world st_trace objs arrs].
  rewrite Hc, Hh. reflexivity.
Qed.

(** X13: the pair that [lookupASNByIP] resolves is kept for 30 minutes: in
    any later state with that cache, whose heap still holds the arrays of
    the earlier one, a lookup at most 30 minutes after the fetch returns the
    same ASN and name without any effect, so without a request; later than
    that the entry is a miss. *)
Theorem lookupASNByIP_cached_thirty_minutes ip s resp bgpIP first rest :
  snd (cached s ("ip_" +:+ ip)) = false ->
  fst (retryWithBackoff (httpClient_Get (ip_url ip)) 3 s)
    = Ret (Some resp, None) ->
  StatusCode resp = 200 ->
  decode_bgpViewIPData (Body resp) = DecodeOk bgpIP ->
  Prefixes bgpIP = first :: rest ->
  let r := lookupASNByIP ip s in
  forall s2,
    st_cache s2 = st_cache (snd r) ->
    arrs (st_heap (snd r)) `prefix_of` arrs (st_heap s2) ->
    let age := Since (time_Now (st_world s2)) (time_Now (st_world (snd r))) in
    (age <= 30 * Minute -> lookupASNByIP ip s2 = (fst r, s2)) /\
    (30 * Minute < age -> snd (cached s2 ("ip_" +:+ ip)) = false).
Proof.
  intros Hmiss Hfetch H200 Hdec Hp r s2 Hcache Hheap age. subst r age.
  rewrite (lookupASNByIP_miss_ok_state ip s resp bgpIP first rest
             Hmiss Hfetch H200 Hdec Hp) in *.
  cbn [fst snd st_cache st_world st_heap arrs] in *.
  set (now1 := time_Now
                 (st_world (snd (retryWithBackoff (httpClient_Get (ip_url ip)) 3 s))))
    in *.
  split; intros Hage.
  - unfold lookupASNByIP, bind at 1, cache_Get.
    rewrite Hcache, Cache_Get_Set_same.
    destruct (Z.ltb_spec (30 * Minute) (Since (time_Now (st_world s2)) now1));
      [lia |].
    cbn [fst snd]. unfold bind, index, elems.
    assert (H1 : (arrs (st_heap s) ++
                  [[sprintf_d (ip_ASN first);
                    if String.eqb (ip_Name first) ""
                    then ip_Description first else ip_Name first]])
                 !! length (arrs (st_heap s))
                 = Some [sprintf_d (ip_ASN first);
                         if String.eqb (ip_Name first) ""
                         then ip_Description first else ip_Name first]).
    { rewrite lookup_app_r by lia. rewrite Nat.sub_diag. reflexivity. }
    pose proof (prefix_lookup_Some _ _ _ _ H1 Hheap) as Harr.
    unfold loc in *. rewrite Harr. simpl. rewrite Harr. reflexivity.
  - unfold cached. rewrite Hcache, Cache_Get_Set_same.
    destruct (Z.ltb_spec (30 * Minute) (Since (time_Now (st_world s2)) now1));
      [reflexivity | lia].
Qed.

(** The run of [lookupASNDetails] on a miss that ends in a 200 response
    that decodes. *)
Lemma lookupASNDetails_miss_ok_state asn s resp bgpASN :
  snd (cached s ("asn_details_" +:+ asn)) = false ->
  fst (retryWithBackoff (httpClient_Get ("https://api.bgpview.io/asn/" +:+ asn)) 3 s)
    = Ret (Some resp, None) ->
  StatusCode resp = 200 ->
  decode_bgpViewASNData (Body resp) = DecodeOk bgpASN ->
  let s1 := snd (retryWithBackoff
                   (httpClient_Get ("https://api.bgpview.io/asn/" +:+ asn)) 3 s) in
  let p := length (objs (st_heap s)) in
  lookupASNDetails asn s =
    (Ret (Some p, None),
     mkState (Cache_Set (st_cache s) ("asn_details_" +:+ asn)
                (Some (DDetails p)) (2 * Hour) (time_Now (st_world s1)))
             (mkHeap (objs (st_heap s) ++ [details_of bgpASN]) (arrs (st_heap s)))
             (st_world s1) (st_trace s1 ++ [EvClose resp])).
Proof.
  intros Hmiss Hfetch H200 Hdec s1 p.
  unfold lookupASNDetails, bind at 1, cache_Get.
  fold (cached s ("asn_details_" +:+ asn)).
  rewrite Hmiss. unfold bind at 1.
  pose proof (retryWithBackoff_frame
                (httpClient_Get ("https://api.bgpview.io/asn/" +:+ asn)) 3 s)
    as [Hc Hh].
  fold s1 in Hc, Hh. subst p.
  destruct (retryWithBackoff
              (httpClient_Get ("https://api.bgpview.io/asn/" +:+ asn)) 3 s)
    as [o s1'] eqn:Hr. cbn [fst snd] in *. subst o s1. cbn [fst snd].
  unfold defer_Body_Close. rewrite H200, Hdec. cbn [negb Z.eqb Pos.eqb].
  unfold bind at 1. unfold new_ASNDetails.
  unfold details_of.
  assert (Hlook : forall (d : ASNDetails) (l : list ASNDetails),
             (l ++ [d]) !! length l = Some d).
  { intros d l. rewrite lookup_app_r by lia. rewrite Nat.sub_diag. reflexivity. }
  assert (Halter : forall f (d : ASNDetails) (l : list ASNDetails),
             alter f (length l) (l ++ [d]) = l ++ [f d]).
  { intros f d l. rewrite <- (Nat.add_0_r (length l)) at 1.
    rewrite alter_app_r. reflexivity. }
  destruct (String.eqb_spec (asn_RIRName bgpASN) "") as [Hr1 | Hr1];
    destruct (String.eqb_spec (asn_IANADescription bgpASN) "") as [Hi1 | Hi1];
    unfold bind, when, update_ASNDetails, cache_Set, ret;
    cbn [negb st_cache st_heap st_world st_trace objs arrs];
    rewrite ?Hlook; cbn [st_cache st_heap st_world st_trace objs arrs];
    rewrite ?Halter, ?Hlook; cbn [st_cache st_heap st_world st_trace objs arrs];
    rewrite ?Halter;
    unfold set_RIRAllocation, set_IANAAssignment; simpl;
    rewrite ?Hr1, ?Hi1, Hc, Hh; reflexivity.
Qed.

(** X14: on a miss answered 200, [lookupASNDetails] allocates one record
    and returns a pointer to it; the record carries the decoded fields, the
    RIR name and the IANA description among them, be they empty or not. *)
Theorem lookupASNDetails_builds_record asn s resp bgpASN :
  snd (cached s ("asn_details_" +:+ asn)) = false ->
  fst (retryWithBackoff (httpClient_Get ("https://api.bgpview.io/asn/" +:+ asn)) 3 s)
    = Ret (Some resp, None) ->
  StatusCode resp = 200 ->
  decode_bgpViewASNData (Body resp) = DecodeOk bgpASN ->
  exists p,
    fst (lookupASNDetails asn s) = Ret (Some p, None) /\
    objs (st_heap (snd (lookupASNDetails asn s))) !! p = Some (details_of bgpASN) /\
    objs (st_heap (snd (lookupASNDetails asn s)))
    = objs (st_heap s) ++ [details_of bgpASN].
Proof.
  intros Hmiss Hfetch H200 Hdec.
  rewrite (lookupASNDetails_miss_ok_state asn s resp bgpASN Hmiss Hfetch H200 Hdec).
  exists (length (objs (st_heap s))). cbn [fst snd st_heap objs].
  split; [reflexivity |]. split; [| reflexivity].
  rewrite lookup_app_r by lia. rewrite Nat.sub_diag. reflexivity.
Qed.

(** X15: the record fetched by [lookupASNDetails] is kept for two hours:
    in any later state with that cache, a lookup at most two hours after the
    fetch returns the same pointer without any effect, so without a
    request; later than that the entry is a miss. *)
Theorem lookupASNDetails_cached_two_hours asn s resp bgpASN :
  snd (cached s ("asn_details_" +:+ asn)) = false ->
  fst (retryWithBackoff (httpClient_Get ("https://api.bgpview.io/asn/" +:+ asn)) 3 s)
    = Ret (Some resp, None) ->
  StatusCode resp = 200 ->
  decode_bgpViewASNData (Body resp) = DecodeOk bgpASN ->
  let r := lookupASNDetails asn s in
  forall s2,
    st_cache s2 = st_cache (snd r) ->
    let age := Since (time_Now (st_world s2)) (time_Now (st_world (snd r))) in
    (age <= 2 * Hour -> lookupASNDetails asn s2 = (fst r, s2)) /\
    (2 * Hour < age -> snd (cached s2 ("asn_details_" +:+ asn)) = false).
Proof.
  intros Hmiss Hfetch H200 Hdec r s2 Hcache age. subst r age.
  rewrite (lookupASNDetails_miss_ok_state asn s resp bgpASN
             Hmiss Hfetch H200 Hdec) in *.
  cbn [fst snd st_cache st_world] in *.
  set (now1 := time_Now
                 (st_world
                    (snd (retryWithBackoff
                            (httpClient_Get ("https://api.bgpview.io/asn/" +:+ asn))
                            3 s)))) in *.
  split; intros Hage.
  - apply lookupASNDetails_hit. unfold cached.
    rewrite Hcache, Cache_Get_Set_same.
    destruct (Z.ltb_spec (2 * Hour) (Since (time_Now (st_world s2)) now1));
      [lia | reflexivity].
  - unfold cached. rewrite Hcache, Cache_Get_Set_same.
    destruct (Z.ltb_spec (2 * Hour) (Since (time_Now (st_world s2)) now1));
      [reflexivity | lia].
Qed.

(** X16: on a miss, a response with a status other than 200 makes
    [lookupIPv6] fail without a result: with the rate-limit message when
    the status is 429 and with the message that names the status code
    otherwise; the rate-limit message is none of the status messages. *)
Theorem lookupIPv6_classifies_status asn s resp :
  snd (cached s ("asn_" +:+ asn)) = false ->
  fst (retryWithBackoff (httpClient_Get (prefixes_url asn)) 3 s)
    = Ret (Some resp, None) ->
  StatusCode resp <> 200 ->
  (StatusCode resp = 429 ->
   fst (lookupIPv6 asn s)
   = Ret (None, Some ("BGPView API rate limit exceeded for ASN " +:+ asn
                      +:+ ". Please try again in a few minutes"))) /\
  (StatusCode resp <> 429 ->
   fst (lookupIPv6 asn s)
   = Ret (None, Some ("BGPView API returned status "
                      +:+ sprintf_d (StatusCode resp) +:+ " for ASN " +:+ asn))) /\
  (forall code a,
      "BGPView API rate limit exceeded for ASN " +:+ asn
        +:+ ". Please try again in a few minutes"
      <> "BGPView API returned status " +:+ sprintf_d code +:+ " for ASN " +:+ a).
Proof.
  intros Hmiss Hfetch H200.
  assert (Hrun : fst (lookupIPv6 asn s) =
                 if StatusCode resp =? 429
                 then Ret (None, Some ("BGPView API rate limit exceeded for ASN "
                                       +:+ asn
                                       +:+ ". Please try again in a few minutes"))
                 else Ret (None, Some ("BGPView API returned status "
                                       +:+ sprintf_d (StatusCode resp)
                                       +:+ " for ASN " +:+ asn))).
  { unfold lookupIPv6. fold (prefixes_url asn).
    unfold bind at 1. unfold cache_Get. fold (cached s ("asn_" +:+ asn)).
    rewrite Hmiss. unfold bind at 1.
    destruct (retryWithBackoff (httpClient_Get (prefixes_url asn)) 3 s)
      as [o s1]. simpl in Hfetch. subst o. cbn [fst snd].
    unfold defer_Body_Close.
    apply Z.eqb_neq in H200. rewrite H200. cbn [negb].
    destruct (StatusCode resp =? 429); reflexivity. }
  rewrite Hrun. split; [| split].
  - intros H. apply Z.eqb_eq in H. rewrite H. reflexivity.
  - intros H. apply Z.eqb_neq in H. rewrite H. reflexivity.
  - intros code a Heq. simpl in Heq. discriminate Heq.
Qed.

Lemma retry_thrice_on_errors fn (s : State) :
  always_errors fn ->
  exists r1 r2 r3 l1 l2 e,
    snd r3 = Some e /\
    fst (retryWithBackoff fn 3 s) = Ret (None, Some e) /\
    st_trace (snd (retryWithBackoff fn 3 s))
    = st_trace s ++ [EvCall r1; EvLog l1; EvSleep (1 * Second);
                     EvCall r2; EvLog l2; EvSleep (2 * Second); EvCall r3].
Proof.
  intros Hdead. unfold retryWithBackoff. change (Z.to_nat 3) with 3%nat.
  rewrite retry_loop_step.
  pose proof (Hdead (st_world s)) as H1.
  destruct (fn (st_world s)) as [[resp1 [e1 |]] w1];
    [clear H1 | exfalso; apply H1; reflexivity].
  cbn [fst snd]. change (0 =? 3 - 1) with false. cbv iota.
  rewrite retry_loop_step. cbn [st_world after_wait].
  pose proof (Hdead (time_Sleep (waitTime_error 0) w1)) as H2.
  destruct (fn (time_Sleep (waitTime_error 0) w1)) as [[resp2 [e2 |]] w2];
    [clear H2 | exfalso; apply H2; reflexivity].
  cbn [fst snd]. change (0 + 1 =? 3 - 1) with false. cbv iota.
  rewrite retry_loop_step. cbn [st_world after_wait].
  pose proof (Hdead (time_Sleep (waitTime_error (0 + 1)) w2)) as H3.
  destruct (fn (time_Sleep (waitTime_error (0 + 1)) w2)) as [[resp3 [e3 |]] w3];
    [clear H3 | exfalso; apply H3; reflexivity].
  cbn [fst snd]. change (0 + 1 + 1 =? 3 - 1) with true. cbv iota.
  exists (resp1, Some e1), (resp2, Some e2), (resp3, Some e3).
  eexists. eexists. exists e3.
  split; [reflexivity |]. split; [reflexivity |].
  unfold after_call, after_wait. cbn [st_trace].
  rewrite <- !app_assoc. reflexivity.
Qed.

(** X17: when the upstream cannot be reached at all, a [lookupIPv6] that
    misses the cache asks three times and waits 1s and then 2s between the
    requests: its events are a call, a log line and the wait of 1s, the
    second call, a log line and the wait of 2s, and the third call, in this
    order and nothing else. It then fails with
    [BGPView API request failed:] followed by the error of the third call;
    the cache stays as it was. *)
Theorem lookupIPv6_dead_upstream asn s :
  snd (cached s ("asn_" +:+ asn)) = false ->
  always_errors (httpClient_Get (prefixes_url asn)) ->
  exists tr e r1 r2 r3 l1 l2,
    adds (lookupIPv6 asn) s tr /\
    tr = [EvCall r1; EvLog l1; EvSleep (1 * Second);
          EvCall r2; EvLog l2; EvSleep (2 * Second); EvCall r3] /\
    length (calls_of tr) = 3%nat /\
    sleeps_of tr = [1 * Second; 2 * Second] /\
    snd r3 = Some e /\
    fst (lookupIPv6 asn s)
    = Ret (None, Some ("BGPView API request failed: " +:+ e)) /\
    st_cache (snd (lookupIPv6 asn s)) = st_cache s.
Proof.
  intros Hmiss Hdead.
  destruct (retry_thrice_on_errors (httpClient_Get (prefixes_url asn)) s Hdead)
    as (r1 & r2 & r3 & l1 & l2 & e & Hr3 & Hres & Htr).
  pose proof (proj1 (retryWithBackoff_frame
                       (httpClient_Get (prefixes_url asn)) 3 s)) as Hc.
  assert (Hrun : lookupIPv6 asn s =
                 (Ret (None, Some ("BGPView API request failed: " +:+ e)),
                  snd (retryWithBackoff (httpClient_Get (prefixes_url asn)) 3 s))).
  { unfold lookupIPv6. fold (prefixes_url asn).
    unfold bind at 1. unfold cache_Get. fold (cached s ("asn_" +:+ asn)).
    rewrite Hmiss. unfold bind at 1.
    destruct (retryWithBackoff (httpClient_Get (prefixes_url asn)) 3 s)
      as [o s1]. cbn [fst snd] in Hres |- *. subst o. reflexivity. }
  exists [EvCall r1; EvLog l1; EvSleep (1 * Second);
          EvCall r2; EvLog l2; EvSleep (2 * Second); EvCall r3],
         e, r1, r2, r3, l1, l2.
  unfold adds. rewrite Hrun. cbn [fst snd].
  split; [exact Htr |]. split; [reflexivity |].
  split; [reflexivity |]. split; [reflexivity |].
  split; [exact Hr3 |]. split; [reflexivity | exact Hc].
Qed.

Lemma retry_few_calls fn s :
  few_calls s (retryWithBackoff fn 3 s).
Proof.
  destruct (retry_loop_anatomy fn 3 2 0 None None s)
    as (tr & earlier & final & Htr & Hcalls & _ & Hlen & _); [lia | reflexivity |].
  exists tr. split; [exact Htr |].
  rewrite Hcalls, length_app. simpl. lia.
Qed.

Ltac close_few Htr Hlen :=
  cbn [fst snd st_trace];
  first
    [ eexists; split; [exact Htr | exact Hlen]
    | eexists; split;
      [ rewrite Htr, <- app_assoc; reflexivity
      | rewrite calls_of_app, length_app; cbn [calls_of omap list_omap length];
        rewrite Nat.add_0_r; exact Hlen ] ].

Ltac open_fetch fn s :=
  let tr := fresh "tr" in
  let Htr := fresh "Htr" in
  let Hlen := fresh "Hlen" in
  let o := fresh "o" in
  let s1 := fresh "s1" in
  destruct (retry_few_calls fn s) as (tr & Htr & Hlen);
  destruct (retryWithBackoff fn 3 s) as [o s1];
  cbn [fst snd] in Htr |- *;
  destruct o as [[[resp |] [e' |]] | pk]; cbn [fst snd];
  try close_few Htr Hlen.

Lemma hit_few_calls {A} (s : State) (r : Result A) : few_calls s (r, s).
Proof. exists []. simpl. rewrite app_nil_r. split; [reflexivity | lia]. Qed.

Lemma lookupIPv6_few_calls asn s : few_calls s (lookupIPv6 asn s).
Proof.
  unfold lookupIPv6, bind at 1, cache_Get.
  destruct (Cache_Get (st_cache s) ("asn_" +:+ asn) (time_Now (st_world s)))
    as [c [|]]; cbn [fst snd].
  - destruct c as [[sl | p] |]; apply hit_few_calls.
  - unfold bind at 1.
    open_fetch (httpClient_Get
                  ("https://api.bgpview.io/asn/" +:+ asn +:+ "/prefixes?type=ipv6")) s.
    unfold defer_Body_Close.
    destruct (negb (StatusCode resp =? 200)).
    + destruct (StatusCode resp =? 429); unfold ret; close_few Htr Hlen.
    + destruct (decode_bgpViewData (Body resp)) as [msg | bgp].
      * unfold ret; close_few Htr Hlen.
      * unfold bind.
        destruct (append_prefixes_run (IPv6Prefixes bgp) None s1)
          as (sl & arrs' & Hrun & _ & _).
        rewrite Hrun. unfold cache_Set, ret. close_few Htr Hlen.
Qed.

Lemma lookupASNByIP_few_calls ip s : few_calls s (lookupASNByIP ip s).
Proof.
  unfold lookupASNByIP, bind at 1, cache_Get.
  destruct (Cache_Get (st_cache s) ("ip_" +:+ ip) (time_Now (st_world s)))
    as [c [|]]; cbn [fst snd].
  - destruct c as [[sl | p] |]; try apply hit_few_calls.
    unfold bind, index.
    destruct (elems (st_heap s) sl !! 0%nat); [| apply hit_few_calls].
    destruct (elems (st_heap s) sl !! 1%nat); apply hit_few_calls.
  - unfold bind at 1.
    open_fetch (httpClient_Get ("https://api.bgpview.io/ip/" +:+ ip)) s.
    unfold defer_Body_Close.
    destruct (negb (StatusCode resp =? 200)).
    + destruct (StatusCode resp =? 429); unfold ret; close_few Htr Hlen.
    + destruct (decode_bgpViewIPData (Body resp)) as [msg | bgpIP].
      * unfold ret; close_few Htr Hlen.
      * destruct (Prefixes bgpIP) as [| first rest].
        -- unfold ret; close_few Htr Hlen.
        -- unfold bind, new_strings, cache_Set, ret. close_few Htr Hlen.
Qed.

Lemma lookupASNDetails_few_calls asn s : few_calls s (lookupASNDetails asn s).
Proof.
  unfold lookupASNDetails, bind at 1, cache_Get.
  destruct (Cache_Get (st_cache s) ("asn_details_" +:+ asn)
              (time_Now (st_world s))) as [c [|]]; cbn [fst snd].
  - destruct c as [[sl | p] |]; apply hit_few_calls.
  - unfold bind at 1.
    open_fetch (httpClient_Get ("https://api.bgpview.io/asn/" +:+ asn)) s.
    unfold defer_Body_Close.
    destruct (negb (StatusCode resp =? 200)).
    + destruct (StatusCode resp =? 429); unfold ret; close_few Htr Hlen.
    + destruct (decode_bgpViewASNData (Body resp)) as [msg | bgpASN].
      * unfold ret; close_few Htr Hlen.
      * unfold bind, when, new_ASNDetails, update_ASNDetails, cache_Set, ret.
        cbn [fst snd st_heap st_cache st_world st_trace objs arrs].
        repeat match goal with
               | |- context [if ?b then _ else _] => destruct b
               | |- context [match ?l !! ?i with _ => _ end] =>
                   destruct (l !! i)
               end; close_few Htr Hlen.
Qed.

(** X18: whatever the upstream answers and whatever the cache holds, each
    of the three lookups makes at most three requests, and only adds to the
    trace of events. *)
Theorem lookups_make_at_most_three_requests (asn ip : string) (s : State) :
  few_calls s (lookupIPv6 asn s) /\
  few_calls s (lookupASNByIP ip s) /\
  few_calls s (lookupASNDetails asn s).
Proof.
  split; [| split].
  - apply lookupIPv6_few_calls.
  - apply lookupASNByIP_few_calls.
  - apply lookupASNDetails_few_calls.
Qed.

End LookupPolicy.

(** *** What the cache holds under which key *)

Section CacheTyping.

Context {env : Env}.

Ltac close_effect Hc Hh :=
  unfold effect_of, ret, panic; cbn [fst snd st_cache st_heap arrs];
  split;
  [ first [ rewrite Hh; reflexivity
          | assumption
          | rewrite Hh; apply prefix_app_r; reflexivity
          | reflexivity ]
  | first [ left; first [exact Hc | reflexivity]
          | right; rewrite ?Hc; do 3 eexists; split; [reflexivity |];
            first [ eexists; reflexivity
                  | do 3 eexists; split; [reflexivity |];
                    cbn [st_heap arrs]; rewrite lookup_app_r by lia;
                    rewrite Nat.sub_diag; reflexivity ] ] ].

Ltac open_fetch_frame fn s :=
  let Hc := fresh "Hc" in
  let Hh := fresh "Hh" in
  let o := fresh "o" in
  let s1 := fresh "s1" in
  destruct (retryWithBackoff_frame fn 3 s) as [Hc Hh];
  destruct (retryWithBackoff fn 3 s) as [o s1];
  cbn [fst snd] in Hc, Hh |- *;
  destruct o as [[[resp |] [e' |]] | pk]; cbn [fst snd];
  try close_effect Hc Hh.

Lemma lookupIPv6_effect asn s :
  effect_of s ("asn_" +:+ asn) is_strings (lookupIPv6 asn s).
Proof.
  unfold lookupIPv6, bind at 1, cache_Get.
  destruct (Cache_Get (st_cache s) ("asn_" +:+ asn) (time_Now (st_world s)))
    as [c [|]]; cbn [fst snd].
  - destruct c as [[sl | p] |]; unfold ret, panic;
      close_effect (eq_refl (st_cache s)) (eq_refl (st_heap s)).
  - unfold bind at 1.
    open_fetch_frame (httpClient_Get
                        ("https://api.bgpview.io/asn/" +:+ asn +:+ "/prefixes?type=ipv6")) s.
    unfold defer_Body_Close.
    destruct (negb (StatusCode resp =? 200)).
    + destruct (StatusCode resp =? 429); unfold ret; close_effect Hc Hh.
    + destruct (decode_bgpViewData (Body resp)) as [msg | bgp].
      * unfold ret; close_effect Hc Hh.
      * unfold bind.
        destruct (append_prefixes_run (IPv6Prefixes bgp) None s1)
          as (sl & arrs' & Hrun & Hpre & _).
        rewrite Hrun. unfold cache_Set, ret. rewrite Hh in Hpre.
        close_effect Hc Hh.
Qed.

Lemma lookupASNDetails_effect asn s :
  effect_of s ("asn_details_" +:+ asn) is_details (lookupASNDetails asn s).
Proof.
  unfold lookupASNDetails, bind at 1, cache_Get.
  destruct (Cache_Get (st_cache s) ("asn_details_" +:+ asn)
              (time_Now (st_world s))) as [c [|]]; cbn [fst snd].
  - destruct c as [[sl | p] |]; unfold ret, panic;
      close_effect (eq_refl (st_cache s)) (eq_refl (st_heap s)).
  - unfold bind at 1.
    open_fetch_frame (httpClient_Get ("https://api.bgpview.io/asn/" +:+ asn)) s.
    unfold defer_Body_Close.
    destruct (negb (StatusCode resp =? 200)).
    + destruct (StatusCode resp =? 429); unfold ret; close_effect Hc Hh.
    + destruct (decode_bgpViewASNData (Body resp)) as [msg | bgpASN].
      * unfold ret; close_effect Hc Hh.
      * unfold bind, when, new_ASNDetails, update_ASNDetails, cache_Set, ret.
        cbn [fst snd st_heap st_cache st_world st_trace objs arrs].
        repeat match goal with
               | |- context [if ?b then _ else _] => destruct b
               | |- context [match ?l !! ?i with _ => _ end] =>
                   destruct (l !! i)
               end; close_effect Hc Hh.
Qed.

Lemma lookupASNByIP_effect ip s :
  effect_of s ("ip_" +:+ ip) is_pair (lookupASNByIP ip s).
Proof.
  unfold lookupASNByIP, bind at 1, cache_Get.
  destruct (Cache_Get (st_cache s) ("ip_" +:+ ip) (time_Now (st_world s)))
    as [c [|]]; cbn [fst snd].
  - destruct c as [[sl | p] |]; unfold ret, panic;
      try close_effect (eq_refl (st_cache s)) (eq_refl (st_heap s)).
    unfold bind, index.
    destruct (elems (st_heap s) sl !! 0%nat);
      [| close_effect (eq_refl (st_cache s)) (eq_refl (st_heap s))].
    destruct (elems (st_heap s) sl !! 1%nat);
      close_effect (eq_refl (st_cache s)) (eq_refl (st_heap s)).
  - unfold bind at 1.
    open_fetch_frame (httpClient_Get ("https://api.bgpview.io/ip/" +:+ ip)) s.
    unfold defer_Body_Close.
    destruct (negb (StatusCode resp =? 200)).
    + destruct (StatusCode resp =? 429); unfold ret; close_effect Hc Hh.
    + destruct (decode_bgpViewIPData (Body resp)) as [msg | bgpIP].
      * unfold ret; close_effect Hc Hh.
      * destruct (Prefixes bgpIP) as [| first rest].
        -- unfold ret; close_effect Hc Hh.
        -- unfold bind, new_strings, cache_Set, ret. close_effect Hc Hh.
Qed.

Lemma entry_typed_grows s s' key e :
  arrs (st_heap s) `prefix_of` arrs (st_heap s') ->
  entry_typed s key e -> entry_typed s' key e.
Proof.
  intros Hpre (H1 & H2 & H3). split; [| split]; auto.
  intros ip Hk. destruct (H1 ip Hk) as (a & x & y & Hv & Ha).
  exists a, x, y. split; [exact Hv |].
  exact (prefix_lookup_Some _ _ _ _ Ha Hpre).
Qed.

Lemma cache_typed_after {A} s key ok (x : Result A * State) :
  cache_typed s ->
  effect_of s key ok x ->
  (forall v d t, ok (snd x) v ->
                 entry_typed (snd x) key (mkCacheEntry (Some v) t d)) ->
  cache_typed (snd x).
Proof.
  intros Hinv [Hpre Hcache] Hnew key' e' Hlook.
  destruct Hcache as [Hsame | (v & d & t & Hset & Hok)].
  - rewrite Hsame in Hlook.
    exact (entry_typed_grows s (snd x) key' e' Hpre (Hinv key' e' Hlook)).
  - rewrite Hset in Hlook. unfold Cache_Set in Hlook. simpl in Hlook.
    destruct (decide (key = key')) as [<- | Hne].
    + rewrite lookup_insert_eq in Hlook. injection Hlook as <-.
      apply Hnew. exact Hok.
    + rewrite lookup_insert_ne in Hlook by exact Hne.
      exact (entry_typed_grows s (snd x) key' e' Hpre (Hinv key' e' Hlook)).
Qed.

(** X19: the typing of the cache is an invariant. It holds of an empty
    cache, [lookupASNByIP] and [lookupASNDetails] keep it for every
    argument, and [lookupIPv6] keeps it for every ASN that does not start
    with [details_]. *)
Theorem cache_typed_invariant (asn ip : string) (s : State) :
  (data (st_cache s) = ∅ -> cache_typed s) /\
  (cache_typed s -> cache_typed (snd (lookupASNByIP ip s))) /\
  (cache_typed s -> cache_typed (snd (lookupASNDetails asn s))) /\
  (cache_typed s -> plain_asn asn -> cache_typed (snd (lookupIPv6 asn s))).
Proof.
  split; [| split; [| split]].
  - intros Hempty key e Hlook. rewrite Hempty, lookup_empty in Hlook.
    discriminate Hlook.
  - intros Hinv.
    apply (cache_typed_after s _ _ _ Hinv (lookupASNByIP_effect ip s)).
    intros v d t (a & x & y & -> & Ha). split; [| split].
    + intros ip' _. exists a, x, y. split; [reflexivity | exact Ha].
    + intros a' Hk. simpl in Hk. discriminate Hk.
    + intros a' _ Hk. simpl in Hk. discriminate Hk.
  - intros Hinv.
    apply (cache_typed_after s _ _ _ Hinv (lookupASNDetails_effect asn s)).
    intros v d t (p & ->). split; [| split].
    + intros ip' Hk. simpl in Hk. discriminate Hk.
    + intros a' _. exists p. reflexivity.
    + intros a' Hplain Hk. simpl in Hk. injection Hk as Hk.
      exfalso. apply (Hplain asn). symmetry. exact Hk.
  - intros Hinv Hplain.
    apply (cache_typed_after s _ _ _ Hinv (lookupIPv6_effect asn s)).
    intros v d t (sl & ->). split; [| split].
    + intros ip' Hk. simpl in Hk. discriminate Hk.
    + intros a' Hk. simpl in Hk. injection Hk as Hk.
      exfalso. apply (Hplain a'). exact Hk.
    + intros a' _ _. exists sl. reflexivity.
Qed.

(** The steps of the invariant, one lookup at a time. *)
Lemma empty_cache_typed (s : State) : data (st_cache s) = ∅ -> cache_typed s.
Proof.
  intros Hempty key e Hlook. rewrite Hempty, lookup_empty in Hlook.
  discriminate Hlook.
Qed.

Lemma lookupASNByIP_keeps_typed ip s :
  cache_typed s -> cache_typed (snd (lookupASNByIP ip s)).
Proof.
  intros Hinv.
  apply (cache_typed_after s _ _ _ Hinv (lookupASNByIP_effect ip s)).
  intros v d t (a & x & y & -> & Ha). split; [| split].
  - intros ip' _. exists a, x, y. split; [reflexivity | exact Ha].
  - intros a' Hk. simpl in Hk. discriminate Hk.
  - intros a' _ Hk. simpl in Hk. discriminate Hk.
Qed.

Lemma lookupASNDetails_keeps_typed asn s :
  cache_typed s -> cache_typed (snd (lookupASNDetails asn s)).
Proof.
  intros Hinv.
  apply (cache_typed_after s _ _ _ Hinv (lookupASNDetails_effect asn s)).
  intros v d t (p & ->). split; [| split].
  - intros ip' Hk. simpl in Hk. discriminate Hk.
  - intros a' _. exists p. reflexivity.
  - intros a' Hplain Hk. simpl in Hk. injection Hk as Hk.
    exfalso. apply (Hplain asn). symmetry. exact Hk.
Qed.

Lemma lookupIPv6_keeps_typed asn s :
  cache_typed s -> plain_asn asn -> cache_typed (snd (lookupIPv6 asn s)).
Proof.
  intros Hinv Hplain.
  apply (cache_typed_after s _ _ _ Hinv (lookupIPv6_effect asn s)).
  intros v d t (sl & ->). split; [| split].
  - intros ip' Hk. simpl in Hk. discriminate Hk.
  - intros a' Hk. simpl in Hk. injection Hk as Hk.
    exfalso. apply (Hplain a'). exact Hk.
  - intros a' _ _. exists sl. reflexivity.
Qed.

Lemma retry_no_type_panic fn s : no_type_panic (retryWithBackoff fn 3 s).
Proof.
  intros p Hp.
  destruct (retry_loop_anatomy fn 3 2 0 None None s)
    as (tr & earlier & [r e] & _ & _ & _ & _ & _ & Hend); [lia | reflexivity |].
  change (retry_loop fn 3 3 0 None None s) with (retryWithBackoff fn 3 s) in Hend.
  unfold concludes in Hend. cbn [fst snd] in Hend. rewrite Hp in Hend.
  destruct e as [e |]; [destruct Hend as [H _]; discriminate H |].
  destruct r as [rsp |]; [destruct Hend as [H _]; discriminate H |].
  congruence.
Qed.

Lemma Cache_Get_found {V} (c : Cache V) key now v :
  Cache_Get c key now = (v, true) ->
  exists e, data c !! key = Some e /\ value e = v.
Proof.
  unfold Cache_Get. destruct (data c !! key) as [e |]; [| discriminate].
  destruct (ttl e <? Since now (timestamp e)); [discriminate |].
  intros H. injection H as <-. exists e. split; reflexivity.
Qed.

Ltac close_panic :=
  let p := fresh "p" in
  let Hp := fresh "Hp" in
  unfold no_type_panic, ret, panic; simpl;
  intros p Hp; first [discriminate Hp | injection Hp as <-; reflexivity].

Ltac open_fetch_panic fn s :=
  let Hn := fresh "Hn" in
  let o := fresh "o" in
  let s1 := fresh "s1" in
  pose proof (retry_no_type_panic fn s) as Hn;
  destruct (retryWithBackoff fn 3 s) as [o s1];
  destruct o as [[[resp |] [e' |]] | pk]; cbn [fst snd];
  try close_panic;
  try (intros p Hp; injection Hp as <-; exact (Hn pk eq_refl)).

Lemma lookupASNByIP_no_type_panic ip s :
  cache_typed s -> no_type_panic (lookupASNByIP ip s).
Proof.
  intros Hinv.
  unfold lookupASNByIP, bind at 1, cache_Get.
  destruct (Cache_Get (st_cache s) ("ip_" +:+ ip) (time_Now (st_world s)))
    as [c [|]] eqn:Hget; cbn [fst snd].
  - destruct (Cache_Get_found _ _ _ _ Hget) as (e & Hlook & Hv).
    destruct (proj1 (Hinv _ _ Hlook) ip eq_refl) as (a & x & y & Hval & Ha).
    rewrite Hv in Hval. rewrite Hval.
    unfold bind, index, elems. unfold loc in *. rewrite Ha. simpl.
    rewrite Ha. simpl. close_panic.
  - unfold bind at 1.
    open_fetch_panic (httpClient_Get ("https://api.bgpview.io/ip/" +:+ ip)) s.
    unfold defer_Body_Close.
    destruct (negb (StatusCode resp =? 200)).
    + destruct (StatusCode resp =? 429); close_panic.
    + destruct (decode_bgpViewIPData (Body resp)) as [msg | bgpIP].
      * close_panic.
      * destruct (Prefixes bgpIP) as [| first rest].
        -- close_panic.
        -- unfold bind, new_strings, cache_Set. close_panic.
Qed.

Lemma lookup_snoc_last {A} (d : A) (l : list A) :
  (l ++ [d]) !! length l = Some d.
Proof. rewrite lookup_app_r by lia. rewrite Nat.sub_diag. reflexivity. Qed.

Lemma alter_snoc_last {A} (f : A -> A) (d : A) (l : list A) :
  alter f (length l) (l ++ [d]) = l ++ [f d].
Proof.
  rewrite <- (Nat.add_0_r (length l)) at 1. rewrite alter_app_r. reflexivity.
Qed.

Lemma lookupASNDetails_no_type_panic asn s :
  cache_typed s -> no_type_panic (lookupASNDetails asn s).
Proof.
  intros Hinv.
  unfold lookupASNDetails, bind at 1, cache_Get.
  destruct (Cache_Get (st_cache s) ("asn_details_" +:+ asn)
              (time_Now (st_world s))) as [c [|]] eqn:Hget; cbn [fst snd].
  - destruct (Cache_Get_found _ _ _ _ Hget) as (e & Hlook & Hv).
    destruct (proj1 (proj2 (Hinv _ _ Hlook)) asn eq_refl) as (p & Hval).
    rewrite Hv in Hval. rewrite Hval. close_panic.
  - unfold bind at 1.
    open_fetch_panic (httpClient_Get ("https://api.bgpview.io/asn/" +:+ asn)) s.
    unfold defer_Body_Close.
    destruct (negb (StatusCode resp =? 200)).
    + destruct (StatusCode resp =? 429); close_panic.
    + destruct (decode_bgpViewASNData (Body resp)) as [msg | bgpASN].
      * close_panic.
      * destruct (negb (String.eqb (asn_RIRName bgpASN) ""));
          destruct (negb (String.eqb (asn_IANADescription bgpASN) ""));
          unfold bind, when, new_ASNDetails, update_ASNDetails, cache_Set, ret;
          cbn [st_cache st_heap st_world st_trace objs arrs];
          rewrite ?lookup_snoc_last;
          cbn [st_cache st_heap st_world st_trace objs arrs];
          rewrite ?alter_snoc_last, ?lookup_snoc_last;
          close_panic.
Qed.

Lemma lookupIPv6_no_type_panic asn s :
  cache_typed s -> plain_asn asn -> no_type_panic (lookupIPv6 asn s).
Proof.
  intros Hinv Hplain.
  unfold lookupIPv6, bind at 1, cache_Get.
  destruct (Cache_Get (st_cache s) ("asn_" +:+ asn) (time_Now (st_world s)))
    as [c [|]] eqn:Hget; cbn [fst snd].
  - destruct (Cache_Get_found _ _ _ _ Hget) as (e & Hlook & Hv).
    destruct (proj2 (proj2 (Hinv _ _ Hlook)) asn Hplain eq_refl) as (sl & Hval).
    rewrite Hv in Hval. rewrite Hval. close_panic.
  - unfold bind at 1.
    open_fetch_panic (httpClient_Get
                        ("https://api.bgpview.io/asn/" +:+ asn +:+ "/prefixes?type=ipv6")) s.
    unfold defer_Body_Close.
    destruct (negb (StatusCode resp =? 200)).
    + destruct (StatusCode resp =? 429); close_panic.
    + destruct (decode_bgpViewData (Body resp)) as [msg | bgp].
      * close_panic.
      * unfold bind.
        destruct (append_prefixes_run (IPv6Prefixes bgp) None s1)
          as (sl & arrs' & Hrun & _ & _).
        rewrite Hrun. unfold cache_Set. close_panic.
Qed.

(** X20: while the cache is typed, no lookup panics in a type assertion
    or on an index: [lookupASNByIP] and [lookupASNDetails] for every
    argument, [lookupIPv6] for every ASN that does not start with
    [details_]. The one panic left is the nil dereference that follows a
    request answered with neither a response nor an error. *)
Theorem typed_cache_no_type_panic (asn ip : string) (s : State) :
  cache_typed s ->
  no_type_panic (lookupASNByIP ip s) /\
  no_type_panic (lookupASNDetails asn s) /\
  (plain_asn asn -> no_type_panic (lookupIPv6 asn s)).
Proof.
  intros Hinv. split; [| split].
  - apply lookupASNByIP_no_type_panic. exact Hinv.
  - apply lookupASNDetails_no_type_panic. exact Hinv.
  - intros Hplain. apply lookupIPv6_no_type_panic; assumption.
Qed.

End CacheTyping.

(** *** The request handler *)

Section HandlerProps.

Context {env : Env} {lib : GoLib}.

Lemma strings_Split_head (s : string) :
  exists rest, strings_Split s "," = before_comma s :: rest.
Proof.
  induction s as [| a s' [rest IH]]; simpl.
  - exists []. reflexivity.
  - destruct (Ascii.eqb a ","); [eexists; reflexivity |].
    rewrite IH. exists rest. reflexivity.
Qed.

(** X21: [getClientIP] trusts the request headers before the connection.
    A non-empty [X-Forwarded-For] decides alone, by what stands before its
    first comma; [X-Real-IP] is read only when [X-Forwarded-For] is empty,
    and the peer address only when both are. *)
Theorem getClientIP_precedence (r : Request) :
  let xff := Header_Get r "X-Forwarded-For" in
  let xrip := Header_Get r "X-Real-IP" in
  (xff <> "" -> getClientIP r = strings_TrimSpace (before_comma xff)) /\
  (xff = "" -> xrip <> "" -> getClientIP r = strings_TrimSpace xrip) /\
  (xff = "" -> xrip = "" ->
   getClientIP r = match net_SplitHostPort (RemoteAddr r) with
                   | (ip, _, None) => ip
                   | (_, _, Some _) => RemoteAddr r
                   end).
Proof.
  intros xff xrip. unfold getClientIP. fold xff. fold xrip.
  split; [| split].
  - intros Hx. destruct (String.eqb_spec xff "") as [He | _]; [contradiction |].
    simpl. destruct (strings_Split_head xff) as [rest ->]. reflexivity.
  - intros -> Hr. simpl.
    destruct (String.eqb_spec xrip "") as [He | _]; [contradiction |].
    reflexivity.
  - intros -> ->. simpl.
    destruct (net_SplitHostPort (RemoteAddr r)) as [[ip port] [e |]]; reflexivity.
Qed.

(** X22: on a POST whose three lookups return, the page is assembled from
    them in the state the last one leaves: the submitted ASN is shown; the
    error is that of [lookupIPv6] and of nothing else; a failed
    [lookupASNByIP] or [lookupASNDetails] only leaves its part of the page
    empty. *)
Theorem formHandler_post (r : Request) (s s1 s2 s3 : State)
    (d1 : string * string * error) (d2 : option loc * error) (d3 : slice * error) :
  Method r = "POST" ->
  getClientIP r <> "" ->
  lookupASNByIP (getClientIP r) s = (Ret d1, s1) ->
  lookupASNDetails (FormValue r "asn") s1 = (Ret d2, s2) ->
  lookupIPv6 (FormValue r "asn") s2 = (Ret d3, s3) ->
  exists page,
    formHandler_pageData r s = (Ret page, s3) /\
    page_SourceIP page = getClientIP r /\
    page_ASN page = FormValue r "asn" /\
    page_AutoDetected page = (match snd d1 with None => true | Some _ => false end) /\
    page_ASNDetails page = (match snd d2 with None => fst d2 | Some _ => None end) /\
    page_Error page = default "" (snd d3) /\
    page_Prefixes page = (match snd d3 with None => fst d3 | Some _ => None end).
Proof.
  intros Hpost Hip H1 H2 H3.
  unfold formHandler_pageData.
  destruct (String.eqb_spec (getClientIP r) "") as [He | _]; [contradiction |].
  cbn [negb]. unfold bind at 1. unfold bind at 1. rewrite H1.
  rewrite Hpost. cbn [String.eqb Ascii.eqb Bool.eqb].
  destruct d1 as [[a n] [e1 |]]; unfold ret at 1; cbn [fst snd];
    unfold bind at 1; cbn [page_ASN page_Prefixes page_Error page_SourceIP
                            page_DetectedASN page_ASNName page_AutoDetected
                            page_ASNDetails];
    rewrite H2; unfold bind at 1; rewrite H3;
    destruct d2 as [p [e2 |]]; destruct d3 as [sl [e3 |]];
    unfold ret; eexists; (split; [reflexivity |]);
    cbn; repeat split; reflexivity.
Qed.

(** X23: on any other method only the client's address is looked up. No
    error is shown whatever that lookup returns; when it resolves, its ASN
    fills the form, and otherwise the form stays empty. *)
Theorem formHandler_get (r : Request) (s s1 : State)
    (d1 : string * string * error) :
  Method r <> "POST" ->
  (getClientIP r = "" ->
   formHandler_pageData r s
   = (Ret (mkPageData "" None "" "" "" "" false None), s)) /\
  (getClientIP r <> "" ->
   lookupASNByIP (getClientIP r) s = (Ret d1, s1) ->
   exists page,
     formHandler_pageData r s = (Ret page, s1) /\
     page_SourceIP page = getClientIP r /\
     page_Error page = "" /\
     page_Prefixes page = None /\
     page_ASNDetails page = None /\
     page_AutoDetected page = (match snd d1 with None => true | Some _ => false end) /\
     page_ASN page = (match snd d1 with None => fst (fst d1) | Some _ => "" end)).
Proof.
  intros Hget. split.
  - intros Hip. unfold formHandler_pageData. rewrite Hip.
    destruct (String.eqb_spec (Method r) "POST") as [He | _]; [contradiction |].
    reflexivity.
  - intros Hip H1. unfold formHandler_pageData.
    destruct (String.eqb_spec (getClientIP r) "") as [He | _]; [contradiction |].
    destruct (String.eqb_spec (Method r) "POST") as [He | _]; [contradiction |].
    cbn [negb]. unfold bind at 1. unfold bind at 1. rewrite H1.
    destruct d1 as [[a n] [e1 |]]; unfold ret; cbn;
      eexists; (split; [reflexivity |]); cbn; repeat split; reflexivity.
Qed.

Lemma calls_within_ret {A} (a : A) (s : State) : calls_within 0 s (ret a s).
Proof. exists []. simpl. rewrite app_nil_r. split; [reflexivity | lia]. Qed.

Lemma calls_within_more {A} n m (s : State) (x : Result A * State) :
  (n <= m)%nat -> calls_within n s x -> calls_within m s x.
Proof. intros Hle (tr & Htr & Hn). exists tr. split; [exact Htr | lia]. Qed.

Lemma calls_within_bind {A B} n m (s : State) (c : M A) (k : A -> M B) :
  calls_within n s (c s) ->
  (forall a s1, calls_within m s1 (k a s1)) ->
  calls_within (n + m) s (bind c k s).
Proof.
  intros (tr & Htr & Hn) Hk. unfold bind.
  destruct (c s) as [[a | p] s1]; cbn [fst snd] in *.
  - destruct (Hk a s1) as (tr2 & Htr2 & Hm).
    exists (tr ++ tr2). rewrite Htr2, Htr, <- app_assoc.
    split; [reflexivity |]. rewrite calls_of_app, length_app. lia.
  - exists tr. split; [exact Htr | lia].
Qed.

(** X24: serving one request costs the upstream at most nine requests, and
    at most three when the method is not POST, whatever the upstream
    answers and whatever the cache holds. *)
Theorem formHandler_request_budget (r : Request) (s : State) :
  calls_within 9 s (formHandler_pageData r s) /\
  (Method r <> "POST" -> calls_within 3 s (formHandler_pageData r s)).
Proof.
  assert (Hfirst : forall (data : pageData),
             calls_within 3 s
               ((if negb (String.eqb (getClientIP r) "") then
                   bind (lookupASNByIP (getClientIP r))
                     (fun d => match d with
                               | (detectedASN, asnName, None) =>
                                   ret (mkPageData (page_ASN data)
                                          (page_Prefixes data) (page_Error data)
                                          (page_SourceIP data) detectedASN asnName
                                          true (page_ASNDetails data))
                               | (_, _, Some _) => ret data
                               end)
                 else ret data) s)).
  { intros data. destruct (negb (String.eqb (getClientIP r) "")).
    - apply (calls_within_bind 3 0).
      + apply lookupASNByIP_few_calls.
      + intros [[a n] [e |]] s1; apply calls_within_ret.
    - apply (calls_within_more 0); [lia | apply calls_within_ret]. }
  unfold formHandler_pageData. split.
  - apply (calls_within_bind 3 6); [apply Hfirst |].
    intros data s1. destruct (String.eqb (Method r) "POST").
    + apply (calls_within_bind 3 3); [apply lookupASNDetails_few_calls |].
      intros dd s2.
      apply (calls_within_bind 3 0); [apply lookupIPv6_few_calls |].
      intros [sl [e |]] s3; apply calls_within_ret.
    + apply (calls_within_more 0); [lia |].
      destruct (page_AutoDetected data); apply calls_within_ret.
  - intros Hget.
    destruct (String.eqb_spec (Method r) "POST") as [He | _]; [contradiction |].
    apply (calls_within_bind 3 0); [apply Hfirst |].
    intros data s1. destruct (page_AutoDetected data); apply calls_within_ret.
Qed.

End HandlerProps.

(** *** Instances of the further properties *)

Lemma lookupIPv6_returns_prefixes_in_order_witness :
  exists sl,
    fst (run_lookupIPv6 "64500" (start [ok200 "2001:db8::/32"])) = Ret (sl, None) /\
    elems (st_heap (snd (run_lookupIPv6 "64500" (start [ok200 "2001:db8::/32"])))) sl
    = ["2001:db8::/32"].
Proof.
  apply (lookupIPv6_returns_prefixes_in_order (env := scripted)
           "64500" (start [ok200 "2001:db8::/32"])
           (mkResponse 200 "2001:db8::/32")
           (mkBgpViewData [mkPrefixObj "2001:db8::/32"])).
  - vm_compute. reflexivity.
  - vm_compute. reflexivity.
  - reflexivity.
  - reflexivity.
Defined.

Lemma lookupIPv6_cached_one_hour_witness :
  let r := run_lookupIPv6 "64500" (start [ok200 "2001:db8::/32"]) in
  run_lookupIPv6 "64500" (snd r) = (fst r, snd r).
Proof.
  intros r.
  apply (lookupIPv6_cached_one_hour (env := scripted)
           "64500" (start [ok200 "2001:db8::/32"])
           (mkResponse 200 "2001:db8::/32")
           (mkBgpViewData [mkPrefixObj "2001:db8::/32"])).
  - vm_compute. reflexivity.
  - vm_compute. reflexivity.
  - reflexivity.
  - reflexivity.
  - reflexivity.
  - vm_compute. discriminate.
Defined.

Lemma lookupASNByIP_cached_thirty_minutes_witness :
  let r := run_lookupASNByIP "192.0.2.1" (start [ok200 "Example Org"]) in
  run_lookupASNByIP "192.0.2.1" (snd r) = (fst r, snd r).
Proof.
  intros r.
  apply (lookupASNByIP_cached_thirty_minutes (env := scripted)
           "192.0.2.1" (start [ok200 "Example Org"])
           (mkResponse 200 "Example Org")
           (mkBgpViewIPData "" [mkIPPrefix 64500 "" "Example Org" "US"])
           (mkIPPrefix 64500 "" "Example Org" "US") []).
  - vm_compute. reflexivity.
  - vm_compute. reflexivity.
  - reflexivity.
  - reflexivity.
  - reflexivity.
  - reflexivity.
  - exists []. rewrite app_nil_r. reflexivity.
  - vm_compute. discriminate.
Defined.

Lemma lookupASNDetails_builds_record_witness :
  exists p,
    fst (run_lookupASNDetails "64500" (start [ok200 "EXAMPLE-AS"]))
    = Ret (Some p, None) /\
    Name <$> (objs (st_heap (snd (run_lookupASNDetails "64500"
                                    (start [ok200 "EXAMPLE-AS"])))) !! p)
    = Some "EXAMPLE-AS".
Proof.
  destruct (lookupASNDetails_builds_record (env := scripted)
              "64500" (start [ok200 "EXAMPLE-AS"])
              (mkResponse 200 "EXAMPLE-AS")
              (mkBgpViewASNData 64500 "EXAMPLE-AS" "" [] "US" "" [] [] "" []
                                "ARIN" "" "" ""))
    as (p & Hres & Hobj & _).
  - vm_compute. reflexivity.
  - vm_compute. reflexivity.
  - reflexivity.
  - reflexivity.
  - exists p. split; [exact Hres |].
    unfold run_lookupASNDetails. rewrite Hobj. reflexivity.
Defined.

Lemma lookupASNDetails_cached_two_hours_witness :
  let r := run_lookupASNDetails "64500" (start [ok200 "EXAMPLE-AS"]) in
  run_lookupASNDetails "64500" (snd r) = (fst r, snd r).
Proof.
  intros r.
  apply (lookupASNDetails_cached_two_hours (env := scripted)
           "64500" (start [ok200 "EXAMPLE-AS"])
           (mkResponse 200 "EXAMPLE-AS")
           (mkBgpViewASNData 64500 "EXAMPLE-AS" "" [] "US" "" [] [] "" []
                             "ARIN" "" "" "")).
  - vm_compute. reflexivity.
  - vm_compute. reflexivity.
  - reflexivity.
  - reflexivity.
  - reflexivity.
  - vm_compute. discriminate.
Defined.

Lemma lookupIPv6_classifies_status_witness :
  fst (run_lookupIPv6 "64500" (start [(Some (mkResponse 404 ""), None)]))
  = Ret (None, Some "BGPView API returned status 404 for ASN 64500").
Proof.
  apply (proj1 (proj2 (lookupIPv6_classifies_status (env := scripted)
                         "64500" (start [(Some (mkResponse 404 ""), None)])
                         (mkResponse 404 "")
                         ltac:(vm_compute; reflexivity)
                         ltac:(vm_compute; reflexivity)
                         ltac:(simpl; lia)))).
  simpl. lia.
Defined.

Lemma lookupIPv6_dead_upstream_witness :
  exists tr e r1 r2 r3 l1 l2,
    adds (lookupIPv6 (env := unreachable) "64500")
         (mkState (env := unreachable) newCache emptyHeap (mkSWorld [] 0 []) []) tr /\
    tr = [EvCall r1; EvLog l1; EvSleep (1 * Second);
          EvCall r2; EvLog l2; EvSleep (2 * Second); EvCall r3] /\
    length (calls_of tr) = 3%nat /\
    sleeps_of tr = [1 * Second; 2 * Second] /\
    snd r3 = Some e /\
    fst (lookupIPv6 (env := unreachable) "64500"
           (mkState (env := unreachable) newCache emptyHeap (mkSWorld [] 0 []) []))
    = Ret (None, Some ("BGPView API request failed: " +:+ e)) /\
    st_cache (snd (lookupIPv6 (env := unreachable) "64500"
                     (mkState (env := unreachable) newCache emptyHeap
                              (mkSWorld [] 0 []) [])))
    = newCache.
Proof.
  apply (lookupIPv6_dead_upstream (env := unreachable) "64500"
           (mkState (env := unreachable) newCache emptyHeap (mkSWorld [] 0 []) [])).
  - vm_compute. reflexivity.
  - intros w. simpl. discriminate.
Defined.

Lemma typed_cache_no_type_panic_witness :
  (cached warm ("ip_" +:+ "192.0.2.1") = (Some (DStrings (Some 0%nat)), true) /\
   cached warm ("asn_details_" +:+ "64500") = (Some (DDetails 0%nat), true) /\
   cached warm ("asn_" +:+ "64500") = (Some (DStrings (Some 1%nat)), true)) /\
  (fst (run_lookupASNByIP "192.0.2.1" warm) = Ret ("64500", "Example Org", None) /\
   fst (run_lookupASNDetails "64500" warm) = Ret (Some 0%nat, None) /\
   fst (run_lookupIPv6 "64500" warm) = Ret (Some 1%nat, None)) /\
  no_type_panic (run_lookupASNByIP "192.0.2.1" warm) /\
  no_type_panic (run_lookupASNDetails "64500" warm) /\
  no_type_panic (run_lookupIPv6 "64500" warm).
Proof.
  assert (Hplain : plain_asn "64500").
  { intros x Hx. simpl in Hx. discriminate Hx. }
  split; [vm_compute; repeat split |].
  split; [vm_compute; repeat split |].
  destruct (typed_cache_no_type_panic (env := scripted) "64500" "192.0.2.1" warm)
    as (Hip & Hdetails & Hprefixes).
  - unfold warm, run_lookupIPv6, run_lookupASNDetails, run_lookupASNByIP.
    apply lookupIPv6_keeps_typed; [| exact Hplain].
    apply lookupASNDetails_keeps_typed.
    apply lookupASNByIP_keeps_typed.
    apply empty_cache_typed. reflexivity.
  - split; [exact Hip |]. split; [exact Hdetails |].
    apply Hprefixes. exact Hplain.
Defined.

Lemma formHandler_post_witness :
  exists page,
    formHandler_pageData (env := scripted) (lib := scripted_lib) posted_form
      (start [ok200 "Example Org"; ok200 "EXAMPLE-AS"; ok200 "2001:db8::/32"])
    = (Ret page,
       snd (formHandler_pageData (env := scripted) (lib := scripted_lib) posted_form
              (start [ok200 "Example Org"; ok200 "EXAMPLE-AS";
                      ok200 "2001:db8::/32"]))) /\
    page_SourceIP page = "192.0.2.1" /\
    page_ASN page = "64500" /\
    page_AutoDetected page = true /\
    page_ASNDetails page = Some 0%nat /\
    page_Error page = "" /\
    page_Prefixes page = Some 1%nat.
Proof.
  apply (formHandler_post (env := scripted) (lib := scripted_lib) posted_form
           (start [ok200 "Example Org"; ok200 "EXAMPLE-AS"; ok200 "2001:db8::/32"])
           (snd (run_lookupASNByIP "192.0.2.1"
                   (start [ok200 "Example Org"; ok200 "EXAMPLE-AS";
                           ok200 "2001:db8::/32"])))
           (snd (run_lookupASNDetails "64500"
                   (snd (run_lookupASNByIP "192.0.2.1"
                           (start [ok200 "Example Org"; ok200 "EXAMPLE-AS";
                                   ok200 "2001:db8::/32"])))))
           (snd (formHandler_pageData (env := scripted) (lib := scripted_lib)
                   posted_form
                   (start [ok200 "Example Org"; ok200 "EXAMPLE-AS";
                           ok200 "2001:db8::/32"])))
           ("64500", "Example Org", None) (Some 0%nat, None) (Some 1%nat, None)).
  - reflexivity.
  - vm_compute. discriminate.
  - vm_compute. reflexivity.
  - vm_compute. reflexivity.
  - vm_compute. reflexivity.
Defined.

Lemma formHandler_get_witness :
  exists page,
    formHandler_pageData (env := scripted) (lib := scripted_lib) page_view
      (start [ok200 "Example Org"])
    = (Ret page,
       snd (run_lookupASNByIP "192.0.2.1" (start [ok200 "Example Org"]))) /\
    page_SourceIP page = "192.0.2.1" /\
    page_Error page = "" /\
    page_Prefixes page = None /\
    page_ASNDetails page = None /\
    page_AutoDetected page = true /\
    page_ASN page = "64500".
Proof.
  apply (proj2 (formHandler_get (env := scripted) (lib := scripted_lib) page_view
                  (start [ok200 "Example Org"])
                  (snd (run_lookupASNByIP "192.0.2.1" (start [ok200 "Example Org"])))
                  ("64500", "Example Org", None)
                  ltac:(simpl; discriminate))).
  - vm_compute. discriminate.
  - vm_compute. reflexivity.
Defined.

(** *** The message, and the program before the cache *)

Section OldAndNew.

Context {env : Env}.

Lemma append_assoc (a b c : string) : (a +:+ b) +:+ c = a +:+ (b +:+ c).
Proof.
  induction a as [| x a IH]; [reflexivity |].
  change (String x ((a +:+ b) +:+ c) = String x (a +:+ (b +:+ c))).
  rewrite IH. reflexivity.
Qed.

Lemma append_empty_r (a : string) : a +:+ "" = a.
Proof.
  induction a as [| x a IH]; [reflexivity |].
  change (String x (a +:+ "") = String x a). rewrite IH. reflexivity.
Qed.

Lemma strings_Join_cons (x : string) (rest : list string) (sep : string) :
  rest <> [] ->
  strings_Join (x :: rest) sep = x +:+ sep +:+ strings_Join rest sep.
Proof. destruct rest; [contradiction | reflexivity]. Qed.

(** Every element of a joined list stands in the result. *)
Lemma strings_Join_holds (l : list string) (sep p : string) :
  p ∈ l -> exists a b, strings_Join l sep = a +:+ p +:+ b.
Proof.
  induction l as [| x rest IH]; intros Hin.
  - apply elem_of_nil in Hin. contradiction.
  - apply elem_of_cons in Hin. destruct rest as [| y rest'].
    + destruct Hin as [-> | Hin]; [| apply elem_of_nil in Hin; contradiction].
      exists "", "". simpl. rewrite append_empty_r. reflexivity.
    + rewrite strings_Join_cons by discriminate.
      destruct Hin as [-> | Hin].
      * exists "", (sep +:+ strings_Join (y :: rest') sep). reflexivity.
      * destruct (IH Hin) as (a & b & Hj). rewrite Hj.
        exists (x +:+ sep +:+ a), b.
        rewrite !append_assoc. reflexivity.
Qed.

(** X25: the message names every prefix it is given, between the same
    opening and closing words; without prefixes it lists the pages of the
    five registries instead; and the ASN it is given appears nowhere, the
    message being the same for every ASN. *)
Theorem generateIPv6RequestMessage_names_prefixes (asn : string)
    (ipv6Blocks : list string) :
  (forall p, p ∈ ipv6Blocks ->
     exists a b, generateIPv6RequestMessage asn ipv6Blocks
                 = message_head +:+ (a +:+ p +:+ b) +:+ message_tail) /\
  (ipv6Blocks = [] ->
   generateIPv6RequestMessage asn ipv6Blocks
   = message_head +:+ registry_links +:+ message_tail) /\
  (forall asn', generateIPv6RequestMessage asn' ipv6Blocks
                = generateIPv6RequestMessage asn ipv6Blocks).
Proof.
  split; [| split].
  - intros p Hin. unfold generateIPv6RequestMessage.
    destruct ipv6Blocks as [| x rest]; [apply elem_of_nil in Hin; contradiction |].
    cbn [length Nat.ltb Nat.leb].
    destruct (strings_Join_holds (x :: rest) ", " p Hin) as (a & b & Hj).
    rewrite Hj. exists a, b. reflexivity.
  - intros ->. reflexivity.
  - intros asn'. reflexivity.
Qed.

Lemma message_not_empty (asn : string) (l : list string) :
  generateIPv6RequestMessage asn l <> "".
Proof. unfold generateIPv6RequestMessage, message_head. simpl. discriminate. Qed.

(** What [V0.lookupIPv6] returns: a panic on a nil response, or an error
    that is not the empty string with a nil slice, or a slice. *)
Lemma V0_lookupIPv6_returns (asn : string) (s : State) :
  exists tr,
    adds (V0.lookupIPv6 asn) s tr /\
    length (calls_of tr) = 1%nat /\
    st_cache (snd (V0.lookupIPv6 asn s)) = st_cache s /\
    (fst (V0.lookupIPv6 asn s) = Panic NilDereference \/
     (exists e, fst (V0.lookupIPv6 asn s) = Ret (None, Some e) /\ e <> "") \/
     (exists sl, fst (V0.lookupIPv6 asn s) = Ret (sl, None))).
Proof.
  unfold adds. remember (V0.lookupIPv6 asn s) as x eqn:Hx.
  unfold V0.lookupIPv6, bind, call, defer_Body_Close in Hx.
  destruct (httpClient_Get _ (st_world s)) as [[[resp |] [e |]] w];
    cbn [fst snd] in Hx.
  - subst x. exists [EvCall (Some resp, Some e)]. cbn.
    repeat split. right. left. eexists. split; [reflexivity | discriminate].
  - destruct (negb (StatusCode resp =? 200)).
    + subst x. exists [EvCall (Some resp, None); EvClose resp]. cbn.
      rewrite <- app_assoc. repeat split.
      right. left. eexists. split; [reflexivity | discriminate].
    + destruct (decode_bgpViewData (Body resp)) as [e | bgp].
      * subst x. exists [EvCall (Some resp, None); EvClose resp]. cbn.
        rewrite <- app_assoc. repeat split.
        right. left. eexists. split; [reflexivity | discriminate].
      * match type of Hx with
        | context [append_prefixes ?ps None ?s0] =>
            destruct (append_prefixes_run ps None s0)
              as (sl & arrs' & Hrun & _ & _); rewrite Hrun in Hx
        end.
        subst x. exists [EvCall (Some resp, None); EvClose resp]. cbn.
        rewrite <- app_assoc. repeat split.
        right. right. exists sl. reflexivity.
  - subst x. exists [EvCall (None, Some e)]. cbn.
    repeat split. right. left. eexists. split; [reflexivity | discriminate].
  - subst x. exists [EvCall (None, None)]. cbn.
    repeat split. left. reflexivity.
Qed.

(** X26: the handler of the program before the cache answers a POST with
    one request to the upstream and shows either an error or the message,
    never both and never neither: an error comes with no prefixes and no
    message, and a successful lookup, of no prefixes even, comes with the
    message made from the prefixes found. The cache is not touched. *)
Theorem V0_formHandler_error_or_message (r : Request) (s : State) :
  Method r = "POST" ->
  exists tr,
    adds (V0.formHandler_pageData r) s tr /\
    length (calls_of tr) = 1%nat /\
    st_cache (snd (V0.formHandler_pageData r s)) = st_cache s /\
    (fst (V0.formHandler_pageData r s) = Panic NilDereference \/
     exists page,
       fst (V0.formHandler_pageData r s) = Ret page /\
       V0.page_ASN page = FormValue r "asn" /\
       ((V0.page_Error page <> "" /\ V0.page_Message page = "" /\
         V0.page_Prefixes page = None) \/
        (V0.page_Error page = "" /\ V0.page_Message page <> "" /\
         V0.page_Message page
         = generateIPv6RequestMessage (FormValue r "asn")
             (elems (st_heap (snd (V0.formHandler_pageData r s)))
                    (V0.page_Prefixes page))))).
Proof.
  intros Hpost.
  destruct (V0_lookupIPv6_returns (FormValue r "asn") s)
    as (tr & Htr & Hlen & Hc & Hres).
  exists tr. unfold adds in *. unfold V0.formHandler_pageData.
  rewrite Hpost. cbn [String.eqb Ascii.eqb Bool.eqb]. unfold bind.
  destruct (V0.lookupIPv6 (FormValue r "asn") s) as [[[sl [e |]] | p] s1];
    cbn [fst snd] in *; unfold ret; cbn [fst snd].
  - repeat split; try assumption. right.
    destruct Hres as [H | [(e' & H & Hne) | (sl' & H)]]; try discriminate H.
    injection H as -> ->.
    eexists. split; [reflexivity |]. split; [reflexivity |].
    left. cbn. repeat split. exact Hne.
  - repeat split; try assumption. right.
    eexists. split; [reflexivity |]. split; [reflexivity |].
    right. cbn. repeat split. apply message_not_empty.
  - repeat split; try assumption. left.
    destruct Hres as [H | [(e' & H & _) | (sl' & H)]]; try discriminate H.
    injection H as ->. reflexivity.
Qed.

(** X27: the cache and the retries do not change what a lookup answers
    when there is nothing to retry. On a miss, when the first request ends
    neither in a transport error nor in a 429, [lookupIPv6] returns what the
    program before the cache returns, with the same heap, the same state of
    the world and the same events; only the cache may differ. *)
Theorem lookupIPv6_agrees_with_V0 (asn : string) (s : State) :
  snd (cached s ("asn_" +:+ asn)) = false ->
  ~ retryable (fst (httpClient_Get (prefixes_url asn) (st_world s))) ->
  fst (lookupIPv6 asn s) = fst (V0.lookupIPv6 asn s) /\
  st_heap (snd (lookupIPv6 asn s)) = st_heap (snd (V0.lookupIPv6 asn s)) /\
  st_world (snd (lookupIPv6 asn s)) = st_world (snd (V0.lookupIPv6 asn s)) /\
  st_trace (snd (lookupIPv6 asn s)) = st_trace (snd (V0.lookupIPv6 asn s)) /\
  st_cache (snd (V0.lookupIPv6 asn s)) = st_cache s.
Proof.
  intros Hmiss Hfirst.
  remember (lookupIPv6 asn s) as new eqn:Hnew.
  remember (V0.lookupIPv6 asn s) as old eqn:Hold.
  unfold lookupIPv6 in Hnew. fold (prefixes_url asn) in Hnew.
  unfold bind at 1 in Hnew. unfold cache_Get in Hnew.
  fold (cached s ("asn_" +:+ asn)) in Hnew.
  rewrite Hmiss in Hnew. unfold bind at 1 in Hnew.
  unfold retryWithBackoff in Hnew. change (Z.to_nat 3) with 3%nat in Hnew.
  rewrite retry_loop_step in Hnew.
  unfold V0.lookupIPv6 in Hold. fold (prefixes_url asn) in Hold.
  unfold bind at 1 in Hold. unfold call in Hold.
  unfold retryable in Hfirst.
  destruct (httpClient_Get (prefixes_url asn) (st_world s))
    as [[[resp |] [e |]] w]; cbn [fst snd] in *.
  - exfalso. apply Hfirst. exact I.
  - destruct (StatusCode resp =? 429) eqn:H429.
    + exfalso. apply Hfirst. apply Z.eqb_eq. exact H429.
    + rewrite ?H429 in Hnew.
      unfold after_call, defer_Body_Close in *. cbn [fst snd] in *.
      rewrite ?H429 in Hnew.
      destruct (negb (StatusCode resp =? 200)).
      * subst new old. unfold ret. cbn. repeat split.
      * destruct (decode_bgpViewData (Body resp)) as [e | bgp].
        -- subst new old. unfold ret. cbn. repeat split.
        -- unfold bind in Hnew, Hold.
           match type of Hold with
           | context [append_prefixes ?ps None ?s0] =>
               destruct (append_prefixes_run ps None s0)
                 as (sl & arrs' & Hrun & _ & _);
               rewrite Hrun in Hold; rewrite Hrun in Hnew
           end.
           subst new old. unfold cache_Set, ret. cbn. repeat split.
  - exfalso. apply Hfirst. exact I.
  - subst new old. unfold after_call, panic. cbn. repeat split.
Qed.

End OldAndNew.

Lemma V0_formHandler_error_or_message_witness :
  exists tr,
    adds (V0.formHandler_pageData (env := scripted) posted_form)
         (start [ok200 "2001:db8::/32"]) tr /\
    length (calls_of tr) = 1%nat /\
    st_cache (snd (V0.formHandler_pageData (env := scripted) posted_form
                     (start [ok200 "2001:db8::/32"])))
    = st_cache (start [ok200 "2001:db8::/32"]) /\
    (fst (V0.formHandler_pageData (env := scripted) posted_form
            (start [ok200 "2001:db8::/32"]))
     = Panic NilDereference \/
     exists page,
       fst (V0.formHandler_pageData (env := scripted) posted_form
              (start [ok200 "2001:db8::/32"]))
       = Ret page /\
       V0.page_ASN page = FormValue posted_form "asn" /\
       ((V0.page_Error page <> "" /\ V0.page_Message page = "" /\
         V0.page_Prefixes page = None) \/
        (V0.page_Error page = "" /\ V0.page_Message page <> "" /\
         V0.page_Message page
         = generateIPv6RequestMessage (FormValue posted_form "asn")
             (elems (st_heap (snd (V0.formHandler_pageData (env := scripted)
                                     posted_form
                                     (start [ok200 "2001:db8::/32"]))))
                    (V0.page_Prefixes page))))).
Proof.
  apply (V0_formHandler_error_or_message (env := scripted) posted_form
           (start [ok200 "2001:db8::/32"])).
  reflexivity.
Defined.

Lemma lookupIPv6_agrees_with_V0_witness :
  fst (run_lookupIPv6 "64500" (start [ok200 "2001:db8::/32"]))
  = fst (V0.lookupIPv6 (env := scripted) "64500" (start [ok200 "2001:db8::/32"])).
Proof.
  apply (lookupIPv6_agrees_with_V0 (env := scripted) "64500"
           (start [ok200 "2001:db8::/32"])).
  - vm_compute. reflexivity.
  - unfold retryable. simpl. discriminate.
Defined.
